(** * Material Takeoff AI: reconciliation and consolidation

    A shallow embedding of the parts of the application that combine
    per-document analyses:

    - [JsString]: the two string built-ins used to form a grouping key
      ([toLowerCase], [trim]);
    - [PythonBridge.validateAreaCalculation] (services/pythonBridge.ts);
    - [GeminiService.analyzePdfWithGemini] (services/geminiService.ts), with
      the file reader, the prompt text, the remote call, [JSON.parse] and the
      Python health check as parameters;
    - [App.analyzePDFs] and [App.getConsolidatedSummary] (App.tsx);
    - [FileList.handleFileUpload], [FileList.removeFile] and
      [CsvExport.exportToCSV] (App.tsx);
    - [PythonClient.checkPythonAvailability] and
      [PythonClient.calculateAreaWithPython] (services/pythonBridge.ts), given
      what [fetch] does;
    - [Sequential.analyzePDFs], the loop of the earlier App.tsx that hands a
      summary of the earlier results to each analysis.

    Conventions.  A JavaScript [number] is an exact rational ([Q]); numeric
    results are compared with [==].  A field that may be missing is an
    [option].  A JavaScript string is a [string] whose characters are the
    code units 0..255 (Latin-1).  A [Map] is an association list in insertion
    order, which is the order [Map.prototype.values] iterates in.  A call
    that may throw returns an [Outcome]. *)

From Stdlib Require Import List String Ascii Bool Arith Lia ZArith QArith Qabs Lqa.
From Stdlib Require Import Permutation DecimalString.
Import ListNotations.
Local Open Scope string_scope.
Local Open Scope nat_scope.

(** ** JavaScript strings *)

Module JsString.

(** WhiteSpace and LineTerminator code units below 256:
    TAB, LF, VT, FF, CR, SP and NBSP. *)
Definition isWhiteSpace (c : ascii) : bool :=
  let n := nat_of_ascii c in
  (n =? 9) || (n =? 10) || (n =? 11) || (n =? 12) || (n =? 13)
  || (n =? 32) || (n =? 160).

(** Code units with a distinct lower-case form: A-Z, and the Latin-1
    capitals U+00C0..U+00DE without the multiplication sign U+00D7. *)
Definition isUpperCase (c : ascii) : bool :=
  let n := nat_of_ascii c in
  ((65 <=? n) && (n <=? 90))
  || ((192 <=? n) && (n <=? 222) && negb (n =? 215)).

Definition toLowerChar (c : ascii) : ascii :=
  if isUpperCase c then ascii_of_nat (nat_of_ascii c + 32) else c.

(** [String.prototype.toLowerCase] *)
Fixpoint toLowerCase (s : string) : string :=
  match s with
  | EmptyString => EmptyString
  | String c s' => String (toLowerChar c) (toLowerCase s')
  end.

(** [String.prototype.trimStart] *)
Fixpoint trimStart (s : string) : string :=
  match s with
  | EmptyString => EmptyString
  | String c s' => if isWhiteSpace c then trimStart s' else s
  end.

(** [String.prototype.trimEnd] *)
Fixpoint trimEnd (s : string) : string :=
  match s with
  | EmptyString => EmptyString
  | String c s' =>
      match trimEnd s' with
      | EmptyString => if isWhiteSpace c then EmptyString else String c EmptyString
      | r => String c r
      end
  end.

(** [String.prototype.trim] *)
Definition trim (s : string) : string := trimEnd (trimStart s).

(** A string made of white space only. *)
Fixpoint allWhiteSpace (s : string) : bool :=
  match s with
  | EmptyString => true
  | String c s' => isWhiteSpace c && allWhiteSpace s'
  end.




End JsString.

(** The grouping key of a material name, [m.material.toLowerCase().trim()]
    in [getConsolidatedSummary]. *)
Definition canonicalize (name : string) : string :=
  JsString.trim (JsString.toLowerCase name).

(** ** Shared types (types.ts) *)

(** The name of a material as it arrives from [JSON.parse]: the schema asks
    for a string, the consolidation guards against anything else. *)
Inductive JsValue : Type :=
| JsUndefined
| JsNull
| JsBool (b : bool)
| JsNumber (q : Q)
| JsStr (s : string).

Definition typeofIsString (v : JsValue) : bool :=
  match v with
  | JsStr _ => true
  | _ => false
  end.

Record Material : Type := mkMaterial {
  m_material : JsValue;
  m_code : option string;
  m_area : option Q;
  m_unit : option string;
  m_confidence : option Q;
  m_notes : option string
}.

Record Summary : Type := mkSummary {
  s_totalArea : option Q;
  s_materialCount : nat
}.

Inductive Recommendation : Type := use_ai | use_python | manual_review.

Record ValidationInfo : Type := mkValidationInfo {
  pythonUsed : bool;
  v_pythonArea : option Q;
  v_aiArea : option Q;
  v_difference : option Q;
  v_differencePercent : option Q;
  v_recommendation : option Recommendation;
  validationMessage : option string
}.

Record AnalysisResult : Type := mkAnalysisResult {
  isRoofRelated : bool;
  documentType : string;
  language : string;
  scale : string;
  materials : option (list (option Material));
  summary : option Summary;
  validation : option ValidationInfo
}.

(** [ResultFile extends AnalysisResult] with a [fileName]. *)
Record ResultFile : Type := mkResultFile {
  fileName : string;
  analysis : AnalysisResult
}.

Record ConsolidatedMaterial : Type := mkConsolidatedMaterial {
  cm_material : string;
  cm_code : string;
  cm_area : Q;
  cm_unit : option string;
  cm_confidence : Q;
  cm_sources : list string
}.

Record ConsolidatedSummary : Type := mkConsolidatedSummary {
  cs_materials : list ConsolidatedMaterial;
  cs_totalArea : Q;
  roofPlanCount : nat;
  totalPlanCount : nat
}.

(** [x || 0] on a number that may be missing: a missing value and zero both
    give zero, any other number is itself. *)
Definition orZero (x : option Q) : Q :=
  match x with
  | Some q => if Qeq_bool q 0 then 0%Q else q
  | None => 0%Q
  end.

(** [x || ''] on a string that may be missing. *)
Definition orEmpty (x : option string) : string :=
  match x with
  | Some s => s
  | None => ""
  end.

(** The truthy numbers: present and not zero. *)
Definition truthyNumber (x : option Q) : option Q :=
  match x with
  | Some q => if Qeq_bool q 0 then None else Some q
  | None => None
  end.

(** ** Thrown values *)

Inductive Thrown : Type :=
| ErrorObject (message : string)
| NotAnError.

Inductive Outcome (A : Type) : Type :=
| Returned (a : A)
| Threw (t : Thrown).

Arguments Returned {A} a.
Arguments Threw {A} t.

(** ** services/pythonBridge.ts *)

Module PythonBridge.

(** The fields of [PythonAreaResult] that [validateAreaCalculation] reads. *)
Record PythonAreaResult : Type := mkPythonAreaResult {
  success : bool;
  shape_type : option string;
  is_simple_rectangle : option bool;
  total_area_m2 : option Q
}.

(** The message templates of [validateAreaCalculation], with the numbers
    they interpolate kept as data (the source renders the percentage with
    [toFixed(1)]). *)
Inductive ValidationMessage : Type :=
| MsgUnavailable
| MsgValidated (percent : Q)
| MsgSimpleRectangle (percent : Q)
| MsgSignificant (percent : Q) (shape : option string)
| MsgManualReview (percent : Q).

Record Validation : Type := mkValidation {
  isValid : bool;
  pythonArea : Q;
  difference : Q;
  differencePercent : Q;
  recommendation : Recommendation;
  message : ValidationMessage
}.

(** The result of the first [return]: the Python calculation is unusable. *)
Definition unavailable : Validation :=
  {| isValid := true;
     pythonArea := 0%Q;
     difference := 0%Q;
     differencePercent := 0%Q;
     recommendation := use_ai;
     message := MsgUnavailable |}.

Definition truthyBool (b : option bool) : bool :=
  match b with
  | Some true => true
  | _ => false
  end.

Definition defaultTolerancePercent : Q := 15%Q.

(** [validateAreaCalculation(aiArea, pythonResult, tolerancePercent = 15)];
    [None] for the third argument is the call that omits it. *)
Definition validateAreaCalculation
  (aiArea : Q) (pythonResult : PythonAreaResult) (tolerance : option Q)
  : Validation :=
  let tolerancePercent :=
    match tolerance with
    | Some t => t
    | None => defaultTolerancePercent
    end in
  if negb (success pythonResult) then unavailable
  else
    match truthyNumber (total_area_m2 pythonResult) with
    | None => unavailable
    | Some pythonArea =>
        let difference := Qabs (aiArea - pythonArea) in
        let differencePercent := ((difference / pythonArea) * 100)%Q in
        if Qle_bool differencePercent tolerancePercent then
          {| isValid := true;
             pythonArea := pythonArea;
             difference := difference;
             differencePercent := differencePercent;
             recommendation := use_ai;
             message := MsgValidated differencePercent |}
        else if truthyBool (is_simple_rectangle pythonResult) then
          {| isValid := false;
             pythonArea := pythonArea;
             difference := difference;
             differencePercent := differencePercent;
             recommendation := use_python;
             message := MsgSimpleRectangle differencePercent |}
        else if negb (truthyBool (is_simple_rectangle pythonResult))
                && negb (Qle_bool differencePercent 20) then
          {| isValid := false;
             pythonArea := pythonArea;
             difference := difference;
             differencePercent := differencePercent;
             recommendation := use_python;
             message := MsgSignificant differencePercent (shape_type pythonResult) |}
        else
          {| isValid := false;
             pythonArea := pythonArea;
             difference := difference;
             differencePercent := differencePercent;
             recommendation := manual_review;
             message := MsgManualReview differencePercent |}
    end.

End PythonBridge.

(** ** services/geminiService.ts *)

Module GeminiService.

Record File : Type := mkFile {
  name : string;
  bytes : string
}.

Definition setValidation (a : AnalysisResult) (v : ValidationInfo) : AnalysisResult :=
  {| isRoofRelated := isRoofRelated a;
     documentType := documentType a;
     language := language a;
     scale := scale a;
     materials := materials a;
     summary := summary a;
     validation := Some v |}.

(** The object literals assigned to [analysisResults.validation]: only
    [pythonUsed] and [validationMessage] are given. *)
Definition pythonNotUsed (msg : string) : ValidationInfo :=
  {| pythonUsed := false;
     v_pythonArea := None;
     v_aiArea := None;
     v_difference := None;
     v_differencePercent := None;
     v_recommendation := None;
     validationMessage := Some msg |}.

(** [analysisResults.summary?.totalArea] *)
Definition summaryTotalArea (a : AnalysisResult) : option Q :=
  match summary a with
  | Some s => s_totalArea s
  | None => None
  end.

(** The catch clause around the Gemini call. *)
Definition wrapGeminiError (t : Thrown) : Thrown :=
  match t with
  | ErrorObject m => ErrorObject ("Gemini API error: " ++ m)
  | NotAnError => ErrorObject "An unknown error occurred during Gemini API call."
  end.

(** [Promise.all] over already started reads: the list of values, or the
    first rejection. *)
Fixpoint promiseAll (l : list (Outcome string)) : Outcome (list string) :=
  match l with
  | [] => Returned []
  | Returned x :: l' =>
      match promiseAll l' with
      | Returned xs => Returned (x :: xs)
      | Threw t => Threw t
      end
  | Threw t :: _ => Threw t
  end.

(** [allFiles.map((_, i) => i).filter(i => i !== targetIndex)] *)
Definition referenceIndices (allFiles : list File) (targetIndex : nat) : list nat :=
  filter (fun i => negb (i =? targetIndex)) (seq 0 (List.length allFiles)).

Section Engine.

(** The collaborators of [analyzePdfWithGemini]. *)
Variable fileToBase64 : File -> Outcome string.
(** [batchPrompt + ANALYSIS_PROMPT_TEMPLATE] (the template is in constants.ts). *)
Variable fullPrompt : list File -> nat -> string.
(** [ai.models.generateContent] followed by [response.text]. *)
Variable generateContent : list string -> string -> Outcome (option string).
Variable JSON_parse : string -> Outcome AnalysisResult.
Variable checkPythonAvailability : Outcome bool.

(** The block guarded by [isRoofRelated && summary?.totalArea]. *)
Definition attachValidation (analysisResults : AnalysisResult) : AnalysisResult :=
  if isRoofRelated analysisResults then
    match truthyNumber (summaryTotalArea analysisResults) with
    | Some _ =>
        match checkPythonAvailability with
        | Returned true =>
            setValidation analysisResults
              (pythonNotUsed
                 "Python validation available but requires server-side integration")
        | Returned false =>
            setValidation analysisResults
              (pythonNotUsed
                 "Python validation unavailable - install Python dependencies to enable")
        | Threw _ =>
            setValidation analysisResults
              (pythonNotUsed "Python validation failed - using AI-only result")
        end
    | None => analysisResults
    end
  else analysisResults.

(** The body of the [try] block. *)
Definition callGemini (parts : list string) (prompt : string) : Outcome AnalysisResult :=
  match generateContent parts prompt with
  | Threw t => Threw t
  | Returned responseText =>
      match responseText with
      | None | Some EmptyString => Threw (ErrorObject "API returned an empty response.")
      | Some text =>
          match JSON_parse text with
          | Threw t => Threw t
          | Returned analysisResults => Returned (attachValidation analysisResults)
          end
      end
  end.

Definition analyzePdfWithGemini (allFiles : list File) (targetIndex : nat)
  : Outcome AnalysisResult :=
  match promiseAll (map fileToBase64 allFiles) with
  | Threw t => Threw t
  | Returned allBase64 =>
      match nth_error allFiles targetIndex with
      | None => Threw (ErrorObject "Cannot read properties of undefined (reading 'name')")
      | Some _ =>
          let parts :=
            (map (fun i => nth i allBase64 "") (referenceIndices allFiles targetIndex)
             ++ [nth targetIndex allBase64 ""])%list in
          match callGemini parts (fullPrompt allFiles targetIndex) with
          | Threw t => Threw (wrapGeminiError t)
          | Returned r => Returned r
          end
      end
  end.

End Engine.

End GeminiService.

(** ** App.tsx *)

Module App.

Import GeminiService.

(** *** The material map of [getConsolidatedSummary] *)

Definition MaterialMap : Type := list (string * ConsolidatedMaterial).

(** [materialMap.get(key)]; [materialMap.has(key)] is [map_has]. *)
Fixpoint map_get (key : string) (m : MaterialMap) : option ConsolidatedMaterial :=
  match m with
  | [] => None
  | (k, v) :: m' => if String.eqb key k then Some v else map_get key m'
  end.

Definition map_has (key : string) (m : MaterialMap) : bool :=
  match map_get key m with
  | Some _ => true
  | None => false
  end.

(** [materialMap.set(key, v)]: an existing key keeps its position, a new
    key goes last. *)
Fixpoint map_set (key : string) (v : ConsolidatedMaterial) (m : MaterialMap)
  : MaterialMap :=
  match m with
  | [] => [(key, v)]
  | (k, v0) :: m' =>
      if String.eqb key k then (k, v) :: m' else (k, v0) :: map_set key v m'
  end.

(** [Array.from(materialMap.values())] *)
Definition map_values (m : MaterialMap) : list ConsolidatedMaterial :=
  map snd m.

Definition numberOfNat (n : nat) : Q := inject_Z (Z.of_nat n).

(** The object written when the key is already in the map:
    [{...existing, area, confidence, sources}]. *)
Definition merged (existing : ConsolidatedMaterial) (m : Material) (file : string)
  : ConsolidatedMaterial :=
  {| cm_material := cm_material existing;
     cm_code := cm_code existing;
     cm_area := (cm_area existing + orZero (m_area m))%Q;
     cm_unit := cm_unit existing;
     cm_confidence :=
       ((cm_confidence existing * numberOfNat (List.length (cm_sources existing))
         + orZero (m_confidence m))
        / (numberOfNat (List.length (cm_sources existing)) + 1))%Q;
     cm_sources := (cm_sources existing ++ [file])%list |}.

(** The object written for a key seen for the first time. *)
Definition seeded (name : string) (m : Material) (file : string)
  : ConsolidatedMaterial :=
  {| cm_material := name;
     cm_code := orEmpty (m_code m);
     cm_area := orZero (m_area m);
     cm_unit := m_unit m;
     cm_confidence := orZero (m_confidence m);
     cm_sources := [file] |}.

(** The callback of [result.materials?.forEach]; [None] is a null or
    undefined element, which [!m] rejects.  [has] followed by [get] is the
    match on [map_get]. *)
Definition addMaterial (file : string) (materialMap : MaterialMap)
  (m : option Material) : MaterialMap :=
  match m with
  | None => materialMap
  | Some m =>
      match m_material m with
      | JsStr name =>
          let key := canonicalize name in
          match map_get key materialMap with
          | Some existing => map_set key (merged existing m file) materialMap
          | None => map_set key (seeded name m file) materialMap
          end
      | _ => materialMap
      end
  end.

(** The callback of [roofResults.forEach]. *)
Definition addResult (materialMap : MaterialMap) (result : ResultFile) : MaterialMap :=
  match materials (analysis result) with
  | Some ms => fold_left (addMaterial (fileName result)) ms materialMap
  | None => materialMap
  end.

Definition roofResultsOf (results : list ResultFile) : list ResultFile :=
  filter (fun r => isRoofRelated (analysis r)) results.

(** The map after both loops. *)
Definition materialMapOf (results : list ResultFile) : MaterialMap :=
  fold_left addResult (roofResultsOf results) [].

Definition getConsolidatedSummary (results : list ResultFile)
  : option ConsolidatedSummary :=
  let roofResults := roofResultsOf results in
  if List.length roofResults =? 0 then None
  else
    let consolidatedMaterials := map_values (materialMapOf results) in
    let totalArea :=
      fold_left (fun acc m => (acc + cm_area m)%Q) consolidatedMaterials 0%Q in
    Some {| cs_materials := consolidatedMaterials;
            cs_totalArea := totalArea;
            roofPlanCount := List.length roofResults;
            totalPlanCount := List.length results |}.

(** *** The component state and [analyzePDFs] *)

(** [analysisStage]: the empty string, or
    [`Analyzing file ${i + 1} of ${files.length}: ${files[i].name}`]. *)
Inductive Stage : Type :=
| StageNone
| StageAnalyzing (number total : nat) (file : string).

Record State : Type := mkState {
  files : list File;
  processing : bool;
  results : list ResultFile;
  error : option string;
  analysisStage : Stage
}.

Definition setProcessing (b : bool) (st : State) : State :=
  {| files := files st; processing := b; results := results st;
     error := error st; analysisStage := analysisStage st |}.

Definition setResults (rs : list ResultFile) (st : State) : State :=
  {| files := files st; processing := processing st; results := rs;
     error := error st; analysisStage := analysisStage st |}.

Definition setError (e : option string) (st : State) : State :=
  {| files := files st; processing := processing st; results := results st;
     error := e; analysisStage := analysisStage st |}.

Definition setAnalysisStage (s : Stage) (st : State) : State :=
  {| files := files st; processing := processing st; results := results st;
     error := error st; analysisStage := s |}.

(** A run of [analyzePDFs]: the component state, the local [allResults],
    and every list that was handed to [setResults], oldest first. *)
Record Run : Type := mkRun {
  state : State;
  allResults : list ResultFile;
  published : list (list ResultFile)
}.

(** The text given to [setError] in the catch clause. *)
Definition errorText (t : Thrown) : string :=
  match t with
  | ErrorObject m => "Analysis failed: " ++ m
  | NotAnError => "An unknown error occurred."
  end.

Section Analyze.

(** The imported [analyzePdfWithGemini(files, i)]. *)
Variable analyzePdfWithGemini : list File -> nat -> Outcome AnalysisResult.

(** [for (let i = ...; i < files.length; i++)] with [todo] iterations left;
    the result is [Threw] when the body threw. *)
Fixpoint forLoop (fs : list File) (todo i : nat) (run : Run) : Outcome unit * Run :=
  match todo with
  | 0 => (Returned tt, run)
  | S todo' =>
      match nth_error fs i with
      | None =>
          (Threw (ErrorObject "Cannot read properties of undefined (reading 'name')"),
           run)
      | Some f =>
          let run1 :=
            {| state := setAnalysisStage
                          (StageAnalyzing (i + 1) (List.length fs) (name f))
                          (state run);
               allResults := allResults run;
               published := published run |} in
          match analyzePdfWithGemini fs i with
          | Threw t => (Threw t, run1)
          | Returned analysisResults =>
              let pushed :=
                (allResults run1
                 ++ [{| fileName := name f; analysis := analysisResults |}])%list in
              forLoop fs todo' (S i)
                {| state := setResults pushed (state run1);
                   allResults := pushed;
                   published := (published run1 ++ [pushed])%list |}
          end
      end
  end.

Definition analyzePDFs (st : State) : Run :=
  if List.length (files st) =? 0 then
    {| state := st; allResults := []; published := [] |}
  else
    let st0 := setResults [] (setError None (setProcessing true st)) in
    let start := {| state := st0; allResults := []; published := [[]] |} in
    let (outcome, run) := forLoop (files st) (List.length (files st)) 0 start in
    let caught :=
      match outcome with
      | Returned _ => setAnalysisStage StageNone (state run)
      | Threw t =>
          setAnalysisStage StageNone (setError (Some (errorText t)) (state run))
      end in
    {| state := setProcessing false caught;
       allResults := allResults run;
       published := published run |}.

End Analyze.

End App.

(** ** Vocabulary for the statements *)

Module Consolidation.

Import App.

(** The material entries in the order the two nested [forEach] loops visit
    them, each with the file name of its document. *)
Definition entriesOf (results : list ResultFile) : list (string * option Material) :=
  flat_map
    (fun r =>
       match materials (analysis r) with
       | Some ms => map (fun m => (fileName r, m)) ms
       | None => []
       end)
    (roofResultsOf results).

Definition addEntry (materialMap : MaterialMap) (e : string * option Material)
  : MaterialMap :=
  addMaterial (fst e) materialMap (snd e).

(** The name of an entry that passes the guard of the callback. *)
Definition nameOf (m : option Material) : option string :=
  match m with
  | Some m =>
      match m_material m with
      | JsStr name => Some name
      | _ => None
      end
  | None => None
  end.

(** The guard of the callback: the element is there and its name is a
    string. *)
Definition hasStringName (m : option Material) : bool :=
  match m with
  | Some mat => typeofIsString (m_material mat)
  | None => false
  end.

Definition keyOf (m : option Material) : option string :=
  match nameOf m with
  | Some name => Some (canonicalize name)
  | None => None
  end.

(** The first entry, in visiting order, whose key is [key]. *)
Fixpoint firstSeen (key : string) (es : list (string * option Material))
  : option (string * string * Material) :=
  match es with
  | [] => None
  | (file, Some m) :: es' =>
      match m_material m with
      | JsStr name =>
          if String.eqb key (canonicalize name) then Some (file, name, m)
          else firstSeen key es'
      | _ => firstSeen key es'
      end
  | (_, None) :: es' => firstSeen key es'
  end.

(** Two consolidated materials that show the same name, code and unit. *)
Definition sameIdentity (c c' : ConsolidatedMaterial) : Prop :=
  cm_material c = cm_material c'
  /\ cm_code c = cm_code c'
  /\ cm_unit c = cm_unit c'.

(** Keys are pairwise distinct and each is the key of the name it shows. *)
Definition wellKeyed (mm : MaterialMap) : Prop :=
  NoDup (map fst mm)
  /\ Forall (fun kc => fst kc = canonicalize (cm_material (snd kc))) mm.

(** The file names of the entries grouped under [key], in visiting order. *)
Fixpoint filesOf (key : string) (es : list (string * option Material))
  : list string :=
  match es with
  | [] => []
  | (file, m) :: es' =>
      match keyOf m with
      | Some k => if String.eqb key k then file :: filesOf key es' else filesOf key es'
      | None => filesOf key es'
      end
  end.

Fixpoint sumAreas (l : list ConsolidatedMaterial) : Q :=
  match l with
  | [] => 0%Q
  | m :: l' => (cm_area m + sumAreas l')%Q
  end.

Fixpoint countRelevant (results : list ResultFile) : nat :=
  match results with
  | [] => 0
  | r :: rs =>
      if isRoofRelated (analysis r) then S (countRelevant rs) else countRelevant rs
  end.

(** Sample data for the worked cases: an entry with every field present,
    and a document that carries nothing but its entries. *)
Definition sampleEntry (name : JsValue) (code unit : string) (area confidence : Q)
  : option Material :=
  Some {| m_material := name;
          m_code := Some code;
          m_area := Some area;
          m_unit := Some unit;
          m_confidence := Some confidence;
          m_notes := Some "" |}.

Definition sampleDocument (file : string) (relevant : bool)
  (ms : list (option Material)) : ResultFile :=
  {| fileName := file;
     analysis :=
       {| isRoofRelated := relevant;
          documentType := "roof plan";
          language := "English";
          scale := "1:100";
          materials := Some ms;
          summary := None;
          validation := None |} |}.

End Consolidation.

Module Batch.

Import GeminiService.

(** The records of the [n] documents from index [i] on, as long as the
    analysis of each returns. *)
Fixpoint recordsFrom (analyze : list File -> nat -> Outcome AnalysisResult)
  (fs : list File) (i n : nat) : list ResultFile :=
  match n with
  | 0 => []
  | S n' =>
      match nth_error fs i, analyze fs i with
      | Some f, Returned a =>
          {| fileName := name f; analysis := a |} :: recordsFrom analyze fs (S i) n'
      | _, _ => []
      end
  end.

(** A sample analysis and a sample component state for the worked case. *)
Definition sampleAnalysis : AnalysisResult :=
  {| isRoofRelated := true;
     documentType := "roof plan";
     language := "English";
     scale := "1:100";
     materials := Some [];
     summary := None;
     validation := None |}.

Definition sampleState (names : list string) : App.State :=
  {| App.files := map (fun n => {| name := n; bytes := "" |}) names;
     App.processing := false;
     App.results := [];
     App.error := None;
     App.analysisStage := App.StageNone |}.

End Batch.

(** What the entries with a given key, and all entries with a string name,
    add up to. *)
Module Totals.

Import App Consolidation.

Definition entryArea (m : option Material) : Q :=
  match m with
  | Some mat => orZero (m_area mat)
  | None => 0%Q
  end.

Definition entryConfidence (m : option Material) : Q :=
  match m with
  | Some mat => orZero (m_confidence mat)
  | None => 0%Q
  end.

(** The sum of the areas of the entries grouped under [key]. *)
Fixpoint areaOf (key : string) (es : list (string * option Material)) : Q :=
  match es with
  | [] => 0%Q
  | (_, m) :: es' =>
      match keyOf m with
      | Some k =>
          if String.eqb key k then (entryArea m + areaOf key es')%Q
          else areaOf key es'
      | None => areaOf key es'
      end
  end.

(** The sum of the confidences of the entries grouped under [key]. *)
Fixpoint confidenceOf (key : string) (es : list (string * option Material)) : Q :=
  match es with
  | [] => 0%Q
  | (_, m) :: es' =>
      match keyOf m with
      | Some k =>
          if String.eqb key k then (entryConfidence m + confidenceOf key es')%Q
          else confidenceOf key es'
      | None => confidenceOf key es'
      end
  end.

(** The sum of the areas of all entries with a string name. *)
Fixpoint namedArea (es : list (string * option Material)) : Q :=
  match es with
  | [] => 0%Q
  | (_, m) :: es' =>
      if hasStringName m then (entryArea m + namedArea es')%Q else namedArea es'
  end.

(** The number of entries with a string name. *)
Fixpoint namedCount (es : list (string * option Material)) : nat :=
  match es with
  | [] => 0
  | (_, m) :: es' =>
      if hasStringName m then S (namedCount es') else namedCount es'
  end.

(** The keys of the entries in the order in which each is met for the
    first time, leaving out those in [seen]. *)
Fixpoint newKeys (seen : list string) (es : list (string * option Material))
  : list string :=
  match es with
  | [] => []
  | (_, m) :: es' =>
      match keyOf m with
      | Some k =>
          if existsb (String.eqb k) seen then newKeys seen es'
          else k :: newKeys (seen ++ [k])%list es'
      | None => newKeys seen es'
      end
  end.

(** The number of sources over a list of consolidated materials. *)
Fixpoint sourceCount (l : list ConsolidatedMaterial) : nat :=
  match l with
  | [] => 0
  | c :: l' => List.length (cm_sources c) + sourceCount l'
  end.

End Totals.

(** Observations on a key. *)
Module KeyShape.

Definition headChar (s : string) : option ascii :=
  match s with
  | EmptyString => None
  | String c _ => Some c
  end.

Fixpoint lastChar (s : string) : option ascii :=
  match s with
  | EmptyString => None
  | String c EmptyString => Some c
  | String _ s' => lastChar s'
  end.

Fixpoint hasUpperCase (s : string) : bool :=
  match s with
  | EmptyString => false
  | String c s' => JsString.isUpperCase c || hasUpperCase s'
  end.

End KeyShape.

(** ** App.tsx: the file list *)

Module FileList.

Import GeminiService App.

Definition setFiles (fs : list File) (st : State) : State :=
  {| files := fs; processing := processing st; results := results st;
     error := error st; analysisStage := analysisStage st |}.

(** [l.filter((_, i) => i !== index)], where [i] is the index of the head
    of [l]. *)
Fixpoint filterOutIndex {A : Type} (index i : nat) (l : list A) : list A :=
  match l with
  | [] => []
  | x :: l' =>
      if i =? index then filterOutIndex index (S i) l'
      else x :: filterOutIndex index (S i) l'
  end.

Definition removeFile (index : nat) (st : State) : State :=
  setResults (filterOutIndex index 0 (results st))
    (setFiles (filterOutIndex index 0 (files st)) st).

Definition onlyPdfMessage : string :=
  "Only PDF files are supported. Non-PDF files have been ignored.".

Section Upload.

(** The [type] attribute of a browser [File]. *)
Variable fileType : File -> string.

Definition isPdf (f : File) : bool := String.eqb (fileType f) "application/pdf".

(** [handleFileUpload]; the argument is [event.target.files], [None] when
    it is null. *)
Definition handleFileUpload (targetFiles : option (list File)) (st : State)
  : State :=
  match targetFiles with
  | None => st
  | Some uploadedFiles =>
      let pdfFiles := filter isPdf uploadedFiles in
      let st1 :=
        if negb (List.length pdfFiles =? List.length uploadedFiles)
        then setError (Some onlyPdfMessage) st
        else setError None st in
      let st2 :=
        if 0 <? List.length pdfFiles
        then setFiles (files st1 ++ pdfFiles)%list st1
        else st1 in
      setResults [] st2
  end.

(** The three things a user does, each run to its end before the next. *)
Inductive Action : Type :=
| Upload (targetFiles : option (list File))
| Remove (index : nat)
| Analyze.

Variable analyzePdfWithGemini : list File -> nat -> Outcome AnalysisResult.

Definition act (st : State) (a : Action) : State :=
  match a with
  | Upload targetFiles => handleFileUpload targetFiles st
  | Remove index => removeFile index st
  | Analyze => state (analyzePDFs analyzePdfWithGemini st)
  end.

(** The [useState] initial values. *)
Definition initialState : State :=
  {| files := []; processing := false; results := []; error := None;
     analysisStage := StageNone |}.

Definition stateAfter (actions : list Action) : State :=
  fold_left act actions initialState.

End Upload.

(** Every result sits at the index of the file it was made from. *)
Definition aligned (st : State) : Prop :=
  forall i r,
    nth_error (results st) i = Some r ->
    exists f, nth_error (files st) i = Some f /\ fileName r = name f.

(** What holds between any two actions. *)
Definition settled (fileType : File -> string) (st : State) : Prop :=
  Forall (fun f => isPdf fileType f = true) (files st)
  /\ aligned st
  /\ processing st = false.

End FileList.

(** ** App.tsx: the CSV export *)

Module CsvExport.

(** The values that end up in a row, before [String(cell)]. *)
Inductive Cell : Type :=
| CellText (s : string)
| CellName (v : JsValue)
| CellNumber (x : option Q)
| CellUnit (u : option string).

(** The array pushed for one material of one result. *)
Definition rowOf (file : string) (m : Material) : list Cell :=
  [CellText (orEmpty (m_code m));
   CellName (m_material m);
   CellNumber (m_area m);
   CellUnit (m_unit m);
   CellNumber (m_confidence m);
   CellText (orEmpty (m_notes m));
   CellText file].

(** The callback of [result.materials?.forEach]: reading [m.code] of a null
    element throws. *)
Fixpoint pushRows (file : string) (ms : list (option Material))
  (rows : list (list Cell)) : Outcome (list (list Cell)) :=
  match ms with
  | [] => Returned rows
  | None :: _ =>
      Threw (ErrorObject "Cannot read properties of null (reading 'code')")
  | Some m :: ms' => pushRows file ms' (rows ++ [rowOf file m])%list
  end.

(** [roofResults.forEach(result => result.materials?.forEach(...))] *)
Fixpoint collectRows (roofResults : list ResultFile) (rows : list (list Cell))
  : Outcome (list (list Cell)) :=
  match roofResults with
  | [] => Returned rows
  | result :: rest =>
      match materials (analysis result) with
      | None => collectRows rest rows
      | Some ms =>
          match pushRows (fileName result) ms rows with
          | Returned rows' => collectRows rest rows'
          | Threw t => Threw t
          end
      end
  end.

Definition quote : ascii := ascii_of_nat 34.
Definition comma : ascii := ascii_of_nat 44.
Definition newline : string := String (ascii_of_nat 10) EmptyString.

(** The [replace] call of [exportToCSV]: every quotation mark (code unit
    34) becomes two. *)
Fixpoint escapeQuotes (text : string) : string :=
  match text with
  | EmptyString => EmptyString
  | String c text' =>
      if Ascii.eqb c quote then String quote (String quote (escapeQuotes text'))
      else String c (escapeQuotes text')
  end.

(** The template that wraps an escaped cell in quotation marks. *)
Definition quoted (text : string) : string :=
  String quote (escapeQuotes text ++ String quote EmptyString).

(** The header names; the superscript two is code unit 178. *)
Definition headers : list string :=
  ["Code"; "Material";
   "Area (m" ++ String (ascii_of_nat 178) ")";
   "Unit"; "Confidence"; "Notes"; "File Name"].

Section Content.

(** [String(cell)] *)
Variable cellToString : Cell -> string.

Definition csvLine (row : list Cell) : string :=
  String.concat (String comma EmptyString)
    (map (fun cell => quoted (cellToString cell)) row).

Definition csvContent (rows : list (list Cell)) : string :=
  String.concat newline
    (String.concat (String comma EmptyString) headers :: map csvLine rows).

(** [exportToCSV]: [Returned None] when it returns before building
    anything, otherwise the text handed to the [Blob]. *)
Definition exportToCSV (results : list ResultFile) : Outcome (option string) :=
  if List.length results =? 0 then Returned None
  else
    match collectRows (App.roofResultsOf results) [] with
    | Returned rows => Returned (Some (csvContent rows))
    | Threw t => Threw t
    end.

End Content.

(** The row of one visited entry. *)
Definition entryRow (e : string * option Material) : list Cell :=
  match snd e with
  | Some mat => rowOf (fst e) mat
  | None => []
  end.

(** A reader of one line of quoted cells: where it is in the line. *)
Inductive ReaderState : Type :=
| AtStart
| BeforeCell
| InCell (text : string)
| AfterQuote (text : string)
| Malformed.

Definition readChar (st : ReaderState * list string) (c : ascii)
  : ReaderState * list string :=
  let (state, cells) := st in
  match state with
  | AtStart | BeforeCell =>
      if Ascii.eqb c quote then (InCell EmptyString, cells) else (Malformed, cells)
  | InCell text =>
      if Ascii.eqb c quote then (AfterQuote text, cells)
      else (InCell (text ++ String c EmptyString), cells)
  | AfterQuote text =>
      if Ascii.eqb c quote then (InCell (text ++ String quote EmptyString), cells)
      else if Ascii.eqb c comma then (BeforeCell, (cells ++ [text])%list)
      else (Malformed, cells)
  | Malformed => (Malformed, cells)
  end.

Fixpoint readFrom (st : ReaderState * list string) (line : string)
  : ReaderState * list string :=
  match line with
  | EmptyString => st
  | String c line' => readFrom (readChar st c) line'
  end.

(** The cells of a line, when it is a comma-separated list of quoted cells
    with doubled quotation marks inside. *)
Definition readLine (line : string) : option (list string) :=
  match readFrom (AtStart, []) line with
  | (AtStart, cells) => Some cells
  | (AfterQuote text, cells) => Some (cells ++ [text])%list
  | _ => None
  end.

End CsvExport.

(** ** services/pythonBridge.ts: the calls to the backend *)

Module PythonClient.

Import PythonBridge.

(** What [fetch] resolves to: the [ok] flag, the status code and the
    outcome of [response.json()]. *)
Record Response (Body : Type) : Type := mkResponse {
  ok : bool;
  status : nat;
  json : Outcome Body
}.

Arguments ok {Body} _.
Arguments status {Body} _.
Arguments json {Body} _.

(** The body of the health endpoint, as far as it is read. *)
Record HealthBody : Type := mkHealthBody {
  h_status : JsValue;
  h_python : JsValue
}.


(** [v === text] *)
Definition strictlyEquals (v : JsValue) (text : string) : bool :=
  match v with
  | JsStr s => String.eqb s text
  | _ => false
  end.


(** [checkPythonAvailability], given what the [fetch] of the health
    endpoint does. *)
Definition checkPythonAvailability (fetched : Outcome (Response HealthBody))
  : bool :=
  match fetched with
  | Threw _ => false
  | Returned response =>
      if negb (ok response) then false
      else
        match json response with
        | Threw _ => false
        | Returned data =>
            strictlyEquals (h_status data) "ok"
            && strictlyEquals (h_python data) "available"
        end
  end.






End PythonClient.

(** ** The earlier App.tsx: analysis with a context summary *)

Module Sequential.

Import GeminiService.

(** [analysisStage]: the empty string,
    [`Processing file ${i + 1} of ${files.length}: ${file.name}`], or
    [`Analyzing ${file.name} with Gemini AI...`]. *)
Inductive Stage : Type :=
| StageNone
| StageProcessing (number total : nat) (file : string)
| StageAnalyzing (file : string).

Record State : Type := mkState {
  files : list File;
  contextFiles : list File;
  processing : bool;
  results : list ResultFile;
  error : option string;
  analysisStage : Stage;
  contextMode : bool
}.

Definition setProcessing (b : bool) (st : State) : State :=
  {| files := files st; contextFiles := contextFiles st; processing := b;
     results := results st; error := error st;
     analysisStage := analysisStage st; contextMode := contextMode st |}.

Definition setResults (rs : list ResultFile) (st : State) : State :=
  {| files := files st; contextFiles := contextFiles st;
     processing := processing st; results := rs; error := error st;
     analysisStage := analysisStage st; contextMode := contextMode st |}.

Definition setError (e : option string) (st : State) : State :=
  {| files := files st; contextFiles := contextFiles st;
     processing := processing st; results := results st; error := e;
     analysisStage := analysisStage st; contextMode := contextMode st |}.

Definition setAnalysisStage (g : Stage) (st : State) : State :=
  {| files := files st; contextFiles := contextFiles st;
     processing := processing st; results := results st; error := error st;
     analysisStage := g; contextMode := contextMode st |}.

(** A run of [analyzePDFs]: the component state and the local
    [allResults]. *)
Record Run : Type := mkRun {
  state : State;
  allResults : list ResultFile
}.

Definition nl : string := String (ascii_of_nat 10) EmptyString.

(** A natural number inside a template literal. *)
Definition decimal (n : nat) : string :=
  NilZero.string_of_uint (Nat.to_uint n).

Definition summaryHeader : string :=
  nl ++ nl ++ "CONTEXT FROM PREVIOUSLY ANALYZED DOCUMENTS:" ++ nl.

Definition summaryFooter : string :=
  nl ++ "USE THIS CONTEXT: If the current document references materials or specifications from previous documents, use that information to enhance your analysis. If previous documents contained legends/specifications and this document shows areas, combine the information." ++ nl.

Definition notesLine : string :=
  "- Notes: This document may contain specifications, legends, or area measurements that relate to the current document" ++ nl.

(** What reading [material] of a null element throws. *)
Definition nullMaterial : Thrown :=
  ErrorObject "Cannot read properties of null (reading 'material')".

(** [materials.map(m => m.material)]: reading [material] of a null element
    throws. *)
Fixpoint materialNames (ms : list (option Material)) : Outcome (list JsValue) :=
  match ms with
  | [] => Returned []
  | None :: _ => Threw nullMaterial
  | Some m :: ms' =>
      match materialNames ms' with
      | Returned names => Returned (m_material m :: names)
      | Threw t => Threw t
      end
  end.

(** A result can be described unless its materials hold a null element. *)
Definition describable (r : ResultFile) : Prop :=
  forall ms, materials (analysis r) = Some ms -> ~ In None ms.

Section Run.

(** [String(x)] on a number, as [Array.prototype.join] applies it. *)
Variable numberToString : Q -> string.

(** The imported [analyzePdfWithGemini(file, contextFiles, contextSummary)]. *)
Variable analyzePdfWithGemini :
  File -> list File -> string -> Outcome AnalysisResult.

(** How [join] renders one element. *)
Definition joinText (v : JsValue) : string :=
  match v with
  | JsUndefined | JsNull => ""
  | JsBool true => "true"
  | JsBool false => "false"
  | JsNumber q => numberToString q
  | JsStr text => text
  end.

(** The text that the callback of [roofRelatedResults.forEach] appends for
    [prevResult] at index [idx]. *)
Definition describe (idx : nat) (prevResult : ResultFile) : Outcome string :=
  let head :=
    nl ++ "Document " ++ decimal (idx + 1) ++ ": " ++ fileName prevResult ++ nl
    ++ "- Document Type: " ++ documentType (analysis prevResult) ++ nl
    ++ "- Scale: " ++ scale (analysis prevResult) ++ nl in
  match materials (analysis prevResult) with
  | Some (m :: ms) =>
      match materialNames (m :: ms) with
      | Returned names =>
          Returned
            (head ++ "- Materials found: "
             ++ String.concat ", " (map joinText names) ++ nl ++ notesLine)
      | Threw t => Threw t
      end
  | _ => Returned (head ++ notesLine)
  end.

(** [roofRelatedResults.forEach((prevResult, idx) => ...)], appending to
    [summary]. *)
Fixpoint describeAll (idx : nat) (roofRelatedResults : list ResultFile)
  (summary : string) : Outcome string :=
  match roofRelatedResults with
  | [] => Returned summary
  | prevResult :: rest =>
      match describe idx prevResult with
      | Returned text => describeAll (S idx) rest (summary ++ text)
      | Threw t => Threw t
      end
  end.

(** The summary built from a non-empty list of roof-related results. *)
Definition digest (roofRelatedResults : list ResultFile) : Outcome string :=
  match describeAll 0 roofRelatedResults summaryHeader with
  | Returned summary => Returned (summary ++ summaryFooter)
  | Threw t => Threw t
  end.

(** The [if (contextMode && allResults.length > 0)] block: the new value of
    the variable [contextSummary]. *)
Definition refreshSummary (mode : bool) (all : list ResultFile)
  (current : string) : Outcome string :=
  if mode && (0 <? List.length all) then
    let roofRelatedResults := filter (fun r => isRoofRelated (analysis r)) all in
    if 0 <? List.length roofRelatedResults then digest roofRelatedResults
    else Returned current
  else Returned current.

(** The loop with [todo] iterations left; [contextSummary] is the variable
    declared before the loop. *)
Fixpoint forLoop (fs cfs : list File) (mode : bool) (todo i : nat)
  (contextSummary : string) (run : Run) : Outcome unit * Run :=
  match todo with
  | 0 => (Returned tt, run)
  | S todo' =>
      match nth_error fs i with
      | None =>
          (Threw (ErrorObject "Cannot read properties of undefined (reading 'name')"),
           run)
      | Some file =>
          let st1 :=
            setAnalysisStage
              (StageProcessing (i + 1) (List.length fs) (name file))
              (state run) in
          match refreshSummary mode (allResults run) contextSummary with
          | Threw t => (Threw t, {| state := st1; allResults := allResults run |})
          | Returned summary =>
              let st2 := setAnalysisStage (StageAnalyzing (name file)) st1 in
              match analyzePdfWithGemini file cfs summary with
              | Threw t =>
                  (Threw t, {| state := st2; allResults := allResults run |})
              | Returned analysisResults =>
                  let pushed :=
                    (allResults run
                     ++ [{| fileName := name file;
                            analysis := analysisResults |}])%list in
                  forLoop fs cfs mode todo' (S i) summary
                    {| state := setResults pushed st2; allResults := pushed |}
              end
          end
      end
  end.

Definition analyzePDFs (st : State) : Run :=
  if List.length (files st) =? 0 then {| state := st; allResults := [] |}
  else
    let st0 := setResults [] (setError None (setProcessing true st)) in
    let start := {| state := st0; allResults := [] |} in
    let (outcome, run) :=
      forLoop (files st) (contextFiles st) (contextMode st)
        (List.length (files st)) 0 "" start in
    let caught :=
      match outcome with
      | Returned _ => setAnalysisStage StageNone (state run)
      | Threw t =>
          setAnalysisStage StageNone
            (setError (Some (App.errorText t)) (state run))
      end in
    {| state := setProcessing false caught; allResults := allResults run |}.

(** The context that belongs to a list of earlier results: the digest of
    the roof-related ones when the mode is on and there is one, otherwise the
    empty string. *)
Definition contextFor (mode : bool) (earlier : list ResultFile) : Outcome string :=
  let roofRelatedResults := filter (fun r => isRoofRelated (analysis r)) earlier in
  if mode && (0 <? List.length roofRelatedResults) then digest roofRelatedResults
  else Returned "".

(** The records of the [n] documents from index [i] on, each analysed with
    the context of the records before it, up to the first step that throws;
    with what was thrown, if anything. *)
Fixpoint recordsFrom (fs cfs : list File) (mode : bool) (i n : nat)
  (earlier : list ResultFile) : list ResultFile * option Thrown :=
  match n with
  | 0 => ([], None)
  | S n' =>
      match nth_error fs i with
      | None =>
          ([], Some (ErrorObject
                       "Cannot read properties of undefined (reading 'name')"))
      | Some file =>
          match contextFor mode earlier with
          | Threw t => ([], Some t)
          | Returned context =>
              match analyzePdfWithGemini file cfs context with
              | Threw t => ([], Some t)
              | Returned a =>
                  let record := {| fileName := name file; analysis := a |} in
                  let (records, thrown) :=
                    recordsFrom fs cfs mode (S i) n' (earlier ++ [record])%list in
                  (record :: records, thrown)
              end
          end
      end
  end.

End Run.

End Sequential.

(** * Properties *)

(** ** Grouping keys *)

Section KeyFacts.

Import JsString.

Lemma isWhiteSpace_toLowerChar (c : ascii) :
  isWhiteSpace (toLowerChar c) = isWhiteSpace c.
Proof. destruct c as [[] [] [] [] [] [] [] []]; reflexivity. Qed.


Lemma toLowerChar_lower (c : ascii) :
  isUpperCase c = false -> toLowerChar c = c.
Proof. unfold toLowerChar; intros ->; reflexivity. Qed.



Lemma toLowerCase_app (s t : string) :
  toLowerCase (s ++ t) = (toLowerCase s ++ toLowerCase t)%string.
Proof.
  induction s as [|c s IH]; simpl; [reflexivity | now rewrite IH].
Qed.


Lemma allWhiteSpace_toLowerCase (s : string) :
  allWhiteSpace (toLowerCase s) = allWhiteSpace s.
Proof.
  induction s as [|c s IH]; simpl; [reflexivity|].
  now rewrite isWhiteSpace_toLowerChar, IH.
Qed.




Lemma trimStart_allWhiteSpace (w : string) :
  allWhiteSpace w = true -> trimStart w = EmptyString.
Proof.
  induction w as [|c w IH]; simpl; [reflexivity|].
  intros [Hc Hw]%andb_true_iff. rewrite Hc. auto.
Qed.










End KeyFacts.



(** ** The reconciler *)

Local Open Scope Q_scope.

Section ReconcilerFacts.

Import PythonBridge.


Lemma truthyNumber_zero (a : Q) :
  a == 0 -> truthyNumber (Some a) = None.
Proof.
  intros Ha. unfold truthyNumber.
  apply Qeq_bool_iff in Ha. now rewrite Ha.
Qed.


Lemma Qle_bool_false (x y : Q) : Qle_bool x y = false <-> ~ x <= y.
Proof.
  rewrite <- Qle_bool_iff. destruct (Qle_bool x y); split; congruence.
Qed.

End ReconcilerFacts.




Section NegativeAndZeroAreas.

Import PythonBridge.





(** Leaving the tolerance out is the call with 15. *)
Lemma validateAreaCalculation_default (aiArea : Q) (pr : PythonAreaResult) :
  validateAreaCalculation aiArea pr None
  = validateAreaCalculation aiArea pr (Some 15).
Proof. reflexivity. Qed.

End NegativeAndZeroAreas.

(** C5, as stated, fails: a successful Python result whose area is 0 is
    rejected by the availability test, so a primary area of 50 is answered
    with the "unavailable" record: percentage 0 (not 100), valid, use the AI
    area. *)
Lemma zero_python_area_counterexample :
  let r :=
    PythonBridge.validateAreaCalculation 50
      {| PythonBridge.success := true;
         PythonBridge.shape_type := None;
         PythonBridge.is_simple_rectangle := Some false;
         PythonBridge.total_area_m2 := Some 0 |}
      None in
  ~ PythonBridge.differencePercent r == 100
  /\ PythonBridge.differencePercent r == 0
  /\ PythonBridge.isValid r = true
  /\ PythonBridge.recommendation r = use_ai.
Proof.
  cbn. repeat split; try reflexivity. discriminate.
Qed.

(** C5, amended. When the Python result carries an area equal to 0, the
    result is the "unavailable" record whatever the AI area and the
    tolerance are: Python area, difference and percentage are 0, the result
    is valid and recommends the AI area. *)
Theorem validateAreaCalculation_zero_area :
  forall (aiArea a : Q) (pr : PythonBridge.PythonAreaResult) (tol : option Q),
    PythonBridge.total_area_m2 pr = Some a ->
    a == 0 ->
    PythonBridge.validateAreaCalculation aiArea pr tol = PythonBridge.unavailable
    /\ PythonBridge.differencePercent
         (PythonBridge.validateAreaCalculation aiArea pr tol) = 0
    /\ PythonBridge.recommendation
         (PythonBridge.validateAreaCalculation aiArea pr tol) = use_ai.
Proof.
  intros aiArea a pr tol Ha Hz.
  assert (E : PythonBridge.validateAreaCalculation aiArea pr tol
              = PythonBridge.unavailable).
  { unfold PythonBridge.validateAreaCalculation.
    rewrite Ha, (truthyNumber_zero a Hz).
    destruct (negb (PythonBridge.success pr)); reflexivity. }
  rewrite E. repeat split.
Qed.

Lemma validateAreaCalculation_zero_area_witness :
  PythonBridge.validateAreaCalculation 50
    {| PythonBridge.success := true;
       PythonBridge.shape_type := None;
       PythonBridge.is_simple_rectangle := Some false;
       PythonBridge.total_area_m2 := Some 0 |}
    (Some 15)
  = PythonBridge.unavailable.
Proof.
  refine (proj1 (validateAreaCalculation_zero_area 50 0
                   {| PythonBridge.success := true;
                      PythonBridge.shape_type := None;
                      PythonBridge.is_simple_rectangle := Some false;
                      PythonBridge.total_area_m2 := Some 0 |}
                   (Some 15) eq_refl _)).
  reflexivity.
Defined.




(** ** Validation records *)

(** C7, as stated, fails for the records the analysis attaches: a
    roof-related document with a total area gets a record with
    [pythonUsed = false] whose recommendation is absent, not [use_ai]. *)
Lemma attached_validation_counterexample :
  let parsed :=
    {| isRoofRelated := true;
       documentType := "roof plan";
       language := "English";
       scale := "1:100";
       materials := Some [];
       summary := Some {| s_totalArea := Some 100; s_materialCount := 0%nat |};
       validation := None |} in
  let plan := {| GeminiService.name := "roof.pdf"; GeminiService.bytes := "%PDF" |} in
  exists r v,
    GeminiService.analyzePdfWithGemini
      (fun f => Returned (GeminiService.bytes f))
      (fun _ _ => "prompt")
      (fun _ _ => Returned (Some "{}"))
      (fun _ => Returned parsed)
      (Returned true)
      [plan] 0%nat = Returned r
    /\ validation r = Some v
    /\ pythonUsed v = false
    /\ v_recommendation v <> Some use_ai.
Proof.
  cbn. eexists. eexists. repeat split. discriminate.
Qed.

(** C7, amended. Every record that the analysis attaches to a result has
    [pythonUsed = false] and no recommendation at all (so never [use_python]
    nor [manual_review]); and the reconciler, when the Python result is
    unsuccessful or its area is missing or zero, recommends the AI area. *)
Theorem validation_not_used_records :
  (forall (fileToBase64 : GeminiService.File -> Outcome string)
          (fullPrompt : list GeminiService.File -> nat -> string)
          (generateContent : list string -> string -> Outcome (option string))
          (JSON_parse : string -> Outcome AnalysisResult)
          (checkPythonAvailability : Outcome bool)
          (allFiles : list GeminiService.File) (targetIndex : nat)
          (r : AnalysisResult) (v : ValidationInfo),
      (forall text a, JSON_parse text = Returned a -> validation a = None) ->
      GeminiService.analyzePdfWithGemini fileToBase64 fullPrompt generateContent
        JSON_parse checkPythonAvailability allFiles targetIndex = Returned r ->
      validation r = Some v ->
      pythonUsed v = false /\ v_recommendation v = None)
  /\ (forall (aiArea : Q) (pr : PythonBridge.PythonAreaResult) (tol : option Q),
         PythonBridge.success pr = false
         \/ truthyNumber (PythonBridge.total_area_m2 pr) = None ->
         PythonBridge.validateAreaCalculation aiArea pr tol
         = PythonBridge.unavailable
         /\ PythonBridge.recommendation
              (PythonBridge.validateAreaCalculation aiArea pr tol) = use_ai).
Proof.
  split.
  - intros fileToBase64 fullPrompt generateContent JSON_parse check
      allFiles targetIndex r v Hschema Hrun Hv.
    unfold GeminiService.analyzePdfWithGemini in Hrun.
    destruct (GeminiService.promiseAll (map fileToBase64 allFiles));
      [|discriminate].
    destruct (nth_error allFiles targetIndex); [|discriminate].
    unfold GeminiService.callGemini in Hrun.
    destruct (generateContent _ _) as [[[|c text]|]|]; try discriminate.
    destruct (JSON_parse (String c text)) as [parsed|] eqn:Hparse;
      [|discriminate].
    injection Hrun as <-.
    specialize (Hschema _ _ Hparse).
    unfold GeminiService.attachValidation in Hv.
    destruct (isRoofRelated parsed);
      [destruct (truthyNumber (GeminiService.summaryTotalArea parsed))|];
      [destruct check as [[|]|] | |];
      cbn in Hv; try congruence;
      injection Hv as <-; split; reflexivity.
  - intros aiArea pr tol H.
    assert (E : PythonBridge.validateAreaCalculation aiArea pr tol
                = PythonBridge.unavailable).
    { unfold PythonBridge.validateAreaCalculation.
      destruct H as [-> | ->]; [reflexivity|].
      destruct (negb (PythonBridge.success pr)); reflexivity. }
    rewrite E. split; reflexivity.
Qed.

Lemma validation_not_used_records_witness :
  let parsed :=
    {| isRoofRelated := true;
       documentType := "roof plan";
       language := "English";
       scale := "1:100";
       materials := Some [];
       summary := Some {| s_totalArea := Some 100; s_materialCount := 0%nat |};
       validation := None |} in
  let v :=
    GeminiService.pythonNotUsed
      "Python validation unavailable - install Python dependencies to enable" in
  pythonUsed v = false /\ v_recommendation v = None.
Proof.
  intros parsed v.
  refine (proj1 validation_not_used_records
            (fun f => Returned (GeminiService.bytes f))
            (fun _ _ => "prompt")
            (fun _ _ => Returned (Some "{}"))
            (fun _ => Returned parsed)
            (Returned false)
            [{| GeminiService.name := "roof.pdf"; GeminiService.bytes := "%PDF" |}]
            0%nat
            (GeminiService.setValidation parsed v) v _ _ _).
  - intros text a H. injection H as <-. reflexivity.
  - reflexivity.
  - reflexivity.
Defined.

(** ** The material map *)

Local Close Scope Q_scope.

Section MapFacts.

Import App.

Lemma map_get_set_same (k : string) (v : ConsolidatedMaterial) (m : MaterialMap) :
  map_get k (map_set k v m) = Some v.
Proof.
  induction m as [|[k0 v0] m IH]; simpl.
  - now rewrite String.eqb_refl.
  - destruct (String.eqb k k0) eqn:E; simpl; rewrite E; [reflexivity | exact IH].
Qed.

Lemma map_get_set_other (k k' : string) (v : ConsolidatedMaterial) (m : MaterialMap) :
  k' <> k -> map_get k' (map_set k v m) = map_get k' m.
Proof.
  intros Hne. induction m as [|[k0 v0] m IH]; simpl.
  - apply String.eqb_neq in Hne. now rewrite Hne.
  - destruct (String.eqb k k0) eqn:E; simpl.
    + apply String.eqb_eq in E. subst k0.
      apply String.eqb_neq in Hne. now rewrite Hne.
    + now rewrite IH.
Qed.

Lemma map_set_keys_present (k : string) (v c : ConsolidatedMaterial) (m : MaterialMap) :
  map_get k m = Some c -> map fst (map_set k v m) = map fst m.
Proof.
  induction m as [|[k0 v0] m IH]; simpl; [discriminate|].
  destruct (String.eqb k k0) eqn:E; simpl; [reflexivity|].
  intros H. now rewrite (IH H).
Qed.

Lemma map_set_keys_absent (k : string) (v : ConsolidatedMaterial) (m : MaterialMap) :
  map_get k m = None -> map fst (map_set k v m) = (map fst m ++ [k])%list.
Proof.
  induction m as [|[k0 v0] m IH]; simpl; [reflexivity|].
  destruct (String.eqb k k0) eqn:E; simpl; [discriminate|].
  intros H. now rewrite (IH H).
Qed.

Lemma map_get_in (k : string) (c : ConsolidatedMaterial) (m : MaterialMap) :
  map_get k m = Some c -> In (k, c) m.
Proof.
  induction m as [|[k0 v0] m IH]; simpl; [discriminate|].
  destruct (String.eqb k k0) eqn:E.
  - apply String.eqb_eq in E. intros [= ->]. subst. now left.
  - intros H. right. exact (IH H).
Qed.

Lemma map_get_none_keys (k : string) (m : MaterialMap) :
  map_get k m = None <-> ~ In k (map fst m).
Proof.
  induction m as [|[k0 v0] m IH]; simpl.
  - split; [intros _ [] | reflexivity].
  - destruct (String.eqb k k0) eqn:E.
    + apply String.eqb_eq in E. subst. split; [discriminate|].
      intros H. exfalso. apply H. now left.
    + apply String.eqb_neq in E. rewrite IH. split.
      * intros H [H1 | H1]; [congruence | contradiction].
      * intros H H1. apply H. now right.
Qed.

Lemma in_map_get (k : string) (c : ConsolidatedMaterial) (m : MaterialMap) :
  NoDup (map fst m) -> In (k, c) m -> map_get k m = Some c.
Proof.
  induction m as [|[k0 v0] m IH]; simpl; [intros _ []|].
  intros Hnd [H | H].
  - injection H as -> ->. now rewrite String.eqb_refl.
  - inversion Hnd as [|? ? Hnotin Hnd']; subst.
    destruct (String.eqb k k0) eqn:E.
    + apply String.eqb_eq in E. subst. exfalso. apply Hnotin.
      change k0 with (fst (k0, c)). now apply in_map.
    + now apply IH.
Qed.

End MapFacts.

(** ** Consolidation *)

Section ConsolidationFacts.

Import App Consolidation.

Lemma fold_addMaterial_entries (file : string) (ms : list (option Material))
  (mm : MaterialMap) :
  fold_left (addMaterial file) ms mm
  = fold_left addEntry (map (fun m => (file, m)) ms) mm.
Proof.
  revert mm. induction ms as [|m ms IH]; intros mm; simpl; [reflexivity|].
  apply IH.
Qed.

Lemma fold_addResult_entries (rs : list ResultFile) (mm : MaterialMap) :
  fold_left addResult rs mm
  = fold_left addEntry
      (flat_map
         (fun r =>
            match materials (analysis r) with
            | Some ms => map (fun m => (fileName r, m)) ms
            | None => []
            end) rs) mm.
Proof.
  revert mm. induction rs as [|r rs IH]; intros mm; simpl; [reflexivity|].
  rewrite fold_left_app, IH. f_equal. unfold addResult.
  destruct (materials (analysis r)) as [ms|]; simpl; [|reflexivity].
  apply fold_addMaterial_entries.
Qed.

Lemma materialMapOf_entries (results : list ResultFile) :
  materialMapOf results = fold_left addEntry (entriesOf results) [].
Proof. apply fold_addResult_entries. Qed.

(** The three ways the callback can go. *)
Lemma addEntry_cases (mm : MaterialMap) (file : string) (m : option Material) :
  (nameOf m = None /\ addEntry mm (file, m) = mm)
  \/ (exists mat name existing,
         m = Some mat /\ nameOf m = Some name
         /\ map_get (canonicalize name) mm = Some existing
         /\ addEntry mm (file, m)
            = map_set (canonicalize name) (merged existing mat file) mm)
  \/ (exists mat name,
         m = Some mat /\ nameOf m = Some name
         /\ map_get (canonicalize name) mm = None
         /\ addEntry mm (file, m)
            = map_set (canonicalize name) (seeded name mat file) mm).
Proof.
  unfold addEntry, addMaterial, nameOf; simpl.
  destruct m as [mat|]; [|now left].
  destruct (m_material mat) as [| |b|q|name]; try (now left).
  right. destruct (map_get (canonicalize name) mm) as [existing|] eqn:E.
  - left. exists mat, name, existing. now rewrite E.
  - right. exists mat, name. now rewrite E.
Qed.

Lemma NoDup_snoc (k : string) (l : list string) :
  NoDup l -> ~ In k l -> NoDup (l ++ [k]).
Proof.
  induction 1 as [|x l Hx Hnd IH]; simpl; intros Hk.
  - constructor; [intros []|constructor].
  - constructor.
    + rewrite in_app_iff. intros [H | [H | []]]; [contradiction|].
      apply Hk. now left.
    + apply IH. intros H. apply Hk. now right.
Qed.

Lemma map_set_Forall (P : string * ConsolidatedMaterial -> Prop)
  (k : string) (v : ConsolidatedMaterial) (m : MaterialMap) :
  Forall P m -> P (k, v) -> Forall P (map_set k v m).
Proof.
  intros Hm Hkv. induction Hm as [|[k0 v0] m H0 Hm IH]; simpl.
  - now constructor.
  - destruct (String.eqb k k0) eqn:E.
    + apply String.eqb_eq in E. subst. now constructor.
    + now constructor.
Qed.

Lemma addEntry_wellKeyed (mm : MaterialMap) (e : string * option Material) :
  wellKeyed mm -> wellKeyed (addEntry mm e).
Proof.
  intros [Hnd Hkeys]. destruct e as [file m].
  destruct (addEntry_cases mm file m)
    as [[_ ->] | [(mat & name & ex & _ & _ & Hget & ->)
                 | (mat & name & _ & _ & Hget & ->)]].
  - now split.
  - split.
    + now rewrite (map_set_keys_present _ _ _ _ Hget).
    + apply map_set_Forall; [exact Hkeys|]. simpl.
      apply map_get_in in Hget.
      rewrite Forall_forall in Hkeys. exact (Hkeys _ Hget).
  - split.
    + rewrite (map_set_keys_absent _ _ _ Hget).
      apply NoDup_snoc; [exact Hnd|]. now apply map_get_none_keys.
    + apply map_set_Forall; [exact Hkeys | reflexivity].
Qed.

Lemma fold_addEntry_wellKeyed (es : list (string * option Material))
  (mm : MaterialMap) :
  wellKeyed mm -> wellKeyed (fold_left addEntry es mm).
Proof.
  revert mm. induction es as [|e es IH]; intros mm H; simpl; [exact H|].
  apply IH. now apply addEntry_wellKeyed.
Qed.

Lemma materialMapOf_wellKeyed (results : list ResultFile) :
  wellKeyed (materialMapOf results).
Proof.
  rewrite materialMapOf_entries. apply fold_addEntry_wellKeyed.
  split; constructor.
Qed.

Lemma nameOf_Some (mat : Material) (name : string) :
  nameOf (Some mat) = Some name -> m_material mat = JsStr name.
Proof.
  unfold nameOf. destruct (m_material mat); congruence.
Qed.

Lemma firstSeen_skip (key file : string) (m : option Material)
  (es : list (string * option Material)) :
  nameOf m = None -> firstSeen key ((file, m) :: es) = firstSeen key es.
Proof.
  unfold nameOf. cbn [firstSeen]. destruct m as [mat|]; [|reflexivity].
  destruct (m_material mat); congruence.
Qed.

Lemma firstSeen_named (key file name : string) (mat : Material)
  (es : list (string * option Material)) :
  nameOf (Some mat) = Some name ->
  firstSeen key ((file, Some mat) :: es)
  = if String.eqb key (canonicalize name) then Some (file, name, mat)
    else firstSeen key es.
Proof.
  intros H. cbn [firstSeen]. now rewrite (nameOf_Some _ _ H).
Qed.

Lemma filesOf_skip (key file : string) (m : option Material)
  (es : list (string * option Material)) :
  nameOf m = None -> filesOf key ((file, m) :: es) = filesOf key es.
Proof.
  intros H. cbn [filesOf]. unfold keyOf. now rewrite H.
Qed.

Lemma filesOf_named (key file name : string) (m : option Material)
  (es : list (string * option Material)) :
  nameOf m = Some name ->
  filesOf key ((file, m) :: es)
  = if String.eqb key (canonicalize name) then file :: filesOf key es
    else filesOf key es.
Proof.
  intros H. cbn [filesOf]. unfold keyOf. now rewrite H.
Qed.

(** A key that is in the map stays, with the name, code and unit it has,
    and collects the files of the later entries with that key. *)
Lemma fold_keeps_identity (es : list (string * option Material)) :
  forall (mm : MaterialMap) (key : string) (c0 : ConsolidatedMaterial),
    map_get key mm = Some c0 ->
    exists c,
      map_get key (fold_left addEntry es mm) = Some c
      /\ sameIdentity c0 c
      /\ cm_sources c = (cm_sources c0 ++ filesOf key es)%list.
Proof.
  induction es as [|[file m] es IH]; intros mm key c0 Hget.
  - exists c0. simpl. rewrite app_nil_r. repeat split; assumption.
  - cbn [fold_left].
    destruct (addEntry_cases mm file m)
      as [[Hn ->] | [(mat & name & ex & -> & Hn & Hex & ->)
                    | (mat & name & -> & Hn & Hnone & ->)]].
    + rewrite (filesOf_skip _ _ _ _ Hn). now apply IH.
    + rewrite (filesOf_named _ _ _ _ _ Hn).
      destruct (String.eqb key (canonicalize name)) eqn:E.
      * apply String.eqb_eq in E. subst key.
        rewrite Hex in Hget. injection Hget as ->.
        destruct (IH (map_set (canonicalize name) (merged c0 mat file) mm)
                     (canonicalize name) (merged c0 mat file)
                     (map_get_set_same _ _ _))
          as (c & Hc & (Hm & Hco & Hu) & Hs).
        exists c. split; [exact Hc|]. split; [now repeat split|].
        rewrite Hs. cbn [cm_sources merged]. now rewrite <- app_assoc.
      * apply String.eqb_neq in E. apply IH.
        now rewrite (map_get_set_other _ _ _ _ E).
    + rewrite (filesOf_named _ _ _ _ _ Hn).
      destruct (String.eqb key (canonicalize name)) eqn:E.
      * apply String.eqb_eq in E. subst key. congruence.
      * apply String.eqb_neq in E. apply IH.
        now rewrite (map_get_set_other _ _ _ _ E).
Qed.

(** A key that is not in the map and is there at the end was seeded by the
    first entry with that key. *)
Lemma fold_first_seen (es : list (string * option Material)) :
  forall (mm : MaterialMap) (key : string) (c : ConsolidatedMaterial),
    map_get key mm = None ->
    map_get key (fold_left addEntry es mm) = Some c ->
    exists file name mat,
      firstSeen key es = Some (file, name, mat)
      /\ sameIdentity (seeded name mat file) c
      /\ cm_sources c = filesOf key es.
Proof.
  induction es as [|[file m] es IH]; intros mm key c Hnone Hc.
  - simpl in Hc. congruence.
  - cbn [fold_left] in Hc.
    destruct (addEntry_cases mm file m)
      as [[Hn E] | [(mat & name & ex & -> & Hn & Hex & E)
                   | (mat & name & -> & Hn & Hnew & E)]];
      rewrite E in Hc; clear E.
    + rewrite (firstSeen_skip _ _ _ _ Hn), (filesOf_skip _ _ _ _ Hn).
      now apply (IH mm).
    + rewrite (firstSeen_named _ _ _ _ _ Hn), (filesOf_named _ _ _ _ _ Hn).
      destruct (String.eqb key (canonicalize name)) eqn:E.
      * apply String.eqb_eq in E. subst key. congruence.
      * apply String.eqb_neq in E.
        apply (IH _ _ _ (eq_trans (map_get_set_other _ _ _ _ E) Hnone) Hc).
    + rewrite (firstSeen_named _ _ _ _ _ Hn), (filesOf_named _ _ _ _ _ Hn).
      destruct (String.eqb key (canonicalize name)) eqn:E.
      * apply String.eqb_eq in E. subst key.
        destruct (fold_keeps_identity es _ _ _
                    (map_get_set_same (canonicalize name)
                       (seeded name mat file) mm))
          as (c' & Hc' & Hid & Hs).
        rewrite Hc' in Hc. injection Hc as ->.
        exists file, name, mat. repeat split; try apply Hid. exact Hs.
      * apply String.eqb_neq in E.
        apply (IH _ _ _ (eq_trans (map_get_set_other _ _ _ _ E) Hnone) Hc).
Qed.

(** Every entry with a string name has its key in the final map. *)
Lemma fold_has_entry (es : list (string * option Material)) :
  forall (mm : MaterialMap) (file name : string) (m : option Material),
    In (file, m) es -> nameOf m = Some name ->
    map_has (canonicalize name) (fold_left addEntry es mm) = true.
Proof.
  induction es as [|[file0 m0] es IH]; intros mm file name m Hin Hn;
    [destruct Hin|].
  cbn [fold_left]. destruct Hin as [Heq | Hin]; [|now apply (IH _ file name m)].
  injection Heq as -> ->.
  assert (Hget : exists c0,
             map_get (canonicalize name) (addEntry mm (file, m)) = Some c0).
  { destruct (addEntry_cases mm file m)
      as [[Hn' _] | [(mat & name' & ex & _ & Hn' & _ & ->)
                    | (mat & name' & _ & Hn' & _ & ->)]].
    - congruence.
    - assert (name' = name) by congruence. subst.
      eexists. apply map_get_set_same.
    - assert (name' = name) by congruence. subst.
      eexists. apply map_get_set_same. }
  destruct Hget as (c0 & Hc0).
  destruct (fold_keeps_identity es _ _ _ Hc0) as (c & Hc & _).
  unfold map_has. now rewrite Hc.
Qed.

End ConsolidationFacts.

Section SummaryFacts.

Import App Consolidation.

Local Open Scope Q_scope.

Lemma fold_left_sumAreas (l : list ConsolidatedMaterial) (a : Q) :
  fold_left (fun acc m => acc + cm_area m) l a == a + sumAreas l.
Proof.
  revert a. induction l as [|m l IH]; intros a; simpl.
  - ring.
  - rewrite IH. ring.
Qed.

Lemma roofResultsOf_length (results : list ResultFile) :
  List.length (roofResultsOf results) = countRelevant results.
Proof.
  unfold roofResultsOf.
  induction results as [|r rs IH]; simpl; [reflexivity|].
  destruct (isRoofRelated (analysis r)); simpl; now rewrite IH.
Qed.

Lemma countRelevant_zero (results : list ResultFile) :
  countRelevant results = 0%nat
  <-> (forall r, In r results -> isRoofRelated (analysis r) = false).
Proof.
  induction results as [|r rs IH]; simpl.
  - split; [intros _ r [] | reflexivity].
  - destruct (isRoofRelated (analysis r)) eqn:E.
    + split; [discriminate|]. intros H.
      specialize (H r (or_introl eq_refl)). congruence.
    + rewrite IH. split.
      * intros H r' [<- | Hin]; [exact E | now apply H].
      * intros H r' Hin. apply H. now right.
Qed.

Lemma getConsolidatedSummary_Some (results : list ResultFile)
  (s : ConsolidatedSummary) :
  getConsolidatedSummary results = Some s ->
  cs_materials s = map_values (materialMapOf results)
  /\ cs_totalArea s
     = fold_left (fun acc m => acc + cm_area m)
         (map_values (materialMapOf results)) 0
  /\ roofPlanCount s = List.length (roofResultsOf results)
  /\ totalPlanCount s = List.length results.
Proof.
  unfold getConsolidatedSummary.
  destruct (List.length (roofResultsOf results) =? 0)%nat; [discriminate|].
  intros [= <-]. repeat split.
Qed.

End SummaryFacts.

(** C8. The summary is absent exactly when no result is roof related, as
    for the empty list and for a list of unrelated documents only; otherwise
    its total area is the sum of the areas of its materials, its roof plan
    count is the number of roof-related results, and its total plan count is
    the number of results. *)
Theorem getConsolidatedSummary_absent_or_totals :
  forall results : list ResultFile,
    (App.getConsolidatedSummary results = None
     <-> (forall r, In r results -> isRoofRelated (analysis r) = false))
    /\ (forall s,
           App.getConsolidatedSummary results = Some s ->
           (cs_totalArea s == Consolidation.sumAreas (cs_materials s))%Q
           /\ roofPlanCount s = Consolidation.countRelevant results
           /\ totalPlanCount s = List.length results).
Proof.
  intros results. split.
  - rewrite <- countRelevant_zero, <- roofResultsOf_length.
    unfold App.getConsolidatedSummary.
    destruct (List.length (App.roofResultsOf results)) as [|n]; simpl.
    + split; reflexivity.
    + split; discriminate.
  - intros s Hs.
    destruct (getConsolidatedSummary_Some results s Hs) as (Hm & Ht & Hr & Hn).
    rewrite Ht, Hm, Hr, Hn. repeat split.
    + rewrite fold_left_sumAreas. ring.
    + apply roofResultsOf_length.
Qed.

Lemma getConsolidatedSummary_absent_or_totals_witness :
  let unrelated := Consolidation.sampleDocument "site.pdf" false [] in
  let roof :=
    Consolidation.sampleDocument "roof.pdf" true
      [Consolidation.sampleEntry (JsStr "EPDM") "DRL" "m2" 50 0.8] in
  App.getConsolidatedSummary [] = None
  /\ App.getConsolidatedSummary [unrelated] = None
  /\ (exists s,
         App.getConsolidatedSummary [unrelated; roof] = Some s
         /\ (cs_totalArea s == Consolidation.sumAreas (cs_materials s))%Q
         /\ roofPlanCount s = 1%nat
         /\ totalPlanCount s = 2%nat).
Proof.
  intros unrelated roof. split; [|split].
  - apply (proj1 (getConsolidatedSummary_absent_or_totals [])).
    intros r [].
  - apply (proj1 (getConsolidatedSummary_absent_or_totals [unrelated])).
    intros r [<- | []]. reflexivity.
  - eexists. split; [reflexivity|].
    exact (proj2 (getConsolidatedSummary_absent_or_totals [unrelated; roof])
             _ eq_refl).
Defined.

(** C2. Consolidation keeps one group per grouping key: the keys of the
    material map are pairwise distinct, the summary lists the values of that
    map, every entry of a roof-related document that has a string name has
    its key in the map, and a group lists the files of exactly the entries
    with its key, in visiting order.  When the key of an entry is already in
    the map, the stored area grows by the area of the entry (0 when missing),
    the stored confidence becomes (confidence * n + (confidence of the entry
    or 0)) / (n + 1) with n the number of sources stored so far, and the
    file name is appended to the sources.  Two roof-related documents with
    "EPDM" (50, 0.8) and " epdm " (30, 0.6) give exactly one consolidated
    material, with area 80, confidence 0.7 and two sources. *)
Theorem consolidation_groups_and_merges :
  (forall results : list ResultFile,
      NoDup (map fst (App.materialMapOf results))
      /\ (forall s,
             App.getConsolidatedSummary results = Some s ->
             cs_materials s = App.map_values (App.materialMapOf results))
      /\ (forall file m name,
             In (file, m) (Consolidation.entriesOf results) ->
             Consolidation.nameOf m = Some name ->
             App.map_has (canonicalize name) (App.materialMapOf results) = true)
      /\ (forall key c,
             App.map_get key (App.materialMapOf results) = Some c ->
             cm_sources c
             = Consolidation.filesOf key (Consolidation.entriesOf results)))
  /\ (forall (file : string) (mm : App.MaterialMap) (m : Material)
             (name : string) (existing : ConsolidatedMaterial),
         m_material m = JsStr name ->
         App.map_get (canonicalize name) mm = Some existing ->
         let n := App.numberOfNat (List.length (cm_sources existing)) in
         exists c,
           App.map_get (canonicalize name) (App.addMaterial file mm (Some m))
           = Some c
           /\ cm_area c = (cm_area existing + orZero (m_area m))%Q
           /\ cm_confidence c
              = ((cm_confidence existing * n + orZero (m_confidence m))
                 / (n + 1))%Q
           /\ cm_sources c = (cm_sources existing ++ [file])%list)
  /\ (let a :=
        Consolidation.sampleDocument "a.pdf" true
          [Consolidation.sampleEntry (JsStr "EPDM") "" "m2" 50 0.8] in
      let b :=
        Consolidation.sampleDocument "b.pdf" true
          [Consolidation.sampleEntry (JsStr " epdm ") "" "m2" 30 0.6] in
      exists s c,
        App.getConsolidatedSummary [a; b] = Some s
        /\ cs_materials s = [c]
        /\ (cm_area c == 80)%Q
        /\ (cm_confidence c == 0.7)%Q
        /\ List.length (cm_sources c) = 2%nat).
Proof.
  split; [|split].
  - intros results. split; [|split; [|split]].
    + apply materialMapOf_wellKeyed.
    + intros s Hs. apply (getConsolidatedSummary_Some results s Hs).
    + intros file m name Hin Hn. rewrite materialMapOf_entries.
      exact (fold_has_entry _ [] file name m Hin Hn).
    + intros key c Hc. rewrite materialMapOf_entries in Hc.
      destruct (fold_first_seen _ [] key c eq_refl Hc) as (_ & _ & _ & _ & _ & Hs).
      exact Hs.
  - intros file mm m name existing Hname Hget n.
    exists (App.merged existing m file).
    unfold App.addMaterial. rewrite Hname, Hget.
    split; [apply map_get_set_same | repeat split].
  - cbv zeta. eexists. eexists. repeat split.
Qed.

Lemma consolidation_groups_and_merges_witness :
  let first :=
    {| cm_material := "EPDM"; cm_code := ""; cm_area := 50%Q;
       cm_unit := Some "m2"; cm_confidence := 0.8%Q;
       cm_sources := ["a.pdf"] |} in
  let later :=
    {| m_material := JsStr " epdm "; m_code := Some ""; m_area := Some 30%Q;
       m_unit := Some "m2"; m_confidence := Some 0.6%Q; m_notes := None |} in
  exists c,
    App.map_get "epdm" (App.addMaterial "b.pdf" [("epdm", first)] (Some later))
    = Some c
    /\ cm_area c = (50 + 30)%Q
    /\ cm_confidence c = ((0.8 * 1 + 0.6) / (1 + 1))%Q
    /\ cm_sources c = ["a.pdf"; "b.pdf"].
Proof.
  intros first later.
  exact (proj1 (proj2 consolidation_groups_and_merges)
           "b.pdf" [("epdm", first)] later " epdm " first eq_refl eq_refl).
Defined.

(** C10. Merging an entry into a key that is already in the map replaces
    the stored material by one that differs in area, confidence and sources
    only: name, code and unit stay, every other key keeps its value, and the
    order of the keys stays.  Hence every material of a summary shows the
    name, the code (or the empty string) and the unit of the first entry, in
    visiting order, that has its key. *)
Theorem merge_keeps_first_seen_identity :
  (forall (file : string) (mm : App.MaterialMap) (m : Material)
          (name : string) (existing : ConsolidatedMaterial),
      m_material m = JsStr name ->
      App.map_get (canonicalize name) mm = Some existing ->
      let mm' := App.addMaterial file mm (Some m) in
      exists c,
        App.map_get (canonicalize name) mm' = Some c
        /\ cm_material c = cm_material existing
        /\ cm_code c = cm_code existing
        /\ cm_unit c = cm_unit existing
        /\ (forall k, k <> canonicalize name ->
                      App.map_get k mm' = App.map_get k mm)
        /\ map fst mm' = map fst mm)
  /\ (forall (results : list ResultFile) (s : ConsolidatedSummary)
             (c : ConsolidatedMaterial),
         App.getConsolidatedSummary results = Some s ->
         In c (cs_materials s) ->
         exists file name m,
           Consolidation.firstSeen (canonicalize (cm_material c))
             (Consolidation.entriesOf results) = Some (file, name, m)
           /\ cm_material c = name
           /\ cm_code c = orEmpty (m_code m)
           /\ cm_unit c = m_unit m).
Proof.
  split.
  - intros file mm m name existing Hname Hget mm'.
    exists (App.merged existing m file).
    subst mm'. unfold App.addMaterial. rewrite Hname, Hget.
    split; [apply map_get_set_same|].
    repeat split.
    + intros k Hk. now apply map_get_set_other.
    + exact (map_set_keys_present _ _ _ _ Hget).
  - intros results s c Hs Hin.
    destruct (getConsolidatedSummary_Some results s Hs) as (Hm & _).
    rewrite Hm in Hin. unfold App.map_values in Hin.
    apply in_map_iff in Hin. destruct Hin as ([k c'] & Hc' & Hin).
    simpl in Hc'. subst c'.
    destruct (materialMapOf_wellKeyed results) as [Hnd Hkeys].
    assert (Hk : k = canonicalize (cm_material c)).
    { rewrite Forall_forall in Hkeys. exact (Hkeys _ Hin). }
    apply (in_map_get _ _ _ Hnd) in Hin.
    rewrite materialMapOf_entries, Hk in Hin.
    destruct (fold_first_seen _ [] _ c eq_refl Hin)
      as (file & name & m & Hfirst & (Hma & Hco & Hu) & _).
    exists file, name, m. repeat split; [exact Hfirst | | |]; now symmetry.
Qed.

Lemma merge_keeps_first_seen_identity_witness :
  let a :=
    Consolidation.sampleDocument "a.pdf" true
      [Consolidation.sampleEntry (JsStr "EPDM") "DRL" "m2" 50 0.8] in
  let b :=
    Consolidation.sampleDocument "b.pdf" true
      [Consolidation.sampleEntry (JsStr " epdm ") "ISO" "sq ft" 30 0.6] in
  exists s c,
    App.getConsolidatedSummary [a; b] = Some s
    /\ cs_materials s = [c]
    /\ cm_material c = "EPDM"
    /\ cm_code c = "DRL"
    /\ cm_unit c = Some "m2".
Proof.
  intros a b.
  destruct (proj2 merge_keeps_first_seen_identity [a; b] _ _
              eq_refl (or_introl eq_refl))
    as (file & name & m & Hfirst & Hma & Hco & Hu).
  vm_compute in Hfirst. injection Hfirst as <- <- <-.
  eexists. eexists.
  split; [reflexivity|]. split; [reflexivity|].
  split; [exact Hma|]. split; [exact Hco | exact Hu].
Defined.




(** ** The batch run *)

Section BatchFacts.

Import GeminiService App Batch.

Variable analyze : list File -> nat -> Outcome AnalysisResult.
Variable fs : list File.

Lemma recordsFrom_firstn (n : nat) :
  forall i j, j <= n ->
    firstn j (recordsFrom analyze fs i n) = recordsFrom analyze fs i j.
Proof.
  induction n as [|n IH]; intros i j Hj.
  - assert (j = 0) by lia. subst. reflexivity.
  - destruct j as [|j]; [reflexivity|].
    cbn [recordsFrom].
    destruct (nth_error fs i) as [f|]; [|reflexivity].
    destruct (analyze fs i) as [a|t]; [|reflexivity].
    cbn [firstn]. f_equal. apply IH. lia.
Qed.

Lemma recordsFrom_length (n : nat) :
  forall i,
    i + n <= List.length fs ->
    (forall j, i <= j < i + n -> exists a, analyze fs j = Returned a) ->
    List.length (recordsFrom analyze fs i n) = n.
Proof.
  induction n as [|n IH]; intros i Hlen Hok; [reflexivity|].
  cbn [recordsFrom].
  destruct (nth_error fs i) as [f|] eqn:Hf.
  - destruct (Hok i) as (a & Ha); [lia|]. rewrite Ha. simpl.
    f_equal. apply IH; [lia|]. intros j Hj. apply Hok. lia.
  - apply nth_error_None in Hf. lia.
Qed.

Lemma recordsFrom_nth (n : nat) :
  forall i j f a,
    j < n ->
    (forall l, i <= l < i + j -> exists b, analyze fs l = Returned b) ->
    (forall l, i <= l < i + j -> l < List.length fs) ->
    nth_error fs (i + j) = Some f ->
    analyze fs (i + j) = Returned a ->
    nth_error (recordsFrom analyze fs i n) j
    = Some {| fileName := name f; analysis := a |}.
Proof.
  induction n as [|n IH]; intros i j f a Hj Hok Hin Hf Ha; [lia|].
  cbn [recordsFrom]. destruct j as [|j].
  - rewrite Nat.add_0_r in Hf, Ha. now rewrite Hf, Ha.
  - destruct (nth_error fs i) as [f0|] eqn:Hf0.
    + destruct (Hok i) as (b & Hb); [lia|]. rewrite Hb. cbn [nth_error].
      apply IH; try lia.
      * intros l Hl. apply Hok. lia.
      * intros l Hl. apply Hin. lia.
      * now replace (S i + j) with (i + S j) by lia.
      * now replace (S i + j) with (i + S j) by lia.
    + apply nth_error_None in Hf0. specialize (Hin i). lia.
Qed.

(** The loop from index [i] when the analysis of document [k] throws and
    those before it return. *)
Lemma forLoop_throws (k : nat) (t : Thrown) :
  analyze fs k = Threw t ->
  forall todo i run,
    i + todo = List.length fs ->
    i <= k < i + todo ->
    (forall j, i <= j < k -> exists a, analyze fs j = Returned a) ->
    results (state run) = allResults run ->
    exists run' extra,
      forLoop analyze fs todo i run = (Threw t, run')
      /\ allResults run' = (allResults run ++ recordsFrom analyze fs i (k - i))%list
      /\ results (state run') = allResults run'
      /\ error (state run') = error (state run)
      /\ published run' = (published run ++ extra)%list
      /\ Forall
           (fun snapshot =>
              exists j, j <= k - i
                        /\ snapshot
                           = (allResults run ++ recordsFrom analyze fs i j)%list)
           extra.
Proof.
  intros Hk. induction todo as [|todo IH]; intros i run Hlen Hik Hok Hres; [lia|].
  cbn [forLoop].
  destruct (nth_error fs i) as [f|] eqn:Hf;
    [|apply nth_error_None in Hf; lia].
  destruct (Nat.eq_dec i k) as [-> | Hne].
  - rewrite Hk. eexists. exists []. split; [reflexivity|].
    rewrite Nat.sub_diag. cbn. rewrite !app_nil_r.
    repeat split; try assumption. constructor.
  - destruct (Hok i) as (a & Ha); [lia|]. rewrite Ha.
    set (pushed := (allResults run ++ [{| fileName := name f; analysis := a |}])%list).
    cbn [allResults published state].
    destruct (IH (S i)
                {| state := setResults pushed
                              (setAnalysisStage
                                 (StageAnalyzing (i + 1) (List.length fs) (name f))
                                 (state run));
                   allResults := pushed;
                   published := (published run ++ [pushed])%list |})
      as (run' & extra & Hrun & Hall & Hres' & Herr & Hpub & Hextra);
      [lia | lia | intros j Hj; apply Hok; lia | reflexivity |].
    cbn [allResults published state] in Hall, Hpub, Hextra, Herr.
    assert (Hrec : forall j,
               recordsFrom analyze fs i (S j)
               = {| fileName := name f; analysis := a |}
                   :: recordsFrom analyze fs (S i) j).
    { intros j. cbn [recordsFrom]. now rewrite Hf, Ha. }
    exists run', (pushed :: extra). split; [exact Hrun|].
    replace (k - i) with (S (k - S i)) by lia.
    repeat split.
    + rewrite Hall, Hrec. unfold pushed. now rewrite <- app_assoc.
    + exact Hres'.
    + exact Herr.
    + rewrite Hpub. now rewrite <- app_assoc.
    + constructor.
      * exists 1. split; [lia|]. now rewrite Hrec.
      * eapply Forall_impl; [|exact Hextra].
        intros snapshot (j & Hj & ->). exists (S j). split; [lia|].
        rewrite Hrec. unfold pushed. now rewrite <- app_assoc.
Qed.

End BatchFacts.

(** C3. When the analysis of document [k] throws and the analyses of the
    documents before it return, the run ends with exactly the [k] records of
    documents 0..k-1 in the results, in order, next to the error text; every
    list that was ever published is a prefix of these [k] records, so no
    record of the failing document is ever appended.  (A batch of three whose
    second document fails ends with one record.) *)
Theorem analyzePDFs_failure_keeps_completed :
  forall (analyze : list GeminiService.File -> nat -> Outcome AnalysisResult)
         (st : App.State) (k : nat) (t : Thrown),
    k < List.length (App.files st) ->
    analyze (App.files st) k = Threw t ->
    (forall i, i < k -> exists a, analyze (App.files st) i = Returned a) ->
    let run := App.analyzePDFs analyze st in
    let final := App.results (App.state run) in
    List.length final = k
    /\ final = Batch.recordsFrom analyze (App.files st) 0 k
    /\ (forall i f a,
           i < k ->
           nth_error (App.files st) i = Some f ->
           analyze (App.files st) i = Returned a ->
           nth_error final i
           = Some {| fileName := GeminiService.name f; analysis := a |})
    /\ App.allResults run = final
    /\ App.error (App.state run) = Some (App.errorText t)
    /\ App.processing (App.state run) = false
    /\ Forall (fun snapshot => exists j, j <= k /\ snapshot = firstn j final)
         (App.published run).
Proof.
  intros analyze st k t Hk Ht Hok run final.
  assert (Hok' : forall j, 0 <= j < k -> exists a, analyze (App.files st) j = Returned a)
    by (intros j Hj; apply Hok; lia).
  destruct (forLoop_throws analyze (App.files st) k t Ht
              (List.length (App.files st)) 0
              {| App.state :=
                   App.setResults []
                     (App.setError None (App.setProcessing true st));
                 App.allResults := [];
                 App.published := [[]] |})
    as (run' & extra & Hrun & Hall & Hres & _ & Hpub & Hextra);
    [reflexivity | lia | exact Hok' | reflexivity |].
  cbn [App.allResults App.published App.state] in Hall, Hpub, Hextra.
  rewrite Nat.sub_0_r in Hall, Hextra. cbn [app] in Hall.
  assert (Erun : run
                 = {| App.state :=
                        App.setProcessing false
                          (App.setAnalysisStage App.StageNone
                             (App.setError (Some (App.errorText t))
                                (App.state run')));
                      App.allResults := App.allResults run';
                      App.published := App.published run' |}).
  { subst run. unfold App.analyzePDFs.
    assert (Hz : Nat.eqb (List.length (App.files st)) 0 = false)
      by (apply Nat.eqb_neq; lia).
    rewrite Hz, Hrun. reflexivity. }
  assert (Efinal : final = Batch.recordsFrom analyze (App.files st) 0 k).
  { subst final. rewrite Erun. cbn. now rewrite Hres, Hall. }
  rewrite Efinal. repeat split.
  - apply recordsFrom_length; [lia|]. intros j Hj. apply Hok. lia.
  - intros i f a Hi Hf Ha.
    apply (recordsFrom_nth analyze (App.files st) k 0 i f a Hi).
    + intros l Hl. apply Hok. lia.
    + intros l Hl. lia.
    + exact Hf.
    + exact Ha.
  - rewrite Erun. cbn. exact Hall.
  - rewrite Erun. reflexivity.
  - rewrite Erun. reflexivity.
  - rewrite Erun. cbn [App.published]. rewrite Hpub.
    apply Forall_app. split.
    + constructor; [|constructor]. exists 0. split; [lia | reflexivity].
    + eapply Forall_impl; [|exact Hextra].
      intros snapshot (j & Hj & ->). exists j. split; [exact Hj|].
      cbn [app]. symmetry. now apply recordsFrom_firstn.
Qed.

Lemma analyzePDFs_failure_keeps_completed_witness :
  let analyze (fs : list GeminiService.File) (i : nat) :=
    if Nat.eqb i 1 then
      Threw (ErrorObject "Gemini API error: API returned an empty response.")
    else Returned Batch.sampleAnalysis in
  let st := Batch.sampleState ["plan-0.pdf"; "plan-1.pdf"; "plan-2.pdf"] in
  let run := App.analyzePDFs analyze st in
  List.length (App.results (App.state run)) = 1
  /\ App.results (App.state run)
     = [{| fileName := "plan-0.pdf"; analysis := Batch.sampleAnalysis |}]
  /\ App.error (App.state run)
     = Some "Analysis failed: Gemini API error: API returned an empty response.".
Proof.
  intros analyze st run.
  assert (Hk : 1 < List.length (App.files st)) by (simpl; lia).
  assert (Hok : forall i, i < 1 -> exists a, analyze (App.files st) i = Returned a).
  { intros i Hi. exists Batch.sampleAnalysis.
    destruct i as [|i]; [reflexivity | lia]. }
  destruct (analyzePDFs_failure_keeps_completed analyze st 1
              (ErrorObject "Gemini API error: API returned an empty response.")
              Hk eq_refl Hok)
    as (Hlen & Hfinal & _ & _ & Herr & _).
  split; [exact Hlen | split; [exact Hfinal | exact Herr]].
Defined.

(** * Further properties *)

(** ** The batch run, whatever the analyses do *)

Section BatchGeneral.

Import GeminiService App Batch.

Variable analyze : list File -> nat -> Outcome AnalysisResult.
Variable fs : list File.


Lemma recordsFrom_lookup (n : nat) :
  forall i j r,
    nth_error (recordsFrom analyze fs i n) j = Some r ->
    exists f a,
      nth_error fs (i + j) = Some f
      /\ analyze fs (i + j) = Returned a
      /\ r = {| fileName := name f; analysis := a |}.
Proof.
  induction n as [|n IH]; intros i j r; cbn [recordsFrom].
  - destruct j; discriminate.
  - destruct (nth_error fs i) as [f|] eqn:Hf; [|destruct j; discriminate].
    destruct (analyze fs i) as [a|t] eqn:Ha; [|destruct j; discriminate].
    destruct j as [|j]; cbn [nth_error].
    + intros [= <-]. exists f, a. now rewrite Nat.add_0_r.
    + intros H. destruct (IH _ _ _ H) as (f' & a' & Hf' & Ha' & ->).
      exists f', a'. now replace (i + S j) with (S i + j) by lia.
Qed.

Lemma recordsFrom_complete (n : nat) :
  forall i,
    i + n <= List.length fs ->
    (List.length (recordsFrom analyze fs i n) = n
     <-> forall j, i <= j < i + n -> exists a, analyze fs j = Returned a).
Proof.
  induction n as [|n IH]; intros i Hlen.
  - split; [intros _ j Hj; lia | reflexivity].
  - cbn [recordsFrom].
    destruct (nth_error fs i) as [f|] eqn:Hf;
      [|apply nth_error_None in Hf; lia].
    destruct (analyze fs i) as [a|t] eqn:Ha.
    + simpl. split.
      * intros H j Hj. destruct (Nat.eq_dec j i) as [-> | Hne]; [now exists a|].
        apply (proj1 (IH (S i) ltac:(lia))); [lia | lia].
      * intros H. f_equal. apply IH; [lia|]. intros j Hj. apply H. lia.
    + simpl. split; [discriminate|].
      intros H. destruct (H i) as (a & Ha'); [lia | congruence].
Qed.

(** The loop from index [i]: it collects the records up to the first
    analysis that throws, and returns exactly when none does. *)
Lemma forLoop_collects :
  forall todo i run,
    i + todo = List.length fs ->
    results (state run) = allResults run ->
    exists o run',
      forLoop analyze fs todo i run = (o, run')
      /\ allResults run' = (allResults run ++ recordsFrom analyze fs i todo)%list
      /\ results (state run') = allResults run'
      /\ files (state run') = files (state run)
      /\ error (state run') = error (state run)
      /\ processing (state run') = processing (state run)
      /\ ((exists u, o = Returned u)
          <-> List.length (recordsFrom analyze fs i todo) = todo).
Proof.
  induction todo as [|todo IH]; intros i run Hlen Hres.
  - exists (Returned tt), run. cbn. rewrite app_nil_r.
    repeat split; try assumption. now exists tt.
  - cbn [forLoop recordsFrom].
    destruct (nth_error fs i) as [f|] eqn:Hf;
      [|apply nth_error_None in Hf; lia].
    destruct (analyze fs i) as [a|t] eqn:Ha.
    + destruct (IH (S i)
                  {| state :=
                       setResults
                         (allResults run
                          ++ [{| fileName := name f; analysis := a |}])%list
                         (setAnalysisStage
                            (StageAnalyzing (i + 1) (List.length fs) (name f))
                            (state run));
                     allResults :=
                       (allResults run
                        ++ [{| fileName := name f; analysis := a |}])%list;
                     published :=
                       (published run
                        ++ [(allResults run
                             ++ [{| fileName := name f; analysis := a |}])%list])%list |})
        as (o & run' & Hrun & Hall & Hres' & Hfiles & Herr & Hproc & Hiff);
        [lia | reflexivity |].
      cbn [allResults state] in Hall, Hfiles, Herr, Hproc.
      exists o, run'. split; [exact Hrun|].
      repeat split; try assumption.
      * rewrite Hall. now rewrite <- app_assoc.
      * intros H. simpl. f_equal. now apply Hiff.
      * intros H. apply Hiff. simpl in H. now injection H.
    + eexists. eexists. split; [reflexivity|].
      cbn. rewrite app_nil_r. repeat split; try assumption.
      * intros (u & Hu). discriminate.
      * discriminate.
Qed.

End BatchGeneral.

(** What a run over a non-empty list of files ends with. *)
Lemma analyzePDFs_shape
  (analyze : list GeminiService.File -> nat -> Outcome AnalysisResult)
  (st : App.State) :
  App.files st <> [] ->
  let run := App.analyzePDFs analyze st in
  App.results (App.state run)
  = Batch.recordsFrom analyze (App.files st) 0 (List.length (App.files st))
  /\ App.files (App.state run) = App.files st
  /\ App.processing (App.state run) = false
  /\ App.analysisStage (App.state run) = App.StageNone
  /\ (App.error (App.state run) = None
      <-> List.length
            (Batch.recordsFrom analyze (App.files st) 0
               (List.length (App.files st)))
          = List.length (App.files st)).
Proof.
  intros Hne run.
  assert (Hz : Nat.eqb (List.length (App.files st)) 0 = false).
  { apply Nat.eqb_neq. destruct (App.files st); [contradiction | discriminate]. }
  destruct (forLoop_collects analyze (App.files st)
              (List.length (App.files st)) 0
              {| App.state :=
                   App.setResults []
                     (App.setError None (App.setProcessing true st));
                 App.allResults := [];
                 App.published := [[]] |} eq_refl eq_refl)
    as (o & run' & Hrun & Hall & Hres & Hfiles & Herr & _ & Hiff).
  cbn [App.allResults App.state app] in Hall.
  cbn in Hfiles, Herr.
  subst run. unfold App.analyzePDFs. rewrite Hz, Hrun.
  destruct o as [u|t]; cbn; rewrite Hres, Hall;
    (split; [reflexivity|]); (split; [exact Hfiles|]);
    (split; [reflexivity|]); (split; [reflexivity|]).
  - split; [intros _; apply Hiff; now exists u | intros _; exact Herr].
  - split; [discriminate|].
    intros H. apply Hiff in H. destruct H as (u & Hu). discriminate.
Qed.



(** X2. When every analysis returns, the run ends without an error and with
    exactly one record per file, in the order of the files: record [i]
    carries the name of file [i] and the analysis of document [i]. *)
Theorem analyzePDFs_all_return :
  forall (analyze : list GeminiService.File -> nat -> Outcome AnalysisResult)
         (st : App.State),
    App.files st <> [] ->
    (forall i, i < List.length (App.files st) ->
               exists a, analyze (App.files st) i = Returned a) ->
    let run := App.analyzePDFs analyze st in
    let final := App.results (App.state run) in
    List.length final = List.length (App.files st)
    /\ App.error (App.state run) = None
    /\ (forall i f a,
           nth_error (App.files st) i = Some f ->
           analyze (App.files st) i = Returned a ->
           nth_error final i
           = Some {| fileName := GeminiService.name f; analysis := a |})
    /\ map fileName final = map GeminiService.name (App.files st).
Proof.
  intros analyze st Hne Hok run final.
  destruct (analyzePDFs_shape analyze st Hne) as (Efinal & _ & _ & _ & Eerr).
  fold run in Efinal, Eerr. fold final in Efinal.
  assert (Hlen : List.length final = List.length (App.files st)).
  { rewrite Efinal. apply recordsFrom_length; [lia|].
    intros j Hj. apply Hok. lia. }
  split; [exact Hlen|].
  split; [apply Eerr; rewrite <- Efinal; exact Hlen|]. split.
  - intros i f a Hf Ha. rewrite Efinal.
    assert (Hi : i < List.length (App.files st))
      by (apply nth_error_Some; congruence).
    apply (recordsFrom_nth analyze (App.files st) _ 0 i f a Hi).
    + intros l Hl. apply Hok. lia.
    + intros l Hl. lia.
    + exact Hf.
    + exact Ha.
  - apply nth_error_ext. intros i.
    rewrite !nth_error_map.
    destruct (nth_error final i) as [r|] eqn:Hr.
    + rewrite Efinal in Hr.
      destruct (recordsFrom_lookup analyze (App.files st) _ 0 i r Hr)
        as (f & a & Hf & _ & ->).
      cbn [Nat.add] in Hf. now rewrite Hf.
    + apply nth_error_None in Hr. rewrite Hlen in Hr.
      apply nth_error_None in Hr. now rewrite Hr.
Qed.

Lemma analyzePDFs_all_return_witness :
  let analyze (fs : list GeminiService.File) (i : nat) :=
    Returned Batch.sampleAnalysis in
  let st := Batch.sampleState ["plan-0.pdf"; "plan-1.pdf"] in
  let run := App.analyzePDFs analyze st in
  map fileName (App.results (App.state run)) = ["plan-0.pdf"; "plan-1.pdf"]
  /\ App.error (App.state run) = None.
Proof.
  intros analyze st run.
  assert (Hne : App.files st <> []) by discriminate.
  assert (Hok : forall i, i < List.length (App.files st) ->
                          exists a, analyze (App.files st) i = Returned a)
    by (intros i _; now exists Batch.sampleAnalysis).
  destruct (analyzePDFs_all_return analyze st Hne Hok)
    as (_ & Herr & _ & Hnames).
  split; [exact Hnames | exact Herr].
Defined.

(** ** The reconciler, for every input *)

Local Open Scope Q_scope.

Section ReconcilerGeneral.

Import PythonBridge.


Lemma Qeq_bool_proper (x y : Q) : x == y -> Qeq_bool x 0 = Qeq_bool y 0.
Proof.
  intros E. destruct (Qeq_bool y 0) eqn:Hy.
  - apply Qeq_bool_iff. apply Qeq_bool_iff in Hy. now rewrite E.
  - destruct (Qeq_bool x 0) eqn:Hx; [|reflexivity].
    apply Qeq_bool_iff in Hx. rewrite E in Hx.
    apply Qeq_bool_iff in Hx. congruence.
Qed.

(** The result, with the guard and the ladder written as one case split. *)
Lemma validateAreaCalculation_cases (aiArea : Q) (pr : PythonAreaResult)
  (tol : Q) :
  let r := validateAreaCalculation aiArea pr (Some tol) in
  (r = unavailable
   /\ (success pr = false \/ truthyNumber (total_area_m2 pr) = None))
  \/ (exists a,
        success pr = true /\ truthyNumber (total_area_m2 pr) = Some a
        /\ pythonArea r = a
        /\ difference r = Qabs (aiArea - a)
        /\ differencePercent r = Qabs (aiArea - a) / a * 100
        /\ ((differencePercent r <= tol
             /\ isValid r = true /\ recommendation r = use_ai)
            \/ (~ differencePercent r <= tol
                /\ is_simple_rectangle pr = Some true
                /\ isValid r = false /\ recommendation r = use_python)
            \/ (~ differencePercent r <= tol
                /\ is_simple_rectangle pr <> Some true
                /\ ~ differencePercent r <= 20
                /\ isValid r = false /\ recommendation r = use_python)
            \/ (~ differencePercent r <= tol
                /\ is_simple_rectangle pr <> Some true
                /\ differencePercent r <= 20
                /\ isValid r = false /\ recommendation r = manual_review))).
Proof.
  intros r. subst r. unfold validateAreaCalculation.
  destruct (success pr); cbn [negb]; [|left; split; [reflexivity | now left]].
  destruct (truthyNumber (total_area_m2 pr)) as [a|];
    [|left; split; [reflexivity | now right]].
  right. exists a. split; [reflexivity|]. split; [reflexivity|].
  set (dp := Qabs (aiArea - a) / a * 100).
  destruct (Qle_bool dp tol) eqn:Etol;
    [apply Qle_bool_iff in Etol | apply Qle_bool_false in Etol].
  - cbn. repeat split. left. repeat split. exact Etol.
  - destruct (is_simple_rectangle pr) as [[|]|] eqn:Es; cbn [truthyBool negb andb].
    + cbn. repeat split. right. left. repeat split. exact Etol.
    + destruct (Qle_bool dp 20) eqn:E20;
        [apply Qle_bool_iff in E20 | apply Qle_bool_false in E20]; cbn;
        repeat split; right; right; [right | left];
        repeat split; try assumption; discriminate.
    + destruct (Qle_bool dp 20) eqn:E20;
        [apply Qle_bool_iff in E20 | apply Qle_bool_false in E20]; cbn;
        repeat split; right; right; [right | left];
        repeat split; try assumption; discriminate.
Qed.

End ReconcilerGeneral.

(** X3. For every AI area, Python result and tolerance: the result is valid
    exactly when it recommends the AI area; the difference is never negative;
    a simple rectangle never leads to manual review; manual review means the
    percentage is above the tolerance and at most 20; and any recommendation
    other than the AI area means the percentage is above the tolerance. *)
Theorem validateAreaCalculation_verdict_consistent :
  forall (aiArea tol : Q) (pr : PythonBridge.PythonAreaResult),
    let r := PythonBridge.validateAreaCalculation aiArea pr (Some tol) in
    (PythonBridge.isValid r = true <-> PythonBridge.recommendation r = use_ai)
    /\ 0 <= PythonBridge.difference r
    /\ (PythonBridge.is_simple_rectangle pr = Some true ->
        PythonBridge.recommendation r <> manual_review)
    /\ (PythonBridge.recommendation r = manual_review ->
        tol < PythonBridge.differencePercent r
        /\ PythonBridge.differencePercent r <= 20)
    /\ (PythonBridge.recommendation r <> use_ai ->
        tol < PythonBridge.differencePercent r).
Proof.
  intros aiArea tol pr r.
  destruct (validateAreaCalculation_cases aiArea pr tol)
    as [[E _] | (a & _ & _ & _ & Hd & _ & Hcase)]; fold r in E || fold r in Hd, Hcase.
  - rewrite E. cbn. repeat split; try discriminate; try congruence.
  - assert (Hdiff : 0 <= PythonBridge.difference r)
      by (rewrite Hd; apply Qabs_nonneg).
    destruct Hcase as [(Hle & Hv & Hr) | [(Hgt & Hs & Hv & Hr)
                      | [(Hgt & Hs & H20 & Hv & Hr) | (Hgt & Hs & H20 & Hv & Hr)]]];
      rewrite Hv, Hr; repeat split; try assumption; try discriminate;
      try congruence; intros; try (apply Qnot_le_lt; assumption).
Qed.

Lemma validateAreaCalculation_verdict_consistent_witness :
  let pr :=
    {| PythonBridge.success := true;
       PythonBridge.shape_type := None;
       PythonBridge.is_simple_rectangle := Some true;
       PythonBridge.total_area_m2 := Some 100 |} in
  PythonBridge.recommendation
    (PythonBridge.validateAreaCalculation 180 pr (Some 15)) <> manual_review.
Proof.
  intros pr.
  exact (proj1 (proj2 (proj2
           (validateAreaCalculation_verdict_consistent 180 15 pr))) eq_refl).
Defined.

Section ReconcilerScaling.

Import PythonBridge.



End ReconcilerScaling.



(** X5. Widening the tolerance never withdraws a validation: a comparison
    that recommends the AI area under one tolerance does so under every
    larger one, and the reported Python area, difference and percentage do
    not depend on the tolerance. *)
Theorem validateAreaCalculation_tolerance_monotone :
  forall (aiArea tol tol' : Q) (pr : PythonBridge.PythonAreaResult),
    tol <= tol' ->
    let r := PythonBridge.validateAreaCalculation aiArea pr (Some tol) in
    let r' := PythonBridge.validateAreaCalculation aiArea pr (Some tol') in
    (PythonBridge.recommendation r = use_ai ->
     PythonBridge.recommendation r' = use_ai)
    /\ PythonBridge.pythonArea r' = PythonBridge.pythonArea r
    /\ PythonBridge.difference r' = PythonBridge.difference r
    /\ PythonBridge.differencePercent r' = PythonBridge.differencePercent r.
Proof.
  intros aiArea tol tol' pr Hle r r'.
  subst r r'. unfold PythonBridge.validateAreaCalculation.
  destruct (PythonBridge.success pr); cbn [negb]; [|repeat split].
  destruct (truthyNumber (PythonBridge.total_area_m2 pr)) as [a|];
    [|repeat split].
  set (dp := Qabs (aiArea - a) / a * 100).
  destruct (Qle_bool dp tol) eqn:E.
  - apply Qle_bool_iff in E.
    assert (E' : Qle_bool dp tol' = true) by (apply Qle_bool_iff; lra).
    rewrite E'. repeat split.
  - destruct (Qle_bool dp tol');
      destruct (PythonBridge.truthyBool (PythonBridge.is_simple_rectangle pr));
      cbn [negb andb]; try destruct (Qle_bool dp 20);
      cbn; repeat split; intros; try reflexivity; discriminate.
Qed.

Lemma validateAreaCalculation_tolerance_monotone_witness :
  let pr :=
    {| PythonBridge.success := true;
       PythonBridge.shape_type := None;
       PythonBridge.is_simple_rectangle := Some false;
       PythonBridge.total_area_m2 := Some 100 |} in
  PythonBridge.recommendation
    (PythonBridge.validateAreaCalculation 110 pr (Some 25)) = use_ai.
Proof.
  intros pr.
  assert (Hle : 15 <= 25) by discriminate.
  exact (proj1 (validateAreaCalculation_tolerance_monotone 110 15 25 pr Hle)
           eq_refl).
Defined.

(** ** What a consolidated material adds up to *)

Section GroupNumbers.

Import App Consolidation Totals.

Lemma numberOfNat_nonneg (n : nat) : 0 <= numberOfNat n.
Proof.
  unfold numberOfNat. change 0 with (inject_Z 0).
  rewrite <- Zle_Qle. lia.
Qed.

Lemma numberOfNat_succ (n : nat) : numberOfNat (S n) == numberOfNat n + 1.
Proof.
  unfold numberOfNat. rewrite Nat2Z.inj_succ, <- Z.add_1_r, inject_Z_plus.
  reflexivity.
Qed.

Lemma numberOfNat_snoc (l : list string) (x : string) :
  numberOfNat (List.length (l ++ [x])) == numberOfNat (List.length l) + 1.
Proof.
  rewrite length_app, Nat.add_1_r. apply numberOfNat_succ.
Qed.

Lemma keyOf_named (m : option Material) (name : string) :
  nameOf m = Some name -> keyOf m = Some (canonicalize name).
Proof. unfold keyOf. now intros ->. Qed.

Lemma keyOf_skip (m : option Material) :
  nameOf m = None -> keyOf m = None.
Proof. unfold keyOf. now intros ->. Qed.

(** A key that is in the map collects the areas and the confidences of the
    later entries with that key. *)
Lemma fold_keeps_numbers (es : list (string * option Material)) :
  forall (mm : MaterialMap) (key : string) (c0 : ConsolidatedMaterial),
    map_get key mm = Some c0 ->
    exists c,
      map_get key (fold_left addEntry es mm) = Some c
      /\ cm_area c == cm_area c0 + areaOf key es
      /\ cm_confidence c * numberOfNat (List.length (cm_sources c))
         == cm_confidence c0 * numberOfNat (List.length (cm_sources c0))
            + confidenceOf key es.
Proof.
  induction es as [|[file m] es IH]; intros mm key c0 Hget.
  - exists c0. simpl. split; [exact Hget|]. split; ring.
  - cbn [fold_left areaOf confidenceOf].
    destruct (addEntry_cases mm file m)
      as [[Hn ->] | [(mat & name & ex & -> & Hn & Hex & ->)
                    | (mat & name & -> & Hn & Hnone & ->)]].
    + rewrite (keyOf_skip _ Hn). now apply IH.
    + rewrite (keyOf_named _ _ Hn).
      destruct (String.eqb key (canonicalize name)) eqn:E.
      * apply String.eqb_eq in E. subst key.
        rewrite Hex in Hget. injection Hget as ->.
        destruct (IH (map_set (canonicalize name) (merged c0 mat file) mm)
                     (canonicalize name) (merged c0 mat file)
                     (map_get_set_same _ _ _))
          as (c & Hc & Ha & Hco).
        exists c. split; [exact Hc|]. split.
        -- rewrite Ha. cbn [cm_area merged entryArea]. ring.
        -- rewrite Hco. cbn [cm_confidence cm_sources merged entryConfidence].
           rewrite numberOfNat_snoc.
           pose proof (numberOfNat_nonneg (List.length (cm_sources c0))) as Hn0.
           field. lra.
      * apply String.eqb_neq in E. apply IH.
        now rewrite (map_get_set_other _ _ _ _ E).
    + rewrite (keyOf_named _ _ Hn).
      destruct (String.eqb key (canonicalize name)) eqn:E.
      * apply String.eqb_eq in E. subst key. congruence.
      * apply String.eqb_neq in E. apply IH.
        now rewrite (map_get_set_other _ _ _ _ E).
Qed.

(** A key that is not in the map and is there at the end holds the sums
    over the entries with that key. *)
Lemma fold_first_numbers (es : list (string * option Material)) :
  forall (mm : MaterialMap) (key : string) (c : ConsolidatedMaterial),
    map_get key mm = None ->
    map_get key (fold_left addEntry es mm) = Some c ->
    cm_area c == areaOf key es
    /\ cm_confidence c * numberOfNat (List.length (cm_sources c))
       == confidenceOf key es.
Proof.
  induction es as [|[file m] es IH]; intros mm key c Hnone Hc.
  - simpl in Hc. congruence.
  - cbn [fold_left] in Hc. cbn [areaOf confidenceOf].
    destruct (addEntry_cases mm file m)
      as [[Hn E] | [(mat & name & ex & -> & Hn & Hex & E)
                   | (mat & name & -> & Hn & Hnew & E)]];
      rewrite E in Hc; clear E.
    + rewrite (keyOf_skip _ Hn). now apply (IH mm).
    + rewrite (keyOf_named _ _ Hn).
      destruct (String.eqb key (canonicalize name)) eqn:E.
      * apply String.eqb_eq in E. subst key. congruence.
      * apply String.eqb_neq in E.
        apply (IH _ _ _ (eq_trans (map_get_set_other _ _ _ _ E) Hnone) Hc).
    + rewrite (keyOf_named _ _ Hn).
      destruct (String.eqb key (canonicalize name)) eqn:E.
      * apply String.eqb_eq in E. subst key.
        destruct (fold_keeps_numbers es _ _ _
                    (map_get_set_same (canonicalize name)
                       (seeded name mat file) mm))
          as (c' & Hc' & Ha & Hco).
        rewrite Hc' in Hc. injection Hc as ->.
        split.
        -- rewrite Ha. cbn [cm_area seeded entryArea]. ring.
        -- rewrite Hco.
           cbn [cm_confidence cm_sources seeded entryConfidence List.length].
           change (numberOfNat 1) with 1. ring.
      * apply String.eqb_neq in E.
        apply (IH _ _ _ (eq_trans (map_get_set_other _ _ _ _ E) Hnone) Hc).
Qed.

Lemma firstSeen_filesOf (key file name : string) (mat : Material)
  (es : list (string * option Material)) :
  firstSeen key es = Some (file, name, mat) ->
  exists rest, filesOf key es = file :: rest.
Proof.
  induction es as [|[f m] es IH]; [discriminate|].
  destruct (nameOf m) as [n|] eqn:Hn.
  - destruct m as [mat0|]; [|discriminate].
    rewrite (firstSeen_named _ _ _ _ _ Hn), (filesOf_named _ _ _ _ _ Hn).
    destruct (String.eqb key (canonicalize n)).
    + intros [= -> _ _]. now eexists.
    + exact IH.
  - rewrite (firstSeen_skip _ _ _ _ Hn), (filesOf_skip _ _ _ _ Hn). exact IH.
Qed.

(** The key under which a material of the summary is stored. *)
Lemma summary_material_stored (results : list ResultFile)
  (s : ConsolidatedSummary) (c : ConsolidatedMaterial) :
  getConsolidatedSummary results = Some s ->
  In c (cs_materials s) ->
  map_get (canonicalize (cm_material c))
    (fold_left addEntry (entriesOf results) []) = Some c.
Proof.
  intros Hs Hin.
  destruct (getConsolidatedSummary_Some results s Hs) as (Hm & _).
  rewrite Hm in Hin. unfold map_values in Hin.
  apply in_map_iff in Hin. destruct Hin as ([k c'] & Hc' & Hin).
  simpl in Hc'. subst c'.
  destruct (materialMapOf_wellKeyed results) as [Hnd Hkeys].
  assert (Hk : k = canonicalize (cm_material c)).
  { rewrite Forall_forall in Hkeys. exact (Hkeys _ Hin). }
  apply (in_map_get _ _ _ Hnd) in Hin.
  now rewrite materialMapOf_entries, Hk in Hin.
Qed.

End GroupNumbers.

(** What is stored for one material of a summary. *)
Lemma stored_material_numbers (results : list ResultFile)
  (s : ConsolidatedSummary) (c : ConsolidatedMaterial) :
  App.getConsolidatedSummary results = Some s ->
  In c (cs_materials s) ->
  let key := canonicalize (cm_material c) in
  let es := Consolidation.entriesOf results in
  cm_area c == Totals.areaOf key es
  /\ cm_confidence c * App.numberOfNat (List.length (cm_sources c))
     == Totals.confidenceOf key es
  /\ cm_sources c = Consolidation.filesOf key es
  /\ 0 < App.numberOfNat (List.length (cm_sources c))
  /\ exists file name mat rest,
       Consolidation.firstSeen key es = Some (file, name, mat)
       /\ cm_sources c = file :: rest.
Proof.
  intros Hs Hin key es.
  pose proof (summary_material_stored results s c Hs Hin) as Hget.
  fold key es in Hget.
  destruct (fold_first_seen es [] key c eq_refl Hget)
    as (file & name & mat & Hfirst & _ & Hsrc).
  destruct (fold_first_numbers es [] key c eq_refl Hget) as (Ha & Hco).
  destruct (firstSeen_filesOf _ _ _ _ _ Hfirst) as (rest & Hrest).
  split; [exact Ha|]. split; [exact Hco|]. split; [exact Hsrc|]. split.
  - rewrite Hsrc, Hrest. cbn [List.length]. rewrite numberOfNat_succ.
    pose proof (numberOfNat_nonneg (List.length rest)). lra.
  - exists file, name, mat, rest. split; [exact Hfirst | congruence].
Qed.



Section SummaryTotals.

Import App Consolidation Totals.

Lemma sumAreas_set_present (k : string) (v old : ConsolidatedMaterial)
  (m : MaterialMap) :
  map_get k m = Some old ->
  sumAreas (map_values (map_set k v m)) + cm_area old
  == sumAreas (map_values m) + cm_area v.
Proof.
  unfold map_values.
  induction m as [|[k0 v0] m IH]; cbn [map_get map_set]; [discriminate|].
  destruct (String.eqb k k0) eqn:E; cbn [map snd sumAreas].
  - intros [= ->]. ring.
  - intros H. specialize (IH H). lra.
Qed.

Lemma sumAreas_set_absent (k : string) (v : ConsolidatedMaterial)
  (m : MaterialMap) :
  map_get k m = None ->
  sumAreas (map_values (map_set k v m)) == sumAreas (map_values m) + cm_area v.
Proof.
  unfold map_values.
  induction m as [|[k0 v0] m IH]; cbn [map_get map_set].
  - intros _. cbn [map snd sumAreas]. ring.
  - destruct (String.eqb k k0) eqn:E; cbn [map snd sumAreas]; [discriminate|].
    intros H. specialize (IH H). lra.
Qed.

Lemma sourceCount_set_present (k : string) (v old : ConsolidatedMaterial)
  (m : MaterialMap) :
  map_get k m = Some old ->
  (sourceCount (map_values (map_set k v m)) + List.length (cm_sources old)
   = sourceCount (map_values m) + List.length (cm_sources v))%nat.
Proof.
  unfold map_values.
  induction m as [|[k0 v0] m IH]; cbn [map_get map_set]; [discriminate|].
  destruct (String.eqb k k0) eqn:E; cbn [map snd sourceCount].
  - intros [= ->]. lia.
  - intros H. specialize (IH H). lia.
Qed.

Lemma sourceCount_set_absent (k : string) (v : ConsolidatedMaterial)
  (m : MaterialMap) :
  map_get k m = None ->
  (sourceCount (map_values (map_set k v m))
   = sourceCount (map_values m) + List.length (cm_sources v))%nat.
Proof.
  unfold map_values.
  induction m as [|[k0 v0] m IH]; cbn [map_get map_set].
  - intros _. cbn [map snd sourceCount]. lia.
  - destruct (String.eqb k k0) eqn:E; cbn [map snd sourceCount]; [discriminate|].
    intros H. specialize (IH H). lia.
Qed.

Lemma nameOf_hasStringName (m : option Material) :
  hasStringName m = match nameOf m with Some _ => true | None => false end.
Proof.
  unfold hasStringName, nameOf. destruct m as [mat|]; [|reflexivity].
  destruct (m_material mat); reflexivity.
Qed.

(** Each entry with a string name adds its area and one source. *)
Lemma fold_totals (es : list (string * option Material)) :
  forall mm : MaterialMap,
    sumAreas (map_values (fold_left addEntry es mm))
    == sumAreas (map_values mm) + namedArea es
    /\ (sourceCount (map_values (fold_left addEntry es mm))
        = sourceCount (map_values mm) + namedCount es)%nat
    /\ (List.length (fold_left addEntry es mm)
        <= List.length mm + namedCount es)%nat.
Proof.
  induction es as [|[file m] es IH]; intros mm.
  - simpl. split; [ring | split; lia].
  - cbn [fold_left namedArea namedCount].
    rewrite nameOf_hasStringName.
    destruct (IH (addEntry mm (file, m))) as (Ha & Hs & Hl).
    destruct (addEntry_cases mm file m)
      as [[Hn E] | [(mat & name & ex & -> & Hn & Hex & E)
                   | (mat & name & -> & Hn & Hnone & E)]];
      rewrite E in Ha, Hs, Hl; rewrite E; rewrite Hn.
    + now repeat split.
    + pose proof (sumAreas_set_present _ (merged ex mat file) _ _ Hex) as Ha'.
      pose proof (sourceCount_set_present _ (merged ex mat file) _ _ Hex) as Hs'.
      assert (Hlen : List.length (map_set (canonicalize name)
                                    (merged ex mat file) mm)
                     = List.length mm).
      { rewrite <- (length_map fst), (map_set_keys_present _ _ _ _ Hex).
        apply length_map. }
      cbn [cm_area cm_sources merged] in Ha', Hs'.
      rewrite length_app in Hs'. cbn [List.length] in Hs'.
      cbn [entryArea].
      split; [lra | split; lia].
    + pose proof (sumAreas_set_absent _ (seeded name mat file) _ Hnone) as Ha'.
      pose proof (sourceCount_set_absent _ (seeded name mat file) _ Hnone) as Hs'.
      assert (Hlen : List.length (map_set (canonicalize name)
                                    (seeded name mat file) mm)
                     = S (List.length mm)).
      { rewrite <- (length_map fst), (map_set_keys_absent _ _ _ Hnone).
        rewrite length_app, length_map. simpl. lia. }
      cbn [cm_area cm_sources seeded List.length] in Ha', Hs'.
      cbn [entryArea].
      split; [lra | split; lia].
Qed.

End SummaryTotals.



Section RangeFacts.

Import App Consolidation Totals.

Lemma keyOf_hasStringName (m : option Material) (k : string) :
  keyOf m = Some k -> hasStringName m = true.
Proof.
  rewrite nameOf_hasStringName. unfold keyOf.
  destruct (nameOf m); [reflexivity | discriminate].
Qed.

Lemma confidenceOf_range (key : string) (es : list (string * option Material)) :
  Forall (fun e => hasStringName (snd e) = true ->
                   0 <= entryConfidence (snd e) <= 1) es ->
  0 <= confidenceOf key es
  /\ confidenceOf key es <= numberOfNat (List.length (filesOf key es)).
Proof.
  induction 1 as [|[file m] es Hm _ IH]; cbn [confidenceOf filesOf].
  - split; discriminate.
  - destruct (keyOf m) as [k|] eqn:Hk; [|exact IH].
    destruct (String.eqb key k); [|exact IH].
    specialize (Hm (keyOf_hasStringName _ _ Hk)). cbn [snd] in Hm.
    cbn [List.length]. rewrite numberOfNat_succ. lra.
Qed.

Lemma areaOf_nonneg (key : string) (es : list (string * option Material)) :
  Forall (fun e => hasStringName (snd e) = true -> 0 <= entryArea (snd e)) es ->
  0 <= areaOf key es.
Proof.
  induction 1 as [|[file m] es Hm _ IH]; cbn [areaOf]; [discriminate|].
  destruct (keyOf m) as [k|] eqn:Hk; [|exact IH].
  destruct (String.eqb key k); [|exact IH].
  specialize (Hm (keyOf_hasStringName _ _ Hk)). cbn [snd] in Hm. lra.
Qed.

Lemma namedArea_nonneg (es : list (string * option Material)) :
  Forall (fun e => hasStringName (snd e) = true -> 0 <= entryArea (snd e)) es ->
  0 <= namedArea es.
Proof.
  induction 1 as [|[file m] es Hm _ IH]; cbn [namedArea]; [discriminate|].
  destruct (hasStringName m) eqn:Hn; [|exact IH].
  specialize (Hm Hn). cbn [snd] in Hm. lra.
Qed.

End RangeFacts.

(** X8. Consolidation keeps values in range.  If the confidence of every
    entry with a string name lies between 0 and 1, so does the confidence of
    every material of the summary; if the area of every such entry is not
    negative, neither is the area of any material nor the total area. *)
Theorem consolidated_values_stay_in_range :
  forall (results : list ResultFile) (s : ConsolidatedSummary),
    App.getConsolidatedSummary results = Some s ->
    (Forall (fun e => Consolidation.hasStringName (snd e) = true ->
                      0 <= Totals.entryConfidence (snd e) <= 1)
       (Consolidation.entriesOf results) ->
     Forall (fun c => 0 <= cm_confidence c <= 1) (cs_materials s))
    /\ (Forall (fun e => Consolidation.hasStringName (snd e) = true ->
                         0 <= Totals.entryArea (snd e))
          (Consolidation.entriesOf results) ->
        Forall (fun c => 0 <= cm_area c) (cs_materials s)
        /\ 0 <= cs_totalArea s).
Proof.
  intros results s Hs. split.
  - intros Hall. apply Forall_forall. intros c Hin.
    destruct (stored_material_numbers results s c Hs Hin)
      as (_ & Hco & Hsrc & Hpos & _).
    destruct (confidenceOf_range (canonicalize (cm_material c)) _ Hall)
      as (Hlo & Hhi).
    rewrite <- Hsrc in Hhi. rewrite <- Hco in Hlo, Hhi.
    set (n := App.numberOfNat (List.length (cm_sources c))) in *.
    split.
    + destruct (Qlt_le_dec (cm_confidence c) 0) as [Hneg | Hok]; [|exact Hok].
      exfalso. assert (cm_confidence c * n < 0) by nra. lra.
    + destruct (Qlt_le_dec 1 (cm_confidence c)) as [Hbig | Hok]; [|exact Hok].
      exfalso. assert (n < cm_confidence c * n) by nra. lra.
  - intros Hall. split.
    + apply Forall_forall. intros c Hin.
      destruct (stored_material_numbers results s c Hs Hin) as (Ha & _).
      rewrite Ha. now apply areaOf_nonneg.
    + destruct (getConsolidatedSummary_Some results s Hs) as (Hm & Ht & _).
      destruct (fold_totals (Consolidation.entriesOf results) []) as (Ha & _).
      rewrite Ht, fold_left_sumAreas, <- materialMapOf_entries in *.
      rewrite Ha. cbn [App.map_values map Consolidation.sumAreas].
      pose proof (namedArea_nonneg _ Hall). lra.
Qed.

Lemma consolidated_values_stay_in_range_witness :
  let a :=
    Consolidation.sampleDocument "a.pdf" true
      [Consolidation.sampleEntry (JsStr "EPDM") "DRL" "m2" 50 0.8;
       Consolidation.sampleEntry (JsStr "epdm") "DRL" "m2" 10 1] in
  exists s,
    App.getConsolidatedSummary [a] = Some s
    /\ Forall (fun c => 0 <= cm_confidence c <= 1) (cs_materials s).
Proof.
  intros a. eexists. split; [reflexivity|].
  apply (proj1 (consolidated_values_stay_in_range [a] _ eq_refl)).
  repeat constructor; discriminate.
Defined.

(** ** The shape of a key *)

Local Close Scope Q_scope.

Section KeyShapeFacts.

Import JsString KeyShape.

Lemma isUpperCase_toLowerChar (c : ascii) : isUpperCase (toLowerChar c) = false.
Proof. destruct c as [[] [] [] [] [] [] [] []]; reflexivity. Qed.

Lemma hasUpperCase_toLowerCase (s : string) : hasUpperCase (toLowerCase s) = false.
Proof.
  induction s as [|c s IH]; simpl; [reflexivity|].
  now rewrite isUpperCase_toLowerChar, IH.
Qed.

Lemma hasUpperCase_trimStart (s : string) :
  hasUpperCase s = false -> hasUpperCase (trimStart s) = false.
Proof.
  induction s as [|c s IH]; simpl; [reflexivity|].
  intros [Hc Hs]%orb_false_iff.
  destruct (isWhiteSpace c); [now apply IH|].
  simpl. now rewrite Hc, Hs.
Qed.

Lemma hasUpperCase_trimEnd (s : string) :
  hasUpperCase s = false -> hasUpperCase (trimEnd s) = false.
Proof.
  induction s as [|c s IH]; simpl; [reflexivity|].
  intros [Hc Hs]%orb_false_iff. specialize (IH Hs).
  destruct (trimEnd s) as [|d r].
  - destruct (isWhiteSpace c); simpl; [reflexivity | now rewrite Hc].
  - cbn [hasUpperCase] in *. now rewrite Hc, IH.
Qed.

Lemma headChar_trimStart (s : string) (c : ascii) :
  headChar (trimStart s) = Some c -> isWhiteSpace c = false.
Proof.
  induction s as [|d s IH]; simpl; [discriminate|].
  destruct (isWhiteSpace d) eqn:Hd; [exact IH|].
  simpl. intros [= <-]. exact Hd.
Qed.

Lemma headChar_trimEnd (s : string) (c : ascii) :
  headChar (trimEnd s) = Some c -> headChar s = Some c.
Proof.
  destruct s as [|d s]; simpl; [discriminate|].
  destruct (trimEnd s); [destruct (isWhiteSpace d)|]; simpl;
    congruence.
Qed.

Lemma lastChar_trimEnd (s : string) (c : ascii) :
  lastChar (trimEnd s) = Some c -> isWhiteSpace c = false.
Proof.
  induction s as [|d s IH]; simpl; [discriminate|].
  destruct (trimEnd s) as [|e r].
  - destruct (isWhiteSpace d) eqn:Hd; simpl; [discriminate|].
    intros [= <-]. exact Hd.
  - exact IH.
Qed.

Lemma length_toLowerCase (s : string) :
  String.length (toLowerCase s) = String.length s.
Proof. induction s as [|c s IH]; simpl; [reflexivity | now rewrite IH]. Qed.

Lemma length_trimStart (s : string) :
  String.length (trimStart s) <= String.length s.
Proof.
  induction s as [|c s IH]; simpl; [lia|].
  destruct (isWhiteSpace c); simpl; lia.
Qed.

Lemma length_trimEnd (s : string) :
  String.length (trimEnd s) <= String.length s.
Proof.
  induction s as [|c s IH]; simpl; [lia|].
  destruct (trimEnd s); [destruct (isWhiteSpace c)|]; simpl in *; lia.
Qed.

Lemma trimEnd_empty (s : string) :
  trimEnd s = EmptyString -> allWhiteSpace s = true.
Proof.
  induction s as [|c s IH]; simpl; [reflexivity|].
  destruct (trimEnd s); [|discriminate].
  destruct (isWhiteSpace c); [intros _; now apply IH | discriminate].
Qed.

Lemma trim_empty (s : string) :
  trim s = EmptyString <-> allWhiteSpace s = true.
Proof.
  unfold trim. split.
  - intros H. apply trimEnd_empty in H.
    induction s as [|c s IH]; simpl in *; [reflexivity|].
    destruct (isWhiteSpace c) eqn:Hc; [now apply IH|].
    simpl in H. now rewrite Hc in H.
  - intros H. now rewrite (trimStart_allWhiteSpace s H).
Qed.

End KeyShapeFacts.

(** X9. A key is in normal form: it has no upper-case letter, it neither
    starts nor ends with white space, it is no longer than the name, and it
    is the empty string exactly when the name is made of white space only. *)
Theorem canonicalize_normal_form :
  forall name : string,
    let key := canonicalize name in
    KeyShape.hasUpperCase key = false
    /\ (forall c, KeyShape.headChar key = Some c -> JsString.isWhiteSpace c = false)
    /\ (forall c, KeyShape.lastChar key = Some c -> JsString.isWhiteSpace c = false)
    /\ String.length key <= String.length name
    /\ (key = EmptyString <-> JsString.allWhiteSpace name = true).
Proof.
  intros name key. subst key. unfold canonicalize, JsString.trim.
  split; [|split; [|split; [|split]]].
  - apply hasUpperCase_trimEnd, hasUpperCase_trimStart, hasUpperCase_toLowerCase.
  - intros c H. apply headChar_trimEnd in H. exact (headChar_trimStart _ _ H).
  - intros c H. exact (lastChar_trimEnd _ _ H).
  - pose proof (length_trimEnd (JsString.trimStart (JsString.toLowerCase name))).
    pose proof (length_trimStart (JsString.toLowerCase name)).
    pose proof (length_toLowerCase name). lia.
  - rewrite <- (allWhiteSpace_toLowerCase name).
    exact (trim_empty (JsString.toLowerCase name)).
Qed.

Lemma canonicalize_normal_form_witness :
  JsString.isWhiteSpace "e" = false.
Proof.
  exact (proj1 (proj2 (canonicalize_normal_form "  EPDM Membrane ")) "e"%char
           eq_refl).
Defined.

(** ** What is sent to the remote analysis *)

Section PartsFacts.

Import GeminiService.

Lemma promiseAll_length (l : list (Outcome string)) (b : list string) :
  promiseAll l = Returned b -> List.length b = List.length l.
Proof.
  revert b. induction l as [|[x|t] l IH]; intros b; simpl.
  - intros [= <-]. reflexivity.
  - destruct (promiseAll l) as [xs|]; [|discriminate].
    intros [= <-]. simpl. f_equal. now apply IH.
  - discriminate.
Qed.

Lemma promiseAll_nth (l : list (Outcome string)) (b : list string) :
  promiseAll l = Returned b ->
  forall i o, nth_error l i = Some o -> o = Returned (nth i b "").
Proof.
  revert b. induction l as [|[x|t] l IH]; intros b; simpl.
  - intros _ i o H. destruct i; discriminate.
  - destruct (promiseAll l) as [xs|]; [|discriminate].
    intros [= <-] i o H. destruct i as [|i]; simpl in *.
    + congruence.
    + now apply IH.
  - discriminate.
Qed.

Lemma map_nth_seq (b : list string) :
  map (fun i => nth i b "") (seq 0 (List.length b)) = b.
Proof.
  induction b as [|x b IH]; [reflexivity|].
  cbn [List.length seq map nth]. f_equal.
  rewrite <- seq_shift, map_map. exact IH.
Qed.

(** All indices but [t], in order, pick all elements but the one at [t]. *)
Lemma map_nth_others (b : list string) :
  forall t,
    map (fun i => nth i b "")
      (filter (fun i => negb (i =? t)) (seq 0 (List.length b)))
    = (firstn t b ++ skipn (S t) b)%list.
Proof.
  induction b as [|x b IH]; intros t; [now destruct t|].
  cbn [List.length seq]. rewrite <- seq_shift.
  cbn [filter]. rewrite filter_map_swap.
  destruct t as [|t]; cbn [Nat.eqb negb].
  - rewrite filter_true, map_map. cbn [firstn skipn app nth].
    apply map_nth_seq.
  - cbn [map nth firstn skipn app]. f_equal.
    rewrite map_map. cbn [nth]. apply IH.
Qed.

Lemma split_at (b : list string) :
  forall t, t < List.length b ->
    b = (firstn t b ++ nth t b "" :: skipn (S t) b)%list.
Proof.
  induction b as [|x b IH]; intros t Ht; simpl in Ht; [lia|].
  destruct t as [|t]; [reflexivity|].
  cbn [firstn nth skipn app]. f_equal. apply IH. lia.
Qed.

Lemma referenceIndices_spec (allFiles : list File) (t i : nat) :
  In i (referenceIndices allFiles t) <-> i < List.length allFiles /\ i <> t.
Proof.
  unfold referenceIndices. rewrite filter_In, in_seq, negb_true_iff, Nat.eqb_neq.
  split; intros [H1 H2]; split; try assumption; lia.
Qed.

End PartsFacts.

(** The call made once the files are read. *)
Lemma analyzePdfWithGemini_call
  (fileToBase64 : GeminiService.File -> Outcome string)
  (fullPrompt : list GeminiService.File -> nat -> string)
  (generateContent : list string -> string -> Outcome (option string))
  (JSON_parse : string -> Outcome AnalysisResult)
  (checkPythonAvailability : Outcome bool)
  (allFiles : list GeminiService.File) (targetIndex : nat)
  (allBase64 : list string) :
  GeminiService.promiseAll (map fileToBase64 allFiles) = Returned allBase64 ->
  targetIndex < List.length allFiles ->
  GeminiService.analyzePdfWithGemini fileToBase64 fullPrompt generateContent
    JSON_parse checkPythonAvailability allFiles targetIndex
  = match GeminiService.callGemini generateContent JSON_parse
            checkPythonAvailability
            (firstn targetIndex allBase64 ++ skipn (S targetIndex) allBase64
             ++ [nth targetIndex allBase64 ""])%list
            (fullPrompt allFiles targetIndex) with
    | Threw t => Threw (GeminiService.wrapGeminiError t)
    | Returned r => Returned r
    end.
Proof.
  intros Hread Ht.
  pose proof (promiseAll_length _ _ Hread) as Hlen.
  rewrite length_map in Hlen.
  unfold GeminiService.analyzePdfWithGemini. rewrite Hread.
  destruct (nth_error allFiles targetIndex) eqn:Hf;
    [|apply nth_error_None in Hf; lia].
  unfold GeminiService.referenceIndices.
  rewrite <- Hlen, map_nth_others. now rewrite <- app_assoc.
Qed.

(** X10. Once all files are read, the remote call for a target within the
    batch receives every file exactly once: the other files in upload order,
    then the target as the last document.  The outcome of the analysis is the
    outcome of that call, with a thrown value wrapped as a Gemini error. *)
Theorem analyzePdfWithGemini_sends_target_last :
  forall (fileToBase64 : GeminiService.File -> Outcome string)
         (fullPrompt : list GeminiService.File -> nat -> string)
         (generateContent : list string -> string -> Outcome (option string))
         (JSON_parse : string -> Outcome AnalysisResult)
         (checkPythonAvailability : Outcome bool)
         (allFiles : list GeminiService.File) (targetIndex : nat)
         (allBase64 : list string),
    GeminiService.promiseAll (map fileToBase64 allFiles) = Returned allBase64 ->
    targetIndex < List.length allFiles ->
    let parts :=
      (firstn targetIndex allBase64 ++ skipn (S targetIndex) allBase64
       ++ [nth targetIndex allBase64 ""])%list in
    GeminiService.analyzePdfWithGemini fileToBase64 fullPrompt generateContent
      JSON_parse checkPythonAvailability allFiles targetIndex
    = match GeminiService.callGemini generateContent JSON_parse
              checkPythonAvailability parts (fullPrompt allFiles targetIndex) with
      | Threw t => Threw (GeminiService.wrapGeminiError t)
      | Returned r => Returned r
      end
    /\ Permutation parts allBase64
    /\ List.length parts = List.length allFiles
    /\ (forall i f,
           nth_error allFiles i = Some f ->
           fileToBase64 f = Returned (nth i allBase64 ""))
    /\ List.last parts "" = nth targetIndex allBase64 "".
Proof.
  intros fileToBase64 fullPrompt generateContent JSON_parse check
    allFiles targetIndex allBase64 Hread Ht parts.
  pose proof (promiseAll_length _ _ Hread) as Hlen.
  rewrite length_map in Hlen.
  assert (Hperm : Permutation parts allBase64).
  { subst parts. rewrite app_assoc. apply Permutation_sym.
    transitivity
      (nth targetIndex allBase64 ""
       :: firstn targetIndex allBase64 ++ skipn (S targetIndex) allBase64)%list.
    - rewrite (split_at allBase64 targetIndex) at 1 by lia.
      apply Permutation_sym, Permutation_middle.
    - apply Permutation_cons_append. }
  split; [|split; [exact Hperm | split; [|split]]].
  - subst parts. now apply analyzePdfWithGemini_call.
  - rewrite (Permutation_length Hperm). exact Hlen.
  - intros i f Hf.
    apply (promiseAll_nth _ _ Hread i).
    now rewrite nth_error_map, Hf.
  - subst parts. rewrite app_assoc. apply last_last.
Qed.

Lemma analyzePdfWithGemini_sends_target_last_witness :
  let files :=
    [{| GeminiService.name := "a.pdf"; GeminiService.bytes := "A" |};
     {| GeminiService.name := "b.pdf"; GeminiService.bytes := "B" |};
     {| GeminiService.name := "c.pdf"; GeminiService.bytes := "C" |}] in
  Permutation ["A"; "C"; "B"] ["A"; "B"; "C"].
Proof.
  intros files.
  assert (Ht : 1 < List.length files) by (simpl; lia).
  exact (proj1 (proj2
           (analyzePdfWithGemini_sends_target_last
              (fun f => Returned (GeminiService.bytes f))
              (fun _ _ => "prompt")
              (fun _ _ => Returned None)
              (fun _ => Threw NotAnError)
              (Returned false)
              files 1 ["A"; "B"; "C"] eq_refl Ht))).
Defined.

(** X11. How a failed analysis surfaces.  If reading a file fails, the
    thrown value leaves [analyzePdfWithGemini] as it is.  Once the files are
    read and the target is within the batch, every thrown value is an [Error]
    whose message is "Gemini API error: " followed by the inner message, or
    the fixed text for a value that is no [Error]; the text that
    [analyzePDFs] shows is then "Analysis failed: " followed by that message.
    An empty or missing response text is one such failure. *)
Theorem analyzePdfWithGemini_failures :
  forall (fileToBase64 : GeminiService.File -> Outcome string)
         (fullPrompt : list GeminiService.File -> nat -> string)
         (generateContent : list string -> string -> Outcome (option string))
         (JSON_parse : string -> Outcome AnalysisResult)
         (checkPythonAvailability : Outcome bool)
         (allFiles : list GeminiService.File) (targetIndex : nat),
    let run :=
      GeminiService.analyzePdfWithGemini fileToBase64 fullPrompt generateContent
        JSON_parse checkPythonAvailability allFiles targetIndex in
    (forall t,
        GeminiService.promiseAll (map fileToBase64 allFiles) = Threw t ->
        run = Threw t)
    /\ (forall allBase64 e,
           GeminiService.promiseAll (map fileToBase64 allFiles)
           = Returned allBase64 ->
           targetIndex < List.length allFiles ->
           run = Threw e ->
           exists m,
             e = ErrorObject m
             /\ App.errorText e = ("Analysis failed: " ++ m)%string
             /\ ((exists inner, m = ("Gemini API error: " ++ inner)%string)
                 \/ m = "An unknown error occurred during Gemini API call."))
    /\ (forall allBase64,
           GeminiService.promiseAll (map fileToBase64 allFiles)
           = Returned allBase64 ->
           targetIndex < List.length allFiles ->
           (forall parts prompt,
               generateContent parts prompt = Returned None
               \/ generateContent parts prompt = Returned (Some EmptyString)) ->
           run
           = Threw (ErrorObject
                      "Gemini API error: API returned an empty response.")).
Proof.
  intros fileToBase64 fullPrompt generateContent JSON_parse check
    allFiles targetIndex run.
  split; [|split].
  - intros t Hread. subst run.
    unfold GeminiService.analyzePdfWithGemini. now rewrite Hread.
  - intros allBase64 e Hread Ht Hrun.
    pose proof (analyzePdfWithGemini_call fileToBase64 fullPrompt generateContent
                  JSON_parse check allFiles targetIndex allBase64 Hread Ht)
      as Eq.
    fold run in Eq. rewrite Eq in Hrun.
    destruct (GeminiService.callGemini _ _ _ _ _) as [r|t]; [discriminate|].
    injection Hrun as <-.
    destruct t as [inner|]; cbn.
    + eexists. split; [reflexivity|]. split; [reflexivity|].
      left. now exists inner.
    + eexists. split; [reflexivity|]. split; [reflexivity|]. now right.
  - intros allBase64 Hread Ht Hempty.
    pose proof (analyzePdfWithGemini_call fileToBase64 fullPrompt generateContent
                  JSON_parse check allFiles targetIndex allBase64 Hread Ht)
      as Eq.
    fold run in Eq. rewrite Eq.
    unfold GeminiService.callGemini.
    destruct (Hempty
                (firstn targetIndex allBase64 ++ skipn (S targetIndex) allBase64
                 ++ [nth targetIndex allBase64 ""])%list
                (fullPrompt allFiles targetIndex)) as [-> | ->]; reflexivity.
Qed.

Lemma analyzePdfWithGemini_failures_witness :
  let files :=
    [{| GeminiService.name := "a.pdf"; GeminiService.bytes := "A" |}] in
  GeminiService.analyzePdfWithGemini
    (fun f => Returned (GeminiService.bytes f))
    (fun _ _ => "prompt")
    (fun _ _ => Returned None)
    (fun _ => Threw NotAnError)
    (Returned false)
    files 0
  = Threw (ErrorObject "Gemini API error: API returned an empty response.").
Proof.
  intros files.
  assert (Ht : 0 < List.length files) by (simpl; lia).
  exact (proj2 (proj2
           (analyzePdfWithGemini_failures
              (fun f => Returned (GeminiService.bytes f))
              (fun _ _ => "prompt")
              (fun _ _ => Returned None)
              (fun _ => Threw NotAnError)
              (Returned false)
              files 0)) ["A"] eq_refl Ht (fun _ _ => or_introl eq_refl)).
Defined.

Section ProbeFacts.

Import GeminiService.

(** The validation step touches the [validation] field only. *)
Lemma attachValidation_frame (probe : Outcome bool) (a : AnalysisResult) :
  let r := attachValidation probe a in
  isRoofRelated r = isRoofRelated a
  /\ documentType r = documentType a
  /\ language r = language a
  /\ scale r = scale a
  /\ materials r = materials a
  /\ summary r = summary a.
Proof.
  unfold attachValidation.
  destruct (isRoofRelated a) eqn:E; [|now rewrite E].
  destruct (truthyNumber (summaryTotalArea a)); [|now rewrite E].
  destruct probe as [[|]|]; cbn; now rewrite E.
Qed.

End ProbeFacts.

(** X12. The Python availability check is best effort.  Whether it
    answers yes or no or throws, the analysis throws the same value or
    returns a result with the same relevance flag, document type, language,
    scale, materials and summary; the check decides nothing but the
    validation note.  A note is attached exactly to roof-related results with
    a total area that is present and not zero, and it always says that
    Python was not used. *)
Theorem python_check_is_best_effort :
  forall (fileToBase64 : GeminiService.File -> Outcome string)
         (fullPrompt : list GeminiService.File -> nat -> string)
         (generateContent : list string -> string -> Outcome (option string))
         (JSON_parse : string -> Outcome AnalysisResult)
         (probe probe' : Outcome bool)
         (allFiles : list GeminiService.File) (targetIndex : nat),
    let run p :=
      GeminiService.analyzePdfWithGemini fileToBase64 fullPrompt generateContent
        JSON_parse p allFiles targetIndex in
    (forall e, run probe = Threw e -> run probe' = Threw e)
    /\ (forall r,
           run probe = Returned r ->
           exists r',
             run probe' = Returned r'
             /\ isRoofRelated r' = isRoofRelated r
             /\ documentType r' = documentType r
             /\ language r' = language r
             /\ scale r' = scale r
             /\ materials r' = materials r
             /\ summary r' = summary r)
    /\ (forall a : AnalysisResult,
           let r := GeminiService.attachValidation probe a in
           if isRoofRelated a
              && match truthyNumber (GeminiService.summaryTotalArea a) with
                 | Some _ => true
                 | None => false
                 end
           then exists v, validation r = Some v /\ pythonUsed v = false
           else r = a).
Proof.
  intros fileToBase64 fullPrompt generateContent JSON_parse probe probe'
    allFiles targetIndex run.
  split; [|split].
  - intros e. subst run. unfold GeminiService.analyzePdfWithGemini.
    destruct (GeminiService.promiseAll _); [|exact (fun H => H)].
    destruct (nth_error allFiles targetIndex); [|exact (fun H => H)].
    unfold GeminiService.callGemini.
    destruct (generateContent _ _) as [[[|c text]|]|]; try exact (fun H => H).
    destruct (JSON_parse _); [discriminate | exact (fun H => H)].
  - intros r. subst run. unfold GeminiService.analyzePdfWithGemini.
    destruct (GeminiService.promiseAll _); [|discriminate].
    destruct (nth_error allFiles targetIndex); [|discriminate].
    unfold GeminiService.callGemini.
    destruct (generateContent _ _) as [[[|c text]|]|]; try discriminate.
    destruct (JSON_parse _) as [parsed|]; [|discriminate].
    intros [= <-]. eexists. split; [reflexivity|].
    destruct (attachValidation_frame probe parsed)
      as (H1 & H2 & H3 & H4 & H5 & H6).
    destruct (attachValidation_frame probe' parsed)
      as (G1 & G2 & G3 & G4 & G5 & G6).
    repeat split; congruence.
  - intros a r. subst r. unfold GeminiService.attachValidation.
    destruct (isRoofRelated a); cbn [andb]; [|reflexivity].
    destruct (truthyNumber (GeminiService.summaryTotalArea a));
      [|reflexivity].
    destruct probe as [[|]|]; eexists; split; reflexivity.
Qed.

Lemma python_check_is_best_effort_witness :
  let files :=
    [{| GeminiService.name := "a.pdf"; GeminiService.bytes := "A" |}] in
  GeminiService.analyzePdfWithGemini
    (fun f => Returned (GeminiService.bytes f))
    (fun _ _ => "prompt")
    (fun _ _ => Returned (Some "{}"))
    (fun _ => Threw (ErrorObject "Unexpected end of JSON input"))
    (Threw NotAnError)
    files 0
  = Threw (ErrorObject "Gemini API error: Unexpected end of JSON input").
Proof.
  intros files.
  exact (proj1
           (python_check_is_best_effort
              (fun f => Returned (GeminiService.bytes f))
              (fun _ _ => "prompt")
              (fun _ _ => Returned (Some "{}"))
              (fun _ => Threw (ErrorObject "Unexpected end of JSON input"))
              (Returned true) (Threw NotAnError)
              files 0) _ eq_refl).
Defined.

(** ** The file list *)

Section FileListFacts.

Import GeminiService App FileList.

Lemma filterOutIndex_past {A : Type} (l : list A) :
  forall index i, index < i -> filterOutIndex index i l = l.
Proof.
  induction l as [|x l IH]; intros index i Hi; simpl; [reflexivity|].
  assert (E : (i =? index) = false) by (apply Nat.eqb_neq; lia).
  rewrite E. f_equal. apply IH. lia.
Qed.

Lemma filterOutIndex_split {A : Type} (l : list A) :
  forall index i, i <= index ->
    filterOutIndex index i l
    = (firstn (index - i) l ++ skipn (S (index - i)) l)%list.
Proof.
  induction l as [|x l IH]; intros index i Hi; simpl.
  - now rewrite firstn_nil.
  - destruct (i =? index) eqn:E.
    + apply Nat.eqb_eq in E. subst i. rewrite Nat.sub_diag. simpl.
      apply filterOutIndex_past. lia.
    + apply Nat.eqb_neq in E.
      replace (index - i) with (S (index - S i)) by lia.
      cbn [firstn skipn app]. f_equal. apply IH. lia.
Qed.

Lemma filterOutIndex_zero {A : Type} (index : nat) (l : list A) :
  filterOutIndex index 0 l = (firstn index l ++ skipn (S index) l)%list.
Proof. rewrite filterOutIndex_split by lia. now rewrite Nat.sub_0_r. Qed.

Lemma nth_error_without {A : Type} (l : list A) :
  forall k j,
    nth_error (firstn k l ++ skipn (S k) l) j
    = if j <? k then nth_error l j else nth_error l (S j).
Proof.
  induction l as [|x l IH]; intros k j.
  - rewrite firstn_nil, skipn_nil. simpl.
    destruct (j <? k); now destruct j.
  - destruct k as [|k].
    + reflexivity.
    + cbn [firstn skipn app]. destruct j as [|j]; [reflexivity|].
      cbn [nth_error]. rewrite IH.
      change (S j <? S k) with (j <? k). reflexivity.
Qed.

Lemma without_out_of_range {A : Type} (l : list A) (k : nat) :
  List.length l <= k -> (firstn k l ++ skipn (S k) l)%list = l.
Proof.
  intros H. rewrite firstn_all2 by lia. rewrite skipn_all2 by lia.
  apply app_nil_r.
Qed.

Lemma without_length {A : Type} (l : list A) (k : nat) :
  k < List.length l ->
  List.length (firstn k l ++ skipn (S k) l) = List.length l - 1.
Proof.
  intros H. rewrite length_app, length_firstn, length_skipn. lia.
Qed.

Lemma Forall_without {A : Type} (P : A -> Prop) (l : list A) :
  Forall P l -> forall k, Forall P (firstn k l ++ skipn (S k) l).
Proof.
  induction 1 as [|x l Hx Hl IH]; intros k.
  - rewrite firstn_nil, skipn_nil. constructor.
  - destruct k as [|k]; [exact Hl|].
    cbn [firstn skipn app]. constructor; [exact Hx | apply IH].
Qed.

Lemma removeFile_aligned (index : nat) (st : State) :
  aligned st -> aligned (removeFile index st).
Proof.
  unfold aligned, removeFile. cbn [results files setResults setFiles].
  rewrite !filterOutIndex_zero. intros H i r.
  rewrite !nth_error_without.
  destruct (i <? index); apply H.
Qed.

Lemma aligned_length (st : State) :
  aligned st -> List.length (results st) <= List.length (files st).
Proof.
  intros H.
  destruct (le_lt_dec (List.length (results st)) (List.length (files st)))
    as [Hle | Hlt]; [exact Hle|].
  destruct (nth_error (results st) (List.length (files st))) as [r|] eqn:Hr.
  - destruct (H _ _ Hr) as (f & Hf & _).
    assert (nth_error (files st) (List.length (files st)) = None)
      by (apply nth_error_None; lia).
    congruence.
  - apply nth_error_None in Hr. lia.
Qed.

Section Steps.

Variable fileType : File -> string.
Variable analyze : list File -> nat -> Outcome AnalysisResult.

Lemma handleFileUpload_fields (uploaded : list File) (st : State) :
  let st' := handleFileUpload fileType (Some uploaded) st in
  files st' = (files st ++ filter (isPdf fileType) uploaded)%list
  /\ results st' = []
  /\ processing st' = processing st
  /\ analysisStage st' = analysisStage st
  /\ error st'
     = if forallb (isPdf fileType) uploaded then None else Some onlyPdfMessage.
Proof.
  unfold handleFileUpload.
  assert (Hall : (List.length (filter (isPdf fileType) uploaded)
                  =? List.length uploaded)
                 = forallb (isPdf fileType) uploaded).
  { induction uploaded as [|f l IH]; [reflexivity|].
    cbn [filter forallb]. destruct (isPdf fileType f); cbn [andb List.length].
    - exact IH.
    - apply Nat.eqb_neq.
      pose proof (filter_length_le (isPdf fileType) l). lia. }
  rewrite Hall.
  destruct (filter (isPdf fileType) uploaded) as [|p ps] eqn:Hf;
    destruct (forallb (isPdf fileType) uploaded);
    cbn; rewrite ?app_nil_r; repeat split.
Qed.

Lemma act_settled (st : State) (a : Action) :
  settled fileType st -> settled fileType (act fileType analyze st a).
Proof.
  intros (Hpdf & Hal & Hproc). destruct a as [[uploaded|] | index |];
    cbn [act].
  - destruct (handleFileUpload_fields uploaded st) as (Hf & Hr & Hp & _).
    unfold settled, aligned. rewrite Hf, Hr, Hp.
    split; [|split; [|exact Hproc]].
    + apply Forall_app. split; [exact Hpdf|].
      apply Forall_forall. intros f Hin. now apply filter_In in Hin.
    + intros i r Hr'. destruct i; discriminate.
  - now repeat split.
  - split; [|split; [|exact Hproc]].
    + unfold removeFile. cbn [files setResults setFiles].
      rewrite filterOutIndex_zero. now apply Forall_without.
    + now apply removeFile_aligned.
  - assert (Hcase : files st = [] \/ files st <> [])
      by (destruct (files st); [now left | right; discriminate]).
    destruct Hcase as [Hnil | Hne].
    + unfold analyzePDFs. rewrite Hnil. cbn [List.length Nat.eqb state].
      now repeat split.
    + destruct (analyzePDFs_shape analyze st Hne)
        as (Eres & Efiles & Eproc & _).
      unfold settled, aligned. rewrite Efiles, Eres, Eproc.
      split; [exact Hpdf | split; [|reflexivity]].
      intros i r Hr.
      destruct (recordsFrom_lookup analyze (files st) _ 0 i r Hr)
        as (f & a & Hf & _ & ->).
      exists f. split; [exact Hf | reflexivity].
Qed.

Lemma fold_act_settled (actions : list Action) :
  forall st,
    settled fileType st ->
    settled fileType (fold_left (act fileType analyze) actions st).
Proof.
  induction actions as [|a actions IH]; intros st H; [exact H|].
  apply IH. now apply act_settled.
Qed.

End Steps.

End FileListFacts.

(** X13. After any sequence of uploads, removals and analyses, each run to
    its end before the next: every file in the list is a PDF, every result
    sits at the index of the file it was made from and carries its name,
    there are never more results than files, and processing is off. *)
Theorem file_list_stays_consistent :
  forall (fileType : GeminiService.File -> string)
         (analyze : list GeminiService.File -> nat -> Outcome AnalysisResult)
         (actions : list FileList.Action),
    let st := FileList.stateAfter fileType analyze actions in
    Forall (fun f => FileList.isPdf fileType f = true) (App.files st)
    /\ FileList.aligned st
    /\ List.length (App.results st) <= List.length (App.files st)
    /\ App.processing st = false.
Proof.
  intros fileType analyze actions st.
  assert (H : FileList.settled fileType st).
  { apply fold_act_settled. repeat split; [constructor|].
    intros i r Hr. destruct i; discriminate. }
  destruct H as (Hpdf & Hal & Hproc).
  split; [exact Hpdf|]. split; [exact Hal|].
  split; [now apply aligned_length | exact Hproc].
Qed.

(** X14. Removing index [i] takes exactly the entry at [i] out of the files
    and out of the results and touches nothing else: entries before [i] keep
    their index, entries after it move down by one, the file list gets one
    shorter when [i] is within it, and an index beyond both lists changes
    nothing at all. *)
Theorem removeFile_takes_out_one_index :
  forall (index : nat) (st : App.State),
    let st' := FileList.removeFile index st in
    (forall j,
        nth_error (App.files st') j
        = if j <? index then nth_error (App.files st) j
          else nth_error (App.files st) (S j))
    /\ (forall j,
           nth_error (App.results st') j
           = if j <? index then nth_error (App.results st) j
             else nth_error (App.results st) (S j))
    /\ App.processing st' = App.processing st
    /\ App.error st' = App.error st
    /\ App.analysisStage st' = App.analysisStage st
    /\ (index < List.length (App.files st) ->
        List.length (App.files st') = List.length (App.files st) - 1)
    /\ (List.length (App.files st) <= index ->
        List.length (App.results st) <= index ->
        st' = st).
Proof.
  intros index st st'. subst st'. unfold FileList.removeFile.
  cbn [App.files App.results App.processing App.error App.analysisStage
       App.setResults FileList.setFiles].
  rewrite !filterOutIndex_zero.
  split; [intros j; apply nth_error_without|].
  split; [intros j; apply nth_error_without|].
  split; [reflexivity|]. split; [reflexivity|]. split; [reflexivity|].
  split.
  - intros H. now apply without_length.
  - intros Hf Hr. unfold App.setResults, FileList.setFiles.
    cbn [App.files App.results App.processing App.error App.analysisStage].
    rewrite !without_out_of_range by assumption.
    now destruct st.
Qed.

Lemma removeFile_takes_out_one_index_witness :
  let st := Batch.sampleState ["a.pdf"; "b.pdf"; "c.pdf"] in
  List.length (App.files (FileList.removeFile 1 st)) = 2
  /\ FileList.removeFile 7 st = st.
Proof.
  intros st.
  assert (H1 : 1 < List.length (App.files st)) by (simpl; lia).
  assert (H7 : List.length (App.files st) <= 7) by (simpl; lia).
  assert (H7' : List.length (App.results st) <= 7) by (simpl; lia).
  split.
  - exact (proj1 (proj2 (proj2 (proj2 (proj2 (proj2
             (removeFile_takes_out_one_index 1 st)))))) H1).
  - exact (proj2 (proj2 (proj2 (proj2 (proj2 (proj2
             (removeFile_takes_out_one_index 7 st)))))) H7 H7').
Defined.

(** X15. An upload appends exactly the PDF files of the selection, in the
    order selected, behind the files already there, and clears the results.
    The error message is set exactly when some selected file is not a PDF
    and is cleared otherwise; a selection without any PDF leaves the file
    list as it is, and a null selection changes nothing. *)
Theorem handleFileUpload_keeps_pdfs_only :
  forall (fileType : GeminiService.File -> string)
         (uploaded : list GeminiService.File) (st : App.State),
    let st' := FileList.handleFileUpload fileType (Some uploaded) st in
    App.files st'
    = (App.files st ++ filter (FileList.isPdf fileType) uploaded)%list
    /\ App.results st' = []
    /\ (App.error st' = Some FileList.onlyPdfMessage
        <-> exists f, In f uploaded /\ FileList.isPdf fileType f = false)
    /\ (App.error st' = None
        <-> forall f, In f uploaded -> FileList.isPdf fileType f = true)
    /\ ((forall f, In f uploaded -> FileList.isPdf fileType f = false) ->
        App.files st' = App.files st)
    /\ FileList.handleFileUpload fileType None st = st.
Proof.
  intros fileType uploaded st st'.
  destruct (handleFileUpload_fields fileType uploaded st)
    as (Hf & Hr & _ & _ & He).
  fold st' in Hf, Hr, He.
  split; [exact Hf|]. split; [exact Hr|].
  rewrite He, Hf.
  destruct (forallb (FileList.isPdf fileType) uploaded) eqn:Hall.
  - rewrite forallb_forall in Hall.
    split; [|split; [|split; [|reflexivity]]].
    + split; [discriminate|]. intros (f & Hin & Hn).
      rewrite (Hall f Hin) in Hn. discriminate.
    + split; [intros _; exact Hall | reflexivity].
    + intros Hnone.
      assert (E : filter (FileList.isPdf fileType) uploaded = []).
      { destruct uploaded as [|f l]; [reflexivity|].
        specialize (Hall f (or_introl eq_refl)).
        specialize (Hnone f (or_introl eq_refl)). congruence. }
      rewrite E. apply app_nil_r.
  - assert (Hex : exists f, In f uploaded /\ FileList.isPdf fileType f = false).
    { clear -Hall. induction uploaded as [|f l IH]; [discriminate|].
      cbn [forallb] in Hall.
      destruct (FileList.isPdf fileType f) eqn:Ef.
      - destruct (IH Hall) as (g & Hg & Hn). exists g. split; [now right | exact Hn].
      - exists f. split; [now left | exact Ef]. }
    split; [|split; [|split; [|reflexivity]]].
    + split; [intros _; exact Hex | reflexivity].
    + split; [discriminate|]. intros H.
      destruct Hex as (f & Hin & Hn). rewrite (H f Hin) in Hn. discriminate.
    + intros Hnone.
      assert (E : filter (FileList.isPdf fileType) uploaded = []).
      { clear -Hnone. induction uploaded as [|f l IH]; [reflexivity|].
        cbn [filter]. rewrite (Hnone f (or_introl eq_refl)).
        apply IH. intros g Hg. apply Hnone. now right. }
      rewrite E. apply app_nil_r.
Qed.

Lemma handleFileUpload_keeps_pdfs_only_witness :
  let fileType (f : GeminiService.File) :=
    if String.eqb (GeminiService.name f) "notes.txt" then "text/plain"
    else "application/pdf" in
  let selection :=
    [{| GeminiService.name := "roof.pdf"; GeminiService.bytes := "" |};
     {| GeminiService.name := "notes.txt"; GeminiService.bytes := "" |}] in
  App.error
    (FileList.handleFileUpload fileType (Some selection)
       (Batch.sampleState ["a.pdf"]))
  = Some FileList.onlyPdfMessage.
Proof.
  intros fileType selection.
  apply (proj2 (proj1 (proj2 (proj2
           (handleFileUpload_keeps_pdfs_only fileType selection
              (Batch.sampleState ["a.pdf"])))))).
  exists {| GeminiService.name := "notes.txt"; GeminiService.bytes := "" |}.
  split; [right; now left | reflexivity].
Defined.

(** ** The CSV export *)

Section CsvFacts.

Import CsvExport.

Lemma pushRows_all (file : string) (ms : list (option Material)) :
  forall rows,
    Forall (fun m => m <> None) ms ->
    pushRows file ms rows
    = Returned (rows ++ map entryRow (map (fun m => (file, m)) ms))%list.
Proof.
  induction ms as [|[mat|] ms IH]; intros rows Hall; cbn [pushRows map].
  - now rewrite app_nil_r.
  - inversion Hall; subst. rewrite IH by assumption.
    now rewrite <- app_assoc.
  - inversion Hall; subst. congruence.
Qed.

Lemma pushRows_null (file : string) (ms : list (option Material)) :
  forall rows,
    ~ Forall (fun m => m <> None) ms ->
    pushRows file ms rows
    = Threw (ErrorObject "Cannot read properties of null (reading 'code')").
Proof.
  induction ms as [|[mat|] ms IH]; intros rows Hnot; cbn [pushRows].
  - exfalso. apply Hnot. constructor.
  - apply IH. intros H. apply Hnot. constructor; [discriminate | exact H].
  - reflexivity.
Qed.

Lemma Forall_pairs (file : string) (ms : list (option Material)) :
  Forall (fun e : string * option Material => snd e <> None)
    (map (fun m => (file, m)) ms)
  <-> Forall (fun m => m <> None) ms.
Proof.
  rewrite Forall_map. reflexivity.
Qed.

Lemma nonnull_dec (ms : list (option Material)) :
  Forall (fun m => m <> None) ms \/ ~ Forall (fun m => m <> None) ms.
Proof.
  induction ms as [|[mat|] ms IH].
  - left. constructor.
  - destruct IH as [H | H].
    + left. constructor; [discriminate | exact H].
    + right. intros H'. inversion H'; subst. contradiction.
  - right. intros H'. inversion H'; subst. congruence.
Qed.

Lemma collectRows_all (roof : list ResultFile) :
  forall rows,
    let es :=
      flat_map
        (fun r =>
           match materials (analysis r) with
           | Some ms => map (fun m => (fileName r, m)) ms
           | None => []
           end) roof in
    (Forall (fun e => snd e <> None) es ->
     collectRows roof rows = Returned (rows ++ map entryRow es)%list)
    /\ (~ Forall (fun e => snd e <> None) es ->
        collectRows roof rows
        = Threw (ErrorObject "Cannot read properties of null (reading 'code')")).
Proof.
  induction roof as [|r roof IH]; intros rows; cbn [flat_map collectRows].
  - split; [intros _; now rewrite app_nil_r|].
    intros H. exfalso. apply H. constructor.
  - destruct (materials (analysis r)) as [ms|]; cbn [app].
    + split.
      * intros Hall. apply Forall_app in Hall. destruct Hall as [H1 H2].
        rewrite (pushRows_all _ _ _ (proj1 (Forall_pairs _ _) H1)).
        rewrite (proj1 (IH _) H2), map_app. now rewrite app_assoc.
      * intros Hnot.
        destruct (nonnull_dec ms) as [Hms | Hms].
        -- rewrite (pushRows_all _ _ _ Hms). apply IH.
           intros H. apply Hnot. apply Forall_app. split; [|exact H].
           now apply Forall_pairs.
        -- now rewrite (pushRows_null _ _ _ Hms).
    + apply IH.
Qed.

Lemma entryRow_shape (e : string * option Material) :
  snd e <> None ->
  List.length (entryRow e) = 7
  /\ List.last (entryRow e) (CellText "") = CellText (fst e).
Proof.
  destruct e as [file [mat|]]; cbn [snd]; [|intros H; now elim H].
  intros _. split; reflexivity.
Qed.

End CsvFacts.

(** X16. The export is one row per material entry of the roof-related
    results, in visiting order, whether or not the entry has a string name:
    each row has seven cells and ends with the file name of its document.
    Nothing is exported for an empty result list; and, unlike the
    consolidation, the export throws when a roof-related result lists a null
    entry. *)
Theorem exportToCSV_one_row_per_entry :
  forall (cellToString : CsvExport.Cell -> string) (results : list ResultFile),
    let es := Consolidation.entriesOf results in
    (results = [] -> CsvExport.exportToCSV cellToString results = Returned None)
    /\ (results <> [] ->
        Forall (fun e => snd e <> None) es ->
        exists rows,
          CsvExport.exportToCSV cellToString results
          = Returned (Some (CsvExport.csvContent cellToString rows))
          /\ List.length rows = List.length es
          /\ Forall (fun row => List.length row = 7) rows
          /\ map (fun row => List.last row (CsvExport.CellText "")) rows
             = map (fun e => CsvExport.CellText (fst e)) es)
    /\ (results <> [] ->
        ~ Forall (fun e => snd e <> None) es ->
        CsvExport.exportToCSV cellToString results
        = Threw (ErrorObject "Cannot read properties of null (reading 'code')")).
Proof.
  intros cellToString results es.
  destruct (collectRows_all (App.roofResultsOf results) []) as (Hall & Hnull).
  fold (Consolidation.entriesOf results) in Hall, Hnull. fold es in Hall, Hnull.
  split; [intros ->; reflexivity|].
  assert (Hnz : results <> [] -> (List.length results =? 0) = false).
  { intros H. apply Nat.eqb_neq. destruct results; [contradiction | discriminate]. }
  split.
  - intros Hne Hes. exists (map CsvExport.entryRow es).
    unfold CsvExport.exportToCSV. rewrite (Hnz Hne), (Hall Hes). cbn [app].
    split; [reflexivity|]. split; [apply length_map|]. split.
    + apply Forall_map. eapply Forall_impl; [|exact Hes].
      intros e He. exact (proj1 (entryRow_shape e He)).
    + rewrite map_map. apply map_ext_Forall.
      eapply Forall_impl; [|exact Hes].
      intros e He. exact (proj2 (entryRow_shape e He)).
  - intros Hne Hes. unfold CsvExport.exportToCSV.
    now rewrite (Hnz Hne), (Hnull Hes).
Qed.

Lemma exportToCSV_one_row_per_entry_witness :
  let roof :=
    Consolidation.sampleDocument "roof.pdf" true
      [Consolidation.sampleEntry (JsStr "EPDM") "DRL" "m2" 50 0.8; None] in
  CsvExport.exportToCSV (fun _ => "") [roof]
  = Threw (ErrorObject "Cannot read properties of null (reading 'code')").
Proof.
  intros roof.
  apply (proj2 (proj2 (exportToCSV_one_row_per_entry (fun _ => "") [roof]))).
  - discriminate.
  - intros H. inversion H as [|? ? _ H2]; subst.
    inversion H2 as [|? ? H3 _]; subst. now apply H3.
Defined.

Section CsvReader.

Import CsvExport.

Lemma append_snoc (a : string) (c : ascii) (t : string) :
  ((a ++ String c EmptyString) ++ t = a ++ String c t)%string.
Proof.
  induction a as [|x a IH]; simpl; [reflexivity | now rewrite IH].
Qed.

Lemma append_empty (a : string) : (a ++ EmptyString)%string = a.
Proof. induction a as [|x a IH]; simpl; [reflexivity | now rewrite IH]. Qed.

Lemma append_step (a b c : string) : ((a ++ b) ++ c = a ++ b ++ c)%string.
Proof. induction a as [|x a IH]; simpl; [reflexivity | now rewrite IH]. Qed.

(** Inside a cell, the escaped text reads back as the text. *)
Lemma readFrom_escaped (text : string) :
  forall (seen : string) (cells : list string) (rest : string),
    readFrom (InCell seen, cells) (escapeQuotes text ++ rest)
    = readFrom (InCell (seen ++ text), cells) rest.
Proof.
  induction text as [|c text IH]; intros seen cells rest.
  - simpl. now rewrite append_empty.
  - cbn [escapeQuotes]. destruct (Ascii.eqb c quote) eqn:E.
    + apply Ascii.eqb_eq in E. subst c.
      cbn [append readFrom readChar]. rewrite Ascii.eqb_refl.
      cbn [readFrom readChar]. rewrite Ascii.eqb_refl.
      rewrite IH. now rewrite append_snoc.
    + cbn [append readFrom readChar]. rewrite E.
      rewrite IH. now rewrite append_snoc.
Qed.

(** A quoted cell reads back as its text, from the start of a cell. *)
Lemma readFrom_quoted (text : string) (cells : list string) (rest : string)
  (st : ReaderState) :
  st = AtStart \/ st = BeforeCell ->
  readFrom (st, cells) (quoted text ++ rest)
  = readFrom (AfterQuote text, cells) rest.
Proof.
  intros Hst. unfold quoted. cbn [append readFrom].
  assert (E : readChar (st, cells) quote = (InCell EmptyString, cells)).
  { destruct Hst as [-> | ->]; cbn [readChar]; now rewrite Ascii.eqb_refl. }
  rewrite E, append_step, readFrom_escaped.
  cbn [append readFrom readChar]. now rewrite Ascii.eqb_refl.
Qed.

Lemma comma_not_quote : Ascii.eqb comma quote = false.
Proof. reflexivity. Qed.

(** A line of quoted cells reads back cell by cell. *)
Lemma readFrom_line (texts : list string) :
  forall (text : string) (cells : list string) (st : ReaderState),
    st = AtStart \/ st = BeforeCell ->
    readFrom (st, cells)
      (String.concat (String comma EmptyString) (map quoted (text :: texts)))
    = (AfterQuote (List.last (text :: texts) EmptyString),
       (cells ++ List.removelast (text :: texts))%list).
Proof.
  induction texts as [|next texts IH]; intros text cells st Hst.
  - cbn [map String.concat List.last List.removelast].
    rewrite <- (append_empty (quoted text)), (readFrom_quoted _ _ _ _ Hst).
    cbn [readFrom]. now rewrite app_nil_r.
  - change (String.concat (String comma EmptyString)
              (map quoted (text :: next :: texts)))
      with (quoted text
            ++ String comma EmptyString
            ++ String.concat (String comma EmptyString)
                 (map quoted (next :: texts)))%string.
    rewrite (readFrom_quoted _ _ _ _ Hst).
    cbn [append readFrom readChar].
    rewrite comma_not_quote, Ascii.eqb_refl.
    rewrite (IH next (cells ++ [text])%list BeforeCell (or_intror eq_refl)).
    change (List.last (text :: next :: texts) EmptyString)
      with (List.last (next :: texts) EmptyString).
    change (List.removelast (text :: next :: texts))
      with (text :: List.removelast (next :: texts)).
    now rewrite <- app_assoc.
Qed.

End CsvReader.

(** X17. The quoting of the export loses nothing: reading a line back, as
    comma-separated cells in quotation marks with every quotation mark inside
    doubled, gives exactly the cell texts that went in, whatever characters
    they hold; so two rows with the same line have the same cell texts. *)
Theorem csvLine_reads_back :
  forall (cellToString : CsvExport.Cell -> string) (row row' : list CsvExport.Cell),
    CsvExport.readLine (CsvExport.csvLine cellToString row)
    = Some (map cellToString row)
    /\ (CsvExport.csvLine cellToString row = CsvExport.csvLine cellToString row' ->
        map cellToString row = map cellToString row').
Proof.
  intros cellToString row row'.
  assert (Hread : forall r,
             CsvExport.readLine (CsvExport.csvLine cellToString r)
             = Some (map cellToString r)).
  { intros [|cell r]; [reflexivity|].
    unfold CsvExport.readLine, CsvExport.csvLine.
    rewrite <- (map_map cellToString CsvExport.quoted).
    change (map cellToString (cell :: r))
      with (cellToString cell :: map cellToString r).
    rewrite (readFrom_line (map cellToString r) (cellToString cell) []
               CsvExport.AtStart (or_introl eq_refl)).
    cbn [app]. f_equal. symmetry. apply app_removelast_last. discriminate. }
  split; [apply Hread|].
  intros E. pose proof (Hread row) as H1. rewrite E, Hread in H1.
  now injection H1.
Qed.

Lemma csvLine_reads_back_witness :
  let text (c : CsvExport.Cell) :=
    match c with
    | CsvExport.CellText s => s
    | _ => ""
    end in
  let row :=
    [CsvExport.CellText ("3" ++ String CsvExport.quote " felt, torch-on");
     CsvExport.CellText ""] in
  let row' :=
    [CsvExport.CellText ("3" ++ String CsvExport.quote " felt, torch-on");
     CsvExport.CellUnit None] in
  CsvExport.readLine (CsvExport.csvLine text row)
  = Some ["3" ++ String CsvExport.quote " felt, torch-on"; ""]
  /\ map text row = map text row'.
Proof.
  intros text row row'. split.
  - exact (proj1 (csvLine_reads_back text row row')).
  - exact (proj2 (csvLine_reads_back text row row') eq_refl).
Defined.

(** ** The calls to the backend *)

Local Open Scope Q_scope.



Local Close Scope Q_scope.

(** X19. The note that the analysis attaches follows the health endpoint.
    With [checkPythonAvailability] as the check, a roof-related result with a
    total area gets the note "available but requires server-side
    integration" exactly when the endpoint answered, with an OK status, a
    body whose [status] is "ok" and whose [python] is "available"; in every
    other case, also when the request or the parsing throws, it gets the
    note "unavailable - install Python dependencies to enable".  The note
    "Python validation failed" is never attached. *)
Theorem validation_note_follows_health_check :
  forall (fetched : Outcome (PythonClient.Response PythonClient.HealthBody))
         (a : AnalysisResult) (x : Q),
    isRoofRelated a = true ->
    truthyNumber (GeminiService.summaryTotalArea a) = Some x ->
    let r :=
      GeminiService.attachValidation
        (Returned (PythonClient.checkPythonAvailability fetched)) a in
    let healthy :=
      exists response data,
        fetched = Returned response
        /\ PythonClient.ok response = true
        /\ PythonClient.json response = Returned data
        /\ PythonClient.h_status data = JsStr "ok"
        /\ PythonClient.h_python data = JsStr "available" in
    (healthy ->
     validation r
     = Some (GeminiService.pythonNotUsed
               "Python validation available but requires server-side integration"))
    /\ (~ healthy ->
        validation r
        = Some (GeminiService.pythonNotUsed
                  "Python validation unavailable - install Python dependencies to enable"))
    /\ validation r
       <> Some (GeminiService.pythonNotUsed
                  "Python validation failed - using AI-only result").
Proof.
  intros fetched a x Hroof Harea r healthy.
  assert (Hr : validation r
               = Some (GeminiService.pythonNotUsed
                         (if PythonClient.checkPythonAvailability fetched
                          then "Python validation available but requires server-side integration"
                          else "Python validation unavailable - install Python dependencies to enable"))).
  { subst r. unfold GeminiService.attachValidation. rewrite Hroof, Harea.
    now destruct (PythonClient.checkPythonAvailability fetched). }
  assert (Hiff : PythonClient.checkPythonAvailability fetched = true <-> healthy).
  { subst healthy. unfold PythonClient.checkPythonAvailability. split.
    - destruct fetched as [response|]; [|discriminate].
      destruct (PythonClient.ok response) eqn:Hok; cbn [negb]; [|discriminate].
      destruct (PythonClient.json response) as [data|] eqn:Hj; [|discriminate].
      intros [H1 H2]%andb_true_iff.
      exists response, data. repeat split; try assumption.
      + destruct (PythonClient.h_status data); try discriminate.
        apply String.eqb_eq in H1. now subst.
      + destruct (PythonClient.h_python data); try discriminate.
        apply String.eqb_eq in H2. now subst.
    - intros (response & data & -> & Hok & Hj & Hs & Hp).
      rewrite Hok, Hj, Hs, Hp. reflexivity. }
  rewrite Hr. split; [|split].
  - intros H. apply Hiff in H. now rewrite H.
  - intros H.
    destruct (PythonClient.checkPythonAvailability fetched) eqn:E;
      [|reflexivity].
    exfalso. apply H. now apply Hiff.
  - destruct (PythonClient.checkPythonAvailability fetched); discriminate.
Qed.

Lemma validation_note_follows_health_check_witness :
  let a :=
    {| isRoofRelated := true;
       documentType := "roof plan";
       language := "English";
       scale := "1:100";
       materials := Some [];
       summary := Some {| s_totalArea := Some 100%Q; s_materialCount := 0 |};
       validation := None |} in
  validation
    (GeminiService.attachValidation
       (Returned (PythonClient.checkPythonAvailability (Threw NotAnError))) a)
  = Some (GeminiService.pythonNotUsed
            "Python validation unavailable - install Python dependencies to enable").
Proof.
  intros a.
  apply (proj1 (proj2
           (validation_note_follows_health_check (Threw NotAnError) a 100%Q
              eq_refl eq_refl))).
  intros (response & data & H & _). discriminate.
Defined.

(** ** The earlier analysis loop and its context summary *)

Section SequentialFacts.

Import GeminiService Sequential.

Variable numberToString : Q -> string.
Variable analyze : File -> list File -> string -> Outcome AnalysisResult.
Variable fs cfs : list File.
Variable mode : bool.

Lemma refreshSummary_contextFor (all : list ResultFile) (current : string) :
  (mode = false -> current = EmptyString) ->
  (filter (fun r => isRoofRelated (analysis r)) all = [] ->
   current = EmptyString) ->
  refreshSummary numberToString mode all current
  = contextFor numberToString mode all.
Proof.
  intros Hmode Hroof. unfold refreshSummary, contextFor.
  destruct mode; cbn [andb].
  - destruct all as [|r all']; cbn [List.length Nat.ltb Nat.leb].
    + now rewrite Hroof.
    + change (0 <? S (List.length all')) with true. cbv iota.
      destruct (filter (fun r0 => isRoofRelated (analysis r0)) (r :: all'))
        as [|x roof] eqn:E; [|reflexivity].
      cbn. now rewrite Hroof.
  - now rewrite Hmode.
Qed.

Lemma contextFor_carries (all : list ResultFile) (record : ResultFile)
  (context : string) :
  contextFor numberToString mode all = Returned context ->
  (mode = false -> context = EmptyString)
  /\ (filter (fun r => isRoofRelated (analysis r)) (all ++ [record]) = [] ->
      context = EmptyString).
Proof.
  unfold contextFor. intros H. split.
  - intros Hm. rewrite Hm in H. cbn in H. congruence.
  - rewrite filter_app. intros E. apply app_eq_nil in E. destruct E as [E _].
    rewrite E in H. cbn in H. rewrite andb_false_r in H. congruence.
Qed.

(** The loop with its variable computes what the recursion over the earlier
    records computes. *)
Lemma forLoop_refines :
  forall todo i summary run,
    i + todo = List.length fs ->
    results (state run) = allResults run ->
    (mode = false -> summary = EmptyString) ->
    (filter (fun r => isRoofRelated (analysis r)) (allResults run) = [] ->
     summary = EmptyString) ->
    let expected :=
      recordsFrom numberToString analyze fs cfs mode i todo (allResults run) in
    exists run',
      forLoop numberToString analyze fs cfs mode todo i summary run
      = (match snd expected with
         | None => Returned tt
         | Some t => Threw t
         end, run')
      /\ allResults run' = (allResults run ++ fst expected)%list
      /\ results (state run') = allResults run'
      /\ files (state run') = files (state run)
      /\ contextFiles (state run') = contextFiles (state run)
      /\ contextMode (state run') = contextMode (state run)
      /\ error (state run') = error (state run).
Proof.
  induction todo as [|todo IH]; intros i summary run Hlen Hres Hmode Hroof.
  - exists run. cbn. rewrite app_nil_r. now repeat split.
  - cbn [forLoop recordsFrom].
    destruct (nth_error fs i) as [file|] eqn:Hf;
      [|apply nth_error_None in Hf; lia].
    rewrite (refreshSummary_contextFor _ _ Hmode Hroof).
    destruct (contextFor numberToString mode (allResults run))
      as [context|t] eqn:Hctx.
    + destruct (analyze file cfs context) as [a|t] eqn:Ha.
      * destruct (contextFor_carries _ {| fileName := name file; analysis := a |}
                    _ Hctx) as (Hmode' & Hroof').
        destruct (IH (S i) context
                    {| state :=
                         setResults
                           (allResults run
                            ++ [{| fileName := name file; analysis := a |}])%list
                           (setAnalysisStage (StageAnalyzing (name file))
                              (setAnalysisStage
                                 (StageProcessing (i + 1) (List.length fs)
                                    (name file))
                                 (state run)));
                       allResults :=
                         (allResults run
                          ++ [{| fileName := name file; analysis := a |}])%list |})
          as (run' & Hrun & Hall & Hres' & H1 & H2 & H3 & H4);
          [lia | reflexivity | exact Hmode' | exact Hroof' |].
        cbn [allResults state] in Hrun, Hall, H1, H2, H3, H4.
        destruct (recordsFrom numberToString analyze fs cfs mode (S i) todo
                    (allResults run
                     ++ [{| fileName := name file; analysis := a |}])%list)
          as [records thrown] eqn:E.
        cbn [fst snd] in *.
        exists run'. split; [exact Hrun|].
        split; [rewrite Hall; now rewrite <- app_assoc|].
        now repeat split.
      * eexists. split; [reflexivity|]. cbn. rewrite app_nil_r.
        now repeat split.
    + eexists. split; [reflexivity|]. cbn. rewrite app_nil_r.
      now repeat split.
Qed.

Lemma recordsFrom_aligned :
  forall n i earlier j r,
    nth_error
      (fst (recordsFrom numberToString analyze fs cfs mode i n earlier)) j
    = Some r ->
    exists f, nth_error fs (i + j) = Some f /\ fileName r = name f.
Proof.
  induction n as [|n IH]; intros i earlier j r; cbn [recordsFrom].
  - destruct j; discriminate.
  - destruct (nth_error fs i) as [file|] eqn:Hf; [|destruct j; discriminate].
    destruct (contextFor numberToString mode earlier) as [context|];
      [|destruct j; discriminate].
    destruct (analyze file cfs context) as [a|]; [|destruct j; discriminate].
    destruct (recordsFrom numberToString analyze fs cfs mode (S i) n
                (earlier ++ [{| fileName := name file; analysis := a |}])%list)
      as [records thrown] eqn:E.
    cbn [fst]. destruct j as [|j]; cbn [nth_error].
    + intros [= <-]. exists file. now rewrite Nat.add_0_r.
    + intros H.
      specialize (IH (S i)
                    (earlier ++ [{| fileName := name file; analysis := a |}])%list
                    j r).
      rewrite E in IH.
      destruct (IH H) as (f & Hf' & Hn). exists f.
      now replace (i + S j) with (S i + j) by lia.
Qed.

End SequentialFacts.

(** X20. In the earlier App.tsx, the variable that carries the context
    summary from one iteration to the next always holds the context of the
    records made so far: document [i] is analysed with the digest of the
    roof-related records of documents 0..i-1, or with the empty string when
    the context mode is off or none of them is roof related.  The run ends
    with the records made before the first step that throws, each at the
    index of its file and under its name, with the error text of what was
    thrown, processing off, and the files, context files and mode as they
    were. *)
Theorem sequential_run_uses_context_of_earlier_records :
  forall (numberToString : Q -> string)
         (analyze : GeminiService.File -> list GeminiService.File -> string ->
                    Outcome AnalysisResult)
         (st : Sequential.State),
    Sequential.files st <> [] ->
    let run := Sequential.analyzePDFs numberToString analyze st in
    let expected :=
      Sequential.recordsFrom numberToString analyze
        (Sequential.files st) (Sequential.contextFiles st)
        (Sequential.contextMode st) 0 (List.length (Sequential.files st)) [] in
    Sequential.results (Sequential.state run) = fst expected
    /\ Sequential.error (Sequential.state run)
       = option_map App.errorText (snd expected)
    /\ Sequential.processing (Sequential.state run) = false
    /\ Sequential.analysisStage (Sequential.state run) = Sequential.StageNone
    /\ Sequential.files (Sequential.state run) = Sequential.files st
    /\ Sequential.contextFiles (Sequential.state run) = Sequential.contextFiles st
    /\ Sequential.contextMode (Sequential.state run) = Sequential.contextMode st
    /\ (forall j r,
           nth_error (Sequential.results (Sequential.state run)) j = Some r ->
           exists f,
             nth_error (Sequential.files st) j = Some f
             /\ fileName r = GeminiService.name f).
Proof.
  intros numberToString analyze st Hne run expected.
  assert (Hz : Nat.eqb (List.length (Sequential.files st)) 0 = false).
  { apply Nat.eqb_neq.
    destruct (Sequential.files st); [contradiction | discriminate]. }
  destruct (forLoop_refines numberToString analyze
              (Sequential.files st) (Sequential.contextFiles st)
              (Sequential.contextMode st)
              (List.length (Sequential.files st)) 0 EmptyString
              {| Sequential.state :=
                   Sequential.setResults []
                     (Sequential.setError None
                        (Sequential.setProcessing true st));
                 Sequential.allResults := [] |}
              eq_refl eq_refl (fun _ => eq_refl) (fun _ => eq_refl))
    as (run' & Hrun & Hall & Hres & H1 & H2 & H3 & H4).
  cbn [Sequential.allResults Sequential.state app] in Hrun, Hall, H1, H2, H3, H4.
  fold expected in Hrun, Hall.
  cbn in H1, H2, H3, H4.
  assert (Eres : Sequential.results (Sequential.state run) = fst expected).
  { subst run. unfold Sequential.analyzePDFs. rewrite Hz, Hrun.
    destruct (snd expected); cbn; now rewrite Hres, Hall. }
  split; [exact Eres|].
  subst run. unfold Sequential.analyzePDFs in *. rewrite Hz, Hrun in *.
  destruct (snd expected) as [t|]; cbn in *;
    (split; [try reflexivity; exact H4|]);
    (split; [reflexivity|]); (split; [reflexivity|]);
    (split; [exact H1|]); (split; [exact H2|]); (split; [exact H3|]);
    intros j r Hr; rewrite Eres in Hr;
    apply (recordsFrom_aligned numberToString analyze _ _ _ _ 0 [] j r Hr).
Qed.

Lemma sequential_run_uses_context_of_earlier_records_witness :
  let analyze (f : GeminiService.File) (cfs : list GeminiService.File)
              (context : string) :=
    if String.eqb context "" then Returned Batch.sampleAnalysis
    else Threw (ErrorObject "context seen") in
  let st :=
    {| Sequential.files :=
         [{| GeminiService.name := "a.pdf"; GeminiService.bytes := "" |};
          {| GeminiService.name := "b.pdf"; GeminiService.bytes := "" |}];
       Sequential.contextFiles := [];
       Sequential.processing := false;
       Sequential.results := [];
       Sequential.error := None;
       Sequential.analysisStage := Sequential.StageNone;
       Sequential.contextMode := true |} in
  let run := Sequential.analyzePDFs (fun _ => "") analyze st in
  map fileName (Sequential.results (Sequential.state run)) = ["a.pdf"]
  /\ Sequential.error (Sequential.state run)
     = Some "Analysis failed: context seen".
Proof.
  intros analyze st run.
  assert (Hne : Sequential.files st <> []) by discriminate.
  destruct (sequential_run_uses_context_of_earlier_records
              (fun _ => "") analyze st Hne) as (Hres & Herr & _).
  fold run in Hres, Herr. rewrite Hres, Herr. split; reflexivity.
Defined.

Section ContextFacts.

Import GeminiService Sequential.

Variable numberToString : Q -> string.

Lemma materialNames_outcome (ms : list (option Material)) :
  (In None ms /\ materialNames ms = Threw nullMaterial)
  \/ (~ In None ms /\ exists names, materialNames ms = Returned names).
Proof.
  induction ms as [|[m|] ms IH]; cbn [materialNames].
  - right. split; [intros [] | now exists []].
  - destruct IH as [[Hin ->] | [Hnot (names & ->)]].
    + left. split; [now right | reflexivity].
    + right. split; [|now eexists].
      intros [H | H]; [discriminate | contradiction].
  - left. split; [now left | reflexivity].
Qed.

Lemma describe_outcome (idx : nat) (r : ResultFile) :
  (~ describable r /\ describe numberToString idx r = Threw nullMaterial)
  \/ (describable r /\ exists text, describe numberToString idx r = Returned text).
Proof.
  unfold describe, describable.
  destruct (materials (analysis r)) as [[|m ms]|].
  - right. split; [intros ms [= <-] [] | now eexists].
  - destruct (materialNames_outcome (m :: ms)) as [[Hin ->] | [Hnot (names & ->)]].
    + left. split; [|reflexivity]. intros H. exact (H _ eq_refl Hin).
    + right. split; [intros ms' [= <-]; exact Hnot | now eexists].
  - right. split; [discriminate | now eexists].
Qed.

Lemma describeAll_outcome (rs : list ResultFile) :
  forall idx summary,
    (~ Forall describable rs
     /\ describeAll numberToString idx rs summary = Threw nullMaterial)
    \/ (Forall describable rs
        /\ exists text, describeAll numberToString idx rs summary = Returned text).
Proof.
  induction rs as [|r rs IH]; intros idx summary; cbn [describeAll].
  - right. split; [constructor | now eexists].
  - destruct (describe_outcome idx r) as [[Hnot ->] | [Hok (text & ->)]].
    + left. split; [|reflexivity]. intros H. inversion H; subst. contradiction.
    + destruct (IH (S idx) (summary ++ text)%string)
        as [[Hnot ->] | [Hall (out & ->)]].
      * left. split; [|reflexivity]. intros H. inversion H; subst. contradiction.
      * right. split; [now constructor | now eexists].
Qed.

Lemma filter_roof_idem (rs : list ResultFile) :
  filter (fun r => isRoofRelated (analysis r))
    (filter (fun r => isRoofRelated (analysis r)) rs)
  = filter (fun r => isRoofRelated (analysis r)) rs.
Proof.
  induction rs as [|r rs IH]; [reflexivity|]. cbn [filter].
  destruct (isRoofRelated (analysis r)) eqn:E; [|exact IH].
  cbn [filter]. now rewrite E, IH.
Qed.

End ContextFacts.

(** X21. The context handed to an analysis in the earlier App.tsx: it is
    the empty string for the first document, whenever the context mode is
    off, and whenever no earlier result is roof related; results that are not
    roof related never change it.  With the mode on it can be built exactly
    when no roof-related earlier result lists a null material: otherwise
    building it throws the TypeError of reading [material] of null, before
    the analysis of the next document is even called. *)
Theorem context_summary_behaviour :
  forall (numberToString : Q -> string) (mode : bool)
         (earlier : list ResultFile),
    let roof := filter (fun r => isRoofRelated (analysis r)) earlier in
    Sequential.contextFor numberToString mode [] = Returned EmptyString
    /\ Sequential.contextFor numberToString false earlier = Returned EmptyString
    /\ (roof = [] ->
        Sequential.contextFor numberToString mode earlier = Returned EmptyString)
    /\ Sequential.contextFor numberToString mode roof
       = Sequential.contextFor numberToString mode earlier
    /\ (Forall Sequential.describable roof ->
        exists text,
          Sequential.contextFor numberToString mode earlier = Returned text)
    /\ (mode = true -> ~ Forall Sequential.describable roof ->
        Sequential.contextFor numberToString mode earlier
        = Threw Sequential.nullMaterial).
Proof.
  intros numberToString mode earlier roof.
  split; [now destruct mode|]. split; [reflexivity|]. split; [|split; [|split]].
  - intros E. unfold Sequential.contextFor. fold roof. rewrite E.
    cbn. now rewrite andb_false_r.
  - subst roof. unfold Sequential.contextFor. now rewrite filter_roof_idem.
  - intros Hall. unfold Sequential.contextFor, Sequential.digest. fold roof.
    destruct (mode && (0 <? List.length roof)); [|now eexists].
    destruct (describeAll_outcome numberToString roof 0 Sequential.summaryHeader)
      as [[Hnot _] | [_ (text & ->)]]; [contradiction | now eexists].
  - intros -> Hnot. unfold Sequential.contextFor, Sequential.digest. fold roof.
    destruct roof as [|r rest] eqn:E; [exfalso; apply Hnot; constructor|].
    cbn [andb List.length Nat.ltb Nat.leb].
    destruct (describeAll_outcome numberToString (r :: rest) 0
                Sequential.summaryHeader)
      as [[_ ->] | [Hall _]]; [reflexivity | contradiction].
Qed.

Lemma context_summary_behaviour_witness :
  let broken :=
    Consolidation.sampleDocument "roof.pdf" true
      [Consolidation.sampleEntry (JsStr "EPDM") "DRL" "m2" 50 (8 # 10); None] in
  Sequential.contextFor (fun _ => "") true [broken]
  = Threw Sequential.nullMaterial.
Proof.
  intros broken.
  apply (proj2 (proj2 (proj2 (proj2 (proj2
           (context_summary_behaviour (fun _ => "") true [broken])))))).
  - reflexivity.
  - intros H. inversion H as [|? ? Hd _]; subst.
    apply (Hd _ eq_refl). right. now left.
Defined.

(** ** The order of the materials *)

Section OrderFacts.

Import App Consolidation Totals.

Lemma map_get_existsb (k : string) (mm : MaterialMap) :
  existsb (String.eqb k) (map fst mm)
  = match map_get k mm with Some _ => true | None => false end.
Proof.
  induction mm as [|[k0 v0] mm IH]; cbn [map fst existsb map_get];
    [reflexivity|].
  destruct (String.eqb k k0); [reflexivity | exact IH].
Qed.

Lemma fold_keys (es : list (string * option Material)) :
  forall mm : MaterialMap,
    map fst (fold_left addEntry es mm)
    = (map fst mm ++ newKeys (map fst mm) es)%list.
Proof.
  induction es as [|[file m] es IH]; intros mm; cbn [fold_left newKeys].
  - now rewrite app_nil_r.
  - rewrite IH.
    destruct (addEntry_cases mm file m)
      as [[Hn ->] | [(mat & name & ex & -> & Hn & Hex & ->)
                    | (mat & name & -> & Hn & Hnone & ->)]].
    + now rewrite (keyOf_skip _ Hn).
    + rewrite (keyOf_named _ _ Hn), map_get_existsb, Hex.
      now rewrite (map_set_keys_present _ _ _ _ Hex).
    + rewrite (keyOf_named _ _ Hn), map_get_existsb, Hnone.
      rewrite (map_set_keys_absent _ _ _ Hnone).
      now rewrite <- app_assoc.
Qed.

End OrderFacts.

(** X22. The materials of a summary are listed in the order in which their
    keys are first met when the entries of the roof-related results are
    visited: the keys of the listed materials are the keys of the entries
    with repetitions after the first left out. *)
Theorem summary_lists_materials_in_first_seen_order :
  forall (results : list ResultFile) (s : ConsolidatedSummary),
    App.getConsolidatedSummary results = Some s ->
    map (fun c => canonicalize (cm_material c)) (cs_materials s)
    = Totals.newKeys [] (Consolidation.entriesOf results)
    /\ NoDup (map (fun c => canonicalize (cm_material c)) (cs_materials s)).
Proof.
  intros results s Hs.
  destruct (getConsolidatedSummary_Some results s Hs) as (Hm & _).
  destruct (materialMapOf_wellKeyed results) as [Hnd Hkeys].
  assert (E : map (fun c => canonicalize (cm_material c)) (cs_materials s)
              = map fst (App.materialMapOf results)).
  { rewrite Hm. unfold App.map_values. rewrite map_map.
    apply map_ext_Forall. eapply Forall_impl; [|exact Hkeys].
    intros kc H. now symmetry. }
  rewrite E. split; [|exact Hnd].
  rewrite materialMapOf_entries, fold_keys. reflexivity.
Qed.

Lemma summary_lists_materials_in_first_seen_order_witness :
  let a :=
    Consolidation.sampleDocument "a.pdf" true
      [Consolidation.sampleEntry (JsStr "Gravel") "" "m2" 20 (5 # 10);
       Consolidation.sampleEntry (JsStr "EPDM") "DRL" "m2" 50 (8 # 10);
       Consolidation.sampleEntry (JsStr " gravel") "" "m2" 5 (5 # 10)] in
  exists s,
    App.getConsolidatedSummary [a] = Some s
    /\ map (fun c => canonicalize (cm_material c)) (cs_materials s)
       = ["gravel"; "epdm"].
Proof.
  intros a. eexists. split; [reflexivity|].
  exact (proj1 (summary_lists_materials_in_first_seen_order [a] _ eq_refl)).
Defined.
